(** * Balance-sheet tracker API

    A shallow embedding of the server of the balance-sheet tracker
    (schema, storage, auth, routes, ai-assistant) and the properties of
    its specification that were checked against it.

    Conventions of the model.
    - A JavaScript number is an IEEE-754 binary64 value: Rocq's primitive
      [float], whose [+ - * /] and comparisons are the ones of the
      language.
    - A [Date] is its time value in milliseconds, [None] for an Invalid
      Date.
    - A thrown exception is a value of [exn]. An [async] function that
      reads the database is a function of the database state; one that
      writes it returns a [result]: the new state, or what it throws (the
      state is then as it was).
    - What the language runtime and the libraries compute outside this
      repository (shortest decimal printing of a number, decimal parsing,
      calendar fields of a time value, bcrypt, token signing) is the
      interface [Runtime]; nothing is assumed about its members. The
      interface [Crypto] adds the hashing of bcrypt and the verification
      of a token in the same way.
    - The relational engine is a list of rows per table with the
      constraints the schema declares (primary key, NOT NULL, unique,
      foreign key). The order of the list is the model's own: a select
      has no ORDER BY, and returns the rows it matches in an order the
      engine chooses, [scan] of the interface [Engine]; any permutation
      is allowed.
    - The [id] columns are of type uuid: the engine reads the text of an
      id with the input function of that type, [uuid_in], and refuses a
      text that is no uuid; a row holds the output text of its id.
    - What the engine makes of a text written to a [date] column is
      [date_in] of the interface [Engine]; nothing is assumed about it. *)

From Stdlib Require Import Floats ZArith String Ascii DecimalString.
From stdpp Require Import gmap strings list.

Local Open Scope Z_scope.

(** One entry of [ZodError.errors]. *)
Record ZodIssue := {
  code : string;
  path : string;
  message : string }.

(** ** The runtime interface *)

Class Runtime := {
  (** Number::toString on a finite number greater than zero. *)
  finiteToString : float -> string;
  (** The global [parseFloat]. *)
  parseFloat : string -> float;
  (** StringToNumber, the string case of [Number(v)]. *)
  stringToNumber : string -> float;
  (** [Date.parse]; [None] when the text is no date. *)
  Date_parse : string -> option Z;
  (** [Date.prototype.toISOString] on a valid time value. *)
  toISOString : Z -> string;
  (** [getFullYear] and [getMonth] of a valid time value, local time. *)
  getFullYear : Z -> Z;
  getMonth : Z -> Z;
  (** [bcrypt.compare] on two strings. *)
  bcrypt_compare : string -> string -> bool;
  (** [jwt.sign] of the claims [id], [username] with the module's secret,
      issued at the given time, valid 24 hours. *)
  jwt_sign : Z -> string -> Z -> string;
  (** The [message] of a ZodError: the JSON text of its issues. *)
  zod_message : list ZodIssue -> string;
}.

(** ** Strings *)

Definition nl : string := String (ascii_of_nat 10) EmptyString.

Definition lower_ascii (c : ascii) : ascii :=
  let n := nat_of_ascii c in
  if ((65 <=? n) && (n <=? 90))%nat then ascii_of_nat (n + 32) else c.

(** [String.prototype.toLowerCase], on the bytes of the text (UTF-8): the
    letters A to Z are mapped, every other byte is kept. A letter outside
    A to Z has no lower-case form that completes one of the keywords the
    advice generator looks for (they are ASCII, none has a "k" and none
    ends in "i", the two ASCII letters such a form can bring in), so what
    [includes] answers for them is that of the language. *)
Fixpoint toLowerCase (s : string) : string :=
  match s with
  | EmptyString => EmptyString
  | String c s' => String (lower_ascii c) (toLowerCase s')
  end.

(** [s.includes(sub)] *)
Fixpoint includes (s sub : string) : bool :=
  String.prefix sub s ||
  match s with
  | EmptyString => false
  | String _ s' => includes s' sub
  end.

Definition string_of_N (n : N) : string := NilZero.string_of_uint (N.to_uint n).

Fixpoint zeros (k : nat) : string :=
  match k with O => EmptyString | S k' => String "0" (zeros k') end.

(** ** Record ids: the type uuid of the engine

    The input function of the type (string_to_uuid of PostgreSQL): an
    optional opening brace, sixteen bytes of two hexadecimal digits each,
    a hyphen allowed after every second byte but the last, the closing
    brace if there was an opening one, and the end of the text. The
    output is the lower-case text in groups of 8, 4, 4, 4 and 12 digits.
    Two ids are equal as uuid values when their output texts are. *)

(** [isxdigit] and the value of the digit. *)
Definition hex_value (c : ascii) : option N :=
  let n := N_of_ascii c in
  if ((48 <=? n) && (n <=? 57))%N then Some (n - 48)%N
  else if ((97 <=? n) && (n <=? 102))%N then Some (n - 87)%N
  else if ((65 <=? n) && (n <=? 70))%N then Some (n - 55)%N
  else None.

Definition hex_char (d : N) : ascii :=
  ascii_of_N (if (d <? 10)%N then d + 48 else d + 87)%N.

Definition skip_hyphen (src : string) : string :=
  match src with
  | String "-"%char rest => rest
  | _ => src
  end.

(** The loop over the bytes: [n] bytes are left to read, so the byte read
    is the byte [i = 16 - n], and [i] is odd and below 15 when [n - 1] is
    even and not zero. *)
Fixpoint uuid_digits (n : nat) (src : string) : option (list N * string) :=
  match n with
  | O => Some ([], src)
  | S n' =>
    match src with
    | String a (String b rest) =>
      match hex_value a, hex_value b with
      | Some x, Some y =>
        let rest := if Nat.even n' && negb (n' =? 0)%nat then skip_hyphen rest else rest in
        match uuid_digits n' rest with
        | Some (l, src') => Some (x :: y :: l, src')
        | None => None
        end
      | _, _ => None
      end
    | _ => None
    end
  end.

Fixpoint uuid_text (i : nat) (l : list N) : string :=
  match l with
  | [] => EmptyString
  | d :: l' =>
    let s := String (hex_char d) (uuid_text (S i) l') in
    if ((i =? 8) || (i =? 12) || (i =? 16) || (i =? 20))%nat then String "-" s else s
  end.

Definition uuid_out (l : list N) : string := uuid_text 0 l.

(** The uuid a text denotes, as its output text; [None] when the engine
    refuses the text. *)
Definition uuid_in (source : string) : option string :=
  let '(src, braces) :=
    match source with
    | String "{"%char rest => (rest, true)
    | _ => (source, false)
    end in
  match uuid_digits 16 src with
  | Some (l, rest) =>
    if String.eqb rest (if braces then "}" else "") then Some (uuid_out l) else None
  | None => None
  end.

(** ** The engine interface *)

Class Engine := {
  (** The order in which a select with no ORDER BY returns the rows it
      matches: some permutation of them. *)
  scan : forall {R : Type}, list R -> list R;
  scan_perm : forall {R : Type} (l : list R), scan l ≡ₚ l;
  (** The input function of the type date, with the output text of the
      day it reads; [None] when the engine refuses the text. *)
  date_in : string -> option string;
}.

(** ** Numbers *)

Definition number := float.

(** Number::toString, radix 10. *)
Definition numberToString {rt : Runtime} (x : number) : string :=
  match Prim2SF x with
  | S754_nan => "NaN"
  | S754_zero _ => "0"
  | S754_infinity true => "-Infinity"
  | S754_infinity false => "Infinity"
  | S754_finite true _ _ => "-" +:+ finiteToString (- x)%float
  | S754_finite false _ _ => finiteToString x
  end.

(** The digits of [n / 10^f] with [f] fraction digits (steps 9 to 11 of
    Number.prototype.toFixed). *)
Definition fixed_digits (f : nat) (n : N) : string :=
  let m := string_of_N n in
  match f with
  | O => m
  | _ =>
    let k := String.length m in
    let m := if (k <=? f)%nat then zeros (f + 1 - k) +:+ m else m in
    let k := String.length m in
    substring 0 (k - f) m +:+ "." +:+ substring (k - f) f m
  end.

(** [x.toFixed(f)] for [0 <= f <= 100]. *)
Definition toFixed {rt : Runtime} (x : number) (f : nat) : string :=
  match Prim2SF x with
  | S754_nan => "NaN"
  | S754_infinity true => "-Infinity"
  | S754_infinity false => "Infinity"
  | S754_zero _ => fixed_digits f 0
  | S754_finite s m e =>
    let sign := if s then "-" else "" in
    if 0 <=? e then
      let v := Z.pos m * 2 ^ e in
      if 10 ^ 21 <=? v then sign +:+ finiteToString (abs x)
      else sign +:+ fixed_digits f (Z.to_N (v * 10 ^ Z.of_nat f))
    else
      (* the integer n with n / 10^f - x closest to zero, the larger of two *)
      let d := 2 ^ (- e) in
      sign +:+ fixed_digits f (Z.to_N ((2 * Z.pos m * 10 ^ Z.of_nat f + d) / (2 * d)))
  end.

(** [Math.max(a, b)] and [Math.min(a, b)] (the sign of a zero result is
    not observed by the callers below). *)
Definition Math_max (a b : number) : number :=
  if is_nan a || is_nan b then nan
  else if (a <? b)%float then b else a.

Definition Math_min (a b : number) : number :=
  if is_nan a || is_nan b then nan
  else if (b <? a)%float then b else a.

(** ** Dates *)

Definition Date := option Z.

(** ** Entities (shared/schema: the types inferred from the zod schemas) *)

Module Income.
Record t := mk {
    id : string; userId : Z; source : string; category : string;
    amount : number; type : string; frequency : string;
    notes : option string; createdAt : Z }.
End Income.

Module Expense.
Record t := mk {
    id : string; userId : Z; category : string; amount : number;
    description : string; date : Z; notes : option string; createdAt : Z }.
End Expense.

Module Asset.
Record t := mk {
    id : string; userId : Z; name : string; category : string;
    value : number; incomeGenerated : number;
    notes : option string; createdAt : Z }.
End Asset.

Module Liability.
Record t := mk {
    id : string; userId : Z; description : string; type : string;
    amount : number; interestRate : number;
    notes : option string; createdAt : Z }.
End Liability.

Module Goal.
Record t := mk {
    id : string; userId : Z; description : string;
    targetAmount : number; currentAmount : number;
    targetDate : Date; createdAt : Z }.
End Goal.

(** ** ai-assistant.ts *)

Module Summary.
Record t := mk {
    totalIncome : number; totalExpenses : number; cashFlow : number;
    perDay : number; passiveIncome : number; netWorth : number;
    netWorthChange : number;
    largestExpenseCategory : string; largestExpenseAmount : number }.
End Summary.

Module UserData.
Record t := mk {
    incomes : list Income.t; expenses : list Expense.t;
    assets : list Asset.t; liabilities : list Liability.t;
    goals : list Goal.t; summary : Summary.t }.
End UserData.

Record AIAssistantRequest := {
  query : string;
  userData : UserData.t }.

Section Advice.
Context {rt : Runtime}.
Local Open Scope float_scope.
Local Infix "^^" := String.append (at level 60, right associativity).

Definition generateExpenseReductionAdvice (expenses : list Expense.t)
      (totalExpenses : number) (largestExpenseCategory : string)
      (largestExpenseAmount : number) : string :=
    let largestExpensePercentage := (largestExpenseAmount / totalExpenses) * 100 in
    let advice :=
      "Based on your expense data, here are some recommendations to reduce your spending:"
      ^^ nl ^^ nl in
    let advice := advice ^^ "1. Your largest expense category is " ^^ largestExpenseCategory
      ^^ " (" ^^ toFixed largestExpensePercentage 1 ^^ "% of total expenses). " in
    let advice := advice ^^ "Consider if there are ways to reduce this expense, such as:" ^^ nl in
    let advice :=
      if String.eqb largestExpenseCategory "Housing" then
        advice ^^ "   - Downsizing to a smaller home or apartment" ^^ nl
        ^^ "   - Refinancing your mortgage for a lower rate" ^^ nl
        ^^ "   - Taking on a roommate to share costs" ^^ nl
      else if String.eqb largestExpenseCategory "Transportation" then
        advice ^^ "   - Using public transportation more often" ^^ nl
        ^^ "   - Carpooling or ride-sharing" ^^ nl
        ^^ "   - Maintaining your vehicle properly to avoid costly repairs" ^^ nl
      else if String.eqb largestExpenseCategory "Food" then
        advice ^^ "   - Meal planning to reduce grocery waste" ^^ nl
        ^^ "   - Cooking at home instead of eating out" ^^ nl
        ^^ "   - Buying in bulk for non-perishable items" ^^ nl
      else
        advice ^^ "   - Reviewing subscriptions and canceling unnecessary ones" ^^ nl
        ^^ "   - Looking for cheaper alternatives" ^^ nl
        ^^ "   - Setting a strict budget for this category" ^^ nl in
    advice ^^ nl ^^ "2. General expense reduction strategies:" ^^ nl
    ^^ "   - Create a detailed budget and track all expenses" ^^ nl
    ^^ "   - Use the 50/30/20 rule: 50% for needs, 30% for wants, 20% for savings" ^^ nl
    ^^ "   - Look for recurring subscriptions you can cancel" ^^ nl
    ^^ "   - Consider negotiating bills like insurance, internet, and phone plans" ^^ nl
    ^^ "   - Use cash-back or rewards credit cards for purchases you already make" ^^ nl.

Definition generateAssetIncreaseAdvice (assets : list Asset.t)
      (netWorth passiveIncome : number) : string :=
    let advice := "Here are strategies to increase your assets and build wealth:" ^^ nl ^^ nl in
    let realEstateAssets := filter (fun a => Asset.category a = "Real Estate"%string) assets in
    let investmentAssets := filter (fun a => Asset.category a = "Investments"%string) assets in
    let businessAssets := filter (fun a => Asset.category a = "Business"%string) assets in
    let advice := advice ^^ "1. Based on your current assets:" ^^ nl in
    let advice :=
      if (length realEstateAssets =? 0)%nat then
        advice ^^ "   - Consider investing in real estate for long-term appreciation and rental income" ^^ nl
      else
        advice ^^ "   - Look for opportunities to increase the value of your existing properties" ^^ nl
        ^^ "   - Consider refinancing to access equity for additional investments" ^^ nl in
    let advice :=
      if (length investmentAssets =? 0)%nat then
        advice ^^ "   - Start investing in stocks, bonds, or ETFs for long-term growth" ^^ nl
      else
        advice ^^ "   - Diversify your investment portfolio across different asset classes" ^^ nl
        ^^ "   - Consider increasing your regular investment contributions" ^^ nl in
    let advice :=
      if (length businessAssets =? 0)%nat then
        advice ^^ "   - Explore starting a side business or investing in existing businesses" ^^ nl
      else
        advice ^^ "   - Look for ways to scale your existing business operations" ^^ nl
        ^^ "   - Consider reinvesting profits to grow the business" ^^ nl in
    advice ^^ nl ^^ "2. General strategies to increase assets:" ^^ nl
    ^^ "   - Increase your savings rate to invest more money" ^^ nl
    ^^ "   - Focus on building passive income streams (rental properties, dividends, etc.)" ^^ nl
    ^^ "   - Invest in your skills and education to increase earning potential" ^^ nl
    ^^ "   - Consider tax-advantaged accounts like 401(k)s, IRAs, or HSAs" ^^ nl
    ^^ "   - Look for opportunities to convert expenses into assets (e.g., buying a home instead of renting)" ^^ nl.

Definition generateLiabilityReductionAdvice (liabilities : list Liability.t)
      (cashFlow : number) : string :=
    let advice := "Here are strategies to reduce your liabilities and become debt-free:" ^^ nl ^^ nl in
    let highInterestLiabilities :=
      filter (fun l => (5 <? Liability.interestRate l) = true) liabilities in
    let totalLiabilities := foldl (fun sum l => sum + Liability.amount l) 0 liabilities in
    let advice := advice ^^ "1. Based on your current liabilities:" ^^ nl in
    let advice :=
      if (0 <? length highInterestLiabilities)%nat then
        advice ^^ "   - Prioritize paying off high-interest debt first (debt avalanche method)" ^^ nl
        ^^ "   - Consider debt consolidation or refinancing to lower interest rates" ^^ nl
      else advice in
    let advice :=
      if 0 <? totalLiabilities then
        advice ^^ "   - Create a debt repayment plan with specific timelines" ^^ nl
        ^^ "   - Allocate "
        ^^ toFixed (Math_min 20 (Math_max 5 ((cashFlow / totalLiabilities) * 100))) 0
        ^^ "% of your monthly cash flow to debt repayment" ^^ nl
      else advice in
    advice ^^ nl ^^ "2. Specific debt reduction strategies:" ^^ nl
    ^^ "   - Use the debt snowball method: pay minimum on all debts, then put extra toward the smallest debt" ^^ nl
    ^^ "   - Consider balance transfer cards with 0% introductory rates for credit card debt" ^^ nl
    ^^ "   - Look for ways to increase your income to accelerate debt repayment" ^^ nl
    ^^ "   - Cut unnecessary expenses to free up more money for debt payments" ^^ nl
    ^^ "   - Consider selling assets to pay down high-interest debt" ^^ nl.

  (** [monthsUntilTarget]; [None] is NaN, the value for an Invalid Date. *)
Definition monthsUntilTarget (today : Z) (g : Goal.t) : option Z :=
    match Goal.targetDate g with
    | None => None
    | Some targetDate =>
      Some ((getFullYear targetDate - getFullYear today) * 12
            + (getMonth targetDate - getMonth today))%Z
    end.

Definition generateGoalAchievementAdvice (today : Z) (goals : list Goal.t)
      (cashFlow netWorth : number) : string :=
    let advice := "Here are strategies to help you achieve your financial goals:" ^^ nl ^^ nl in
    let shortTermGoals :=
      filter (fun g => match monthsUntilTarget today g with
                       | Some m => (m <=? 12)%Z | None => false end = true) goals in
    let longTermGoals :=
      filter (fun g => match monthsUntilTarget today g with
                       | Some m => (12 <? m)%Z | None => false end = true) goals in
    let advice := advice ^^ "1. Based on your current goals:" ^^ nl in
    let advice :=
      if (0 <? length shortTermGoals)%nat then
        advice ^^ "   - For short-term goals (within 1 year), focus on saving a specific amount each month" ^^ nl
        ^^ "   - Consider using a high-yield savings account for short-term goals" ^^ nl
      else advice in
    let advice :=
      if (0 <? length longTermGoals)%nat then
        advice ^^ "   - For long-term goals, invest in growth-oriented assets like stocks or real estate" ^^ nl
        ^^ "   - Take advantage of compound interest by starting early" ^^ nl
      else advice in
    advice ^^ nl ^^ "2. General strategies to achieve your goals:" ^^ nl
    ^^ "   - Make your goals SMART: Specific, Measurable, Achievable, Relevant, Time-bound" ^^ nl
    ^^ "   - Automate savings and investments to ensure consistent progress" ^^ nl
    ^^ "   - Review your goals regularly and adjust as needed" ^^ nl
    ^^ "   - Celebrate small wins along the way to stay motivated" ^^ nl
    ^^ "   - Consider using apps or tools to track your progress" ^^ nl.

  (** [parseFloat(x)] on a number: the argument is first converted to its
      string. *)
Definition parseFloat_number (x : number) : number := parseFloat (numberToString x).

Definition generateGeneralFinancialAdvice (incomes : list Income.t)
      (expenses : list Expense.t) (assets : list Asset.t)
      (liabilities : list Liability.t) (goals : list Goal.t)
      (cashFlow passiveIncome netWorth : number) : string :=
    let advice :=
      "Based on your financial data, here's a comprehensive overview and advice:" ^^ nl ^^ nl in
    let activeIncome :=
      foldl (fun sum i => sum + parseFloat_number (Income.amount i)) 0
            (filter (fun i => Income.type i = "active"%string) incomes) in
    let passiveIncomePercentage :=
      if 0 <? activeIncome then (passiveIncome / activeIncome) * 100 else 0 in
    let advice := advice ^^ "1. Income: Your active income is " ^^ toFixed activeIncome 2
      ^^ ", with " ^^ toFixed passiveIncomePercentage 1 ^^ "% coming from passive sources. " in
    let advice := advice ^^ "To increase your income:" ^^ nl
      ^^ "   - Look for opportunities to increase your active income (raises, side hustles)" ^^ nl
      ^^ "   - Focus on building passive income streams (investments, rental properties)" ^^ nl
      ^^ "   - Develop new skills that command higher pay" ^^ nl ^^ nl in
    let totalExpenses :=
      foldl (fun sum e => sum + parseFloat_number (Expense.amount e)) 0 expenses in
    let advice := advice ^^ "2. Expenses: Your monthly expenses total "
      ^^ toFixed totalExpenses 2 ^^ ". " in
    let advice := advice ^^ "To optimize your spending:" ^^ nl
      ^^ "   - Review your largest expense categories for potential savings" ^^ nl
      ^^ "   - Consider the 50/30/20 budget rule" ^^ nl
      ^^ "   - Look for ways to reduce recurring expenses" ^^ nl ^^ nl in
    let totalAssets :=
      foldl (fun sum a => sum + parseFloat (numberToString (Asset.value a))) 0 assets in
    let advice := advice ^^ "3. Assets: Your total assets are valued at "
      ^^ toFixed totalAssets 2 ^^ ". " in
    let advice := advice ^^ "To grow your assets:" ^^ nl
      ^^ "   - Diversify your investments across different asset classes" ^^ nl
      ^^ "   - Reinvest returns to take advantage of compound growth" ^^ nl
      ^^ "   - Consider tax-advantaged investment accounts" ^^ nl ^^ nl in
    let totalLiabilities :=
      foldl (fun sum l => sum + parseFloat (numberToString (Liability.amount l))) 0 liabilities in
    let advice := advice ^^ "4. Liabilities: Your total liabilities are "
      ^^ toFixed totalLiabilities 2 ^^ ". " in
    let advice := advice ^^ "To reduce your debt:" ^^ nl
      ^^ "   - Prioritize high-interest debt first" ^^ nl
      ^^ "   - Consider debt consolidation for lower interest rates" ^^ nl
      ^^ "   - Create a specific debt repayment plan" ^^ nl ^^ nl in
    let advice := advice ^^ "5. Net Worth: Your current net worth is "
      ^^ toFixed netWorth 2 ^^ ". " in
    let advice := advice ^^ "To increase your net worth:" ^^ nl
      ^^ "   - Focus on increasing assets while reducing liabilities" ^^ nl
      ^^ "   - Maintain a positive cash flow to fund investments" ^^ nl
      ^^ "   - Set specific net worth goals and track progress regularly" ^^ nl ^^ nl in
    let advice := advice ^^ "6. Goals: You have " ^^ string_of_N (N.of_nat (length goals))
      ^^ " financial goals. " in
    advice ^^ "To achieve your goals:" ^^ nl
    ^^ "   - Prioritize goals based on importance and timeline" ^^ nl
    ^^ "   - Allocate your resources (time, money) accordingly" ^^ nl
    ^^ "   - Review and adjust your goals regularly" ^^ nl.

  (** [today] is the value of [new Date()] when the goal template runs. *)
Definition generateFinancialAdvice (today : Z) (request : AIAssistantRequest) : string :=
    let userData := userData request in
    let summary := UserData.summary userData in
    let totalIncome := Summary.totalIncome summary in
    let totalExpenses := Summary.totalExpenses summary in
    let cashFlow := Summary.cashFlow summary in
    let passiveIncome := Summary.passiveIncome summary in
    let netWorth := Summary.netWorth summary in
    let largestExpenseCategory := Summary.largestExpenseCategory summary in
    let largestExpenseAmount := Summary.largestExpenseAmount summary in
    let lowerQuery := toLowerCase (query request) in
    if includes lowerQuery "reduce"
       && (includes lowerQuery "expense" || includes lowerQuery "spending") then
      generateExpenseReductionAdvice (UserData.expenses userData) totalExpenses
        largestExpenseCategory largestExpenseAmount
    else if includes lowerQuery "increase" && includes lowerQuery "asset" then
      generateAssetIncreaseAdvice (UserData.assets userData) netWorth passiveIncome
    else if (includes lowerQuery "reduce" || includes lowerQuery "pay off")
            && includes lowerQuery "liability" then
      generateLiabilityReductionAdvice (UserData.liabilities userData) cashFlow
    else if includes lowerQuery "goal" || includes lowerQuery "reach" then
      generateGoalAchievementAdvice today (UserData.goals userData) cashFlow netWorth
    else
      generateGeneralFinancialAdvice (UserData.incomes userData)
        (UserData.expenses userData) (UserData.assets userData)
        (UserData.liabilities userData) (UserData.goals userData)
        cashFlow passiveIncome netWorth.
End Advice.

(** ** Exceptions and database actions *)

Inductive exn :=
| ZodError (issues : list ZodIssue)
| TypeError (message : string)
| RangeError (message : string)
| PostgresError (message : string)
| Error (message : string).

Inductive result (A : Type) :=
| Ok (a : A)
| Throw (e : exn).
Arguments Ok {A} a.
Arguments Throw {A} e.

(** [e.message]: every exception of the model is an [Error]. *)
Definition error_message {rt : Runtime} (e : exn) : string :=
  match e with
  | ZodError issues => zod_message issues
  | TypeError m | RangeError m | PostgresError m | Error m => m
  end.

(** A nullable column: SQL NULL (the [null] of the language) or a value.
    An optional property of an object is an [option]: [None] is
    [undefined]. *)
Inductive nullable (A : Type) :=
| Null
| NotNull (a : A).
Arguments Null {A}.
Arguments NotNull {A} a.

(** [x ?? null] *)
Definition or_null {A} (x : option A) : nullable A :=
  match x with Some a => NotNull a | None => Null end.

(** [x ?? undefined] *)
Definition or_undefined {A} (x : nullable A) : option A :=
  match x with NotNull a => Some a | Null => None end.

(** ** shared/schema: the tables *)

Module UserRow.
Record t := mk {
  id : Z; username : string; password : nullable string; email : string;
  googleId : nullable string; googleName : nullable string;
  googlePicture : nullable string; createdAt : Z; lastLogin : nullable Z }.
End UserRow.

(** A [numeric] column is read and written as decimal text, a [date]
    column as date text, a [timestamp] column as a time value, a [uuid]
    column as the output text of the uuid. The
    columns without [nullable] are NOT NULL; [created_at] is one of them,
    so the [?? new Date()] of the reads never applies and is left out. *)
Module IncomeRow.
Record t := mk {
  id : string; userId : Z; source : string; category : string;
  amount : string; type : string; frequency : string;
  notes : nullable string; createdAt : Z }.
End IncomeRow.

Module ExpenseRow.
Record t := mk {
  id : string; userId : Z; category : string; amount : string;
  description : string; date : Z; notes : nullable string; createdAt : Z }.
End ExpenseRow.

Module AssetRow.
Record t := mk {
  id : string; userId : Z; name : string; category : string;
  value : string; incomeGenerated : string;
  notes : nullable string; createdAt : Z }.
End AssetRow.

Module LiabilityRow.
Record t := mk {
  id : string; userId : Z; description : string; type : string;
  amount : string; interestRate : string;
  notes : nullable string; createdAt : Z }.
End LiabilityRow.

Module GoalRow.
Record t := mk {
  id : string; userId : Z; description : string;
  targetAmount : string; currentAmount : string;
  targetDate : string; createdAt : Z }.
End GoalRow.

Record Database := {
  users : list UserRow.t;
  incomes : list IncomeRow.t;
  expenses : list ExpenseRow.t;
  assets : list AssetRow.t;
  liabilities : list LiabilityRow.t;
  goals : list GoalRow.t }.

Definition set_incomes (db : Database) (t : list IncomeRow.t) : Database :=
  {| users := users db; incomes := t; expenses := expenses db;
     assets := assets db; liabilities := liabilities db; goals := goals db |}.
Definition set_expenses (db : Database) (t : list ExpenseRow.t) : Database :=
  {| users := users db; incomes := incomes db; expenses := t;
     assets := assets db; liabilities := liabilities db; goals := goals db |}.
Definition set_assets (db : Database) (t : list AssetRow.t) : Database :=
  {| users := users db; incomes := incomes db; expenses := expenses db;
     assets := t; liabilities := liabilities db; goals := goals db |}.
Definition set_liabilities (db : Database) (t : list LiabilityRow.t) : Database :=
  {| users := users db; incomes := incomes db; expenses := expenses db;
     assets := assets db; liabilities := t; goals := goals db |}.
Definition set_goals (db : Database) (t : list GoalRow.t) : Database :=
  {| users := users db; incomes := incomes db; expenses := expenses db;
     assets := assets db; liabilities := liabilities db; goals := t |}.
Definition set_users (db : Database) (t : list UserRow.t) : Database :=
  {| users := t; incomes := incomes db; expenses := expenses db;
     assets := assets db; liabilities := liabilities db; goals := goals db |}.

(** The two columns every financial table has: the primary key [id] and
    the owner [user_id], a foreign key into [users]. *)
Class Owned (R : Type) := {
  row_id : R -> string;
  row_userId : R -> Z }.

#[export] Instance IncomeRow_owned : Owned IncomeRow.t :=
  {| row_id := IncomeRow.id; row_userId := IncomeRow.userId |}.
#[export] Instance ExpenseRow_owned : Owned ExpenseRow.t :=
  {| row_id := ExpenseRow.id; row_userId := ExpenseRow.userId |}.
#[export] Instance AssetRow_owned : Owned AssetRow.t :=
  {| row_id := AssetRow.id; row_userId := AssetRow.userId |}.
#[export] Instance LiabilityRow_owned : Owned LiabilityRow.t :=
  {| row_id := LiabilityRow.id; row_userId := LiabilityRow.userId |}.
#[export] Instance GoalRow_owned : Owned GoalRow.t :=
  {| row_id := GoalRow.id; row_userId := GoalRow.userId |}.

(** ** The query builder, on one table *)

Section Table.
Context {en : Engine} {R : Type} `{Owned R}.

(** [where(eq(t.userId, userId))] *)
Definition of_user (userId : Z) (r : R) : Prop := row_userId r = userId.

(** [where(and(eq(t.id, id), eq(t.userId, userId)))], [id] being the
    output text of the uuid asked for. *)
Definition is_record (id : string) (userId : Z) (r : R) : Prop :=
  row_id r = id /\ row_userId r = userId.

#[export] Instance of_user_dec userId r : Decision (of_user userId r).
Proof. unfold of_user. apply _. Defined.

#[export] Instance is_record_dec id userId r : Decision (is_record id userId r).
Proof. unfold is_record. apply _. Defined.

(** [db.select().from(t).where(p)]: the rows that match, in the order
    the engine returns them. *)
Definition select_where (p : R -> Prop) `{!forall r, Decision (p r)} (t : list R) : list R :=
  scan (filter p t).

(** [db.insert(t).values(r).returning()]: the row is refused when its id
    is taken (primary key) or its owner is no user (foreign key). Where
    the row goes in the list is of no consequence: a select reads the
    list through [scan]. *)
Definition insert_returning (us : list UserRow.t) (r : R) (t : list R) : result (R * list R) :=
  if bool_decide (row_id r ∈ row_id <$> t) then
    Throw (PostgresError "duplicate key value violates unique constraint")
  else if bool_decide (row_userId r ∈ UserRow.id <$> us) then
    Ok (r, t ++ [r])
  else Throw (PostgresError "insert or update on table violates foreign key constraint").

(** [db.update(t).set(f).where(p).returning()]: every row that matches is
    replaced by [f] of it; [owner] is the [user_id] the set clause assigns,
    if it assigns one, and the statement fails as a whole when it changes
    a row to an owner that is no user. The predicate is over rows: the
    callers read the id they are given with [uuid_in] before they come
    here. The place of a changed row in the list is of no consequence
    either. *)
Definition update_where (us : list UserRow.t) (p : R -> Prop) `{!forall r, Decision (p r)}
    (owner : option Z) (f : R -> R) (t : list R) : result (list R * list R) :=
  let t' := (fun r => if decide (p r) then f r else r) <$> t in
  match owner with
  | Some u =>
    if bool_decide (filter p t <> [] /\ (u ∉ UserRow.id <$> us)) then
      Throw (PostgresError "insert or update on table violates foreign key constraint")
    else Ok (f <$> filter p t, t')
  | None => Ok (f <$> filter p t, t')
  end.

(** [db.delete(t).where(p)] *)
Definition delete_where (p : R -> Prop) `{!forall r, Decision (p r)} (t : list R) : list R :=
  filter (fun r => ~ p r) t.
End Table.

(** ** storage.ts: the arguments of the write operations

    [Partial<Omit<Income, "id" | "createdAt">>] and its siblings. The
    create operations declare every property present; the bulk routes
    hand them objects read off unvalidated input, so a property may be
    [undefined] there too. *)

Module IncomeData.
Record t := mk {
  userId : option Z; source : option string; category : option string;
  amount : option number; type : option string; frequency : option string;
  notes : option string }.
End IncomeData.

Module ExpenseData.
Record t := mk {
  userId : option Z; category : option string; amount : option number;
  description : option string; date : option Date; notes : option string }.
End ExpenseData.

Module AssetData.
Record t := mk {
  userId : option Z; name : option string; category : option string;
  value : option number; incomeGenerated : option number;
  notes : option string }.
End AssetData.

Module LiabilityData.
Record t := mk {
  userId : option Z; description : option string; type : option string;
  amount : option number; interestRate : option number;
  notes : option string }.
End LiabilityData.

Module GoalData.
Record t := mk {
  userId : option Z; description : option string;
  targetAmount : option number; currentAmount : option number;
  targetDate : option Date }.
End GoalData.

Definition undefined_toString : exn :=
  TypeError "Cannot read properties of undefined (reading 'toString')".
Definition undefined_toISOString : exn :=
  TypeError "Cannot read properties of undefined (reading 'toISOString')".
Definition invalid_time : exn := RangeError "Invalid time value".
Definition not_null_violation : exn :=
  PostgresError "null value in column violates not-null constraint".
Definition invalid_uuid : exn := PostgresError "invalid input syntax for type uuid".
Definition invalid_date : exn := PostgresError "invalid input syntax for type date".

(** [d.toISOString()] *)
Definition Date_toISOString {rt : Runtime} (d : Date) : result string :=
  match d with
  | Some t => Ok (toISOString t)
  | None => Throw invalid_time
  end.

(** ** storage.ts: PostgresStorage *)

Section Storage.
Context {rt : Runtime} {en : Engine}.

(** *** Users *)

Definition getUser (id : Z) (db : Database) : option UserRow.t :=
  head (filter (fun u => UserRow.id u = id) (users db)).

Definition getUserByUsername (username : string) (db : Database) : option UserRow.t :=
  head (filter (fun u => UserRow.username u = username) (users db)).

(** *** Incomes *)

Definition mapIncome (income : IncomeRow.t) : Income.t :=
  {| Income.id := IncomeRow.id income;
     Income.userId := IncomeRow.userId income;
     Income.source := IncomeRow.source income;
     Income.category := IncomeRow.category income;
     Income.amount := parseFloat (IncomeRow.amount income);
     Income.type := IncomeRow.type income;
     Income.frequency := IncomeRow.frequency income;
     Income.notes := or_undefined (IncomeRow.notes income);
     Income.createdAt := IncomeRow.createdAt income |}.

Definition getAllIncomes (userId : Z) (db : Database) : list Income.t :=
  mapIncome <$> select_where (of_user userId) (incomes db).

Definition getIncome (id : string) (userId : Z) (db : Database) : result (option Income.t) :=
  match uuid_in id with
  | None => Throw invalid_uuid
  | Some id =>
    match head (select_where (is_record id userId) (incomes db)) with
    | None => Ok None
    | Some r => Ok (Some (mapIncome r))
    end
  end.

(** [id] is the value of [uuidv4()] and [now] of [new Date()]. The engine
    reads the id as it reads every value of the column, and the row
    returned carries its output text (for a value of [uuidv4()], the
    value itself). *)
Definition createIncome (id : string) (now : Z) (income : IncomeData.t) (db : Database)
    : result (Income.t * Database) :=
  match IncomeData.amount income with
  | None => Throw undefined_toString
  | Some amount =>
    match uuid_in id with
    | None => Throw invalid_uuid
    | Some id =>
      match IncomeData.userId income, IncomeData.source income, IncomeData.category income,
            IncomeData.type income, IncomeData.frequency income with
      | Some userId, Some source, Some category, Some type, Some frequency =>
        let incomeData :=
          {| IncomeRow.id := id; IncomeRow.userId := userId;
             IncomeRow.source := source; IncomeRow.category := category;
             IncomeRow.amount := numberToString amount;
             IncomeRow.type := type; IncomeRow.frequency := frequency;
             IncomeRow.notes := or_null (IncomeData.notes income);
             IncomeRow.createdAt := now |} in
        match insert_returning (users db) incomeData (incomes db) with
        | Throw e => Throw e
        | Ok (r, t) => Ok (mapIncome r, set_incomes db t)
        end
      | _, _, _, _, _ => Throw not_null_violation
      end
    end
  end.

(** The set clause of [updateIncome]: a property that is [undefined] leaves
    its column as it is; [notes] is always assigned. *)
Definition setIncome (income : IncomeData.t) (r : IncomeRow.t) : IncomeRow.t :=
  {| IncomeRow.id := IncomeRow.id r;
     IncomeRow.userId := default (IncomeRow.userId r) (IncomeData.userId income);
     IncomeRow.source := default (IncomeRow.source r) (IncomeData.source income);
     IncomeRow.category := default (IncomeRow.category r) (IncomeData.category income);
     IncomeRow.amount := default (IncomeRow.amount r) (numberToString <$> IncomeData.amount income);
     IncomeRow.type := default (IncomeRow.type r) (IncomeData.type income);
     IncomeRow.frequency := default (IncomeRow.frequency r) (IncomeData.frequency income);
     IncomeRow.notes := or_null (IncomeData.notes income);
     IncomeRow.createdAt := IncomeRow.createdAt r |}.

Definition updateIncome (id : string) (income : IncomeData.t) (userId : Z) (db : Database)
    : result Database :=
  match uuid_in id with
  | None => Throw invalid_uuid
  | Some id =>
    match update_where (users db) (is_record id userId) (IncomeData.userId income)
            (setIncome income) (incomes db) with
    | Throw e => Throw e
    | Ok (_, t) => Ok (set_incomes db t)
    end
  end.

Definition deleteIncome (id : string) (userId : Z) (db : Database) : result Database :=
  match uuid_in id with
  | None => Throw invalid_uuid
  | Some id => Ok (set_incomes db (delete_where (is_record id userId) (incomes db)))
  end.

(** *** Expenses *)

Definition mapExpense (expense : ExpenseRow.t) : Expense.t :=
  {| Expense.id := ExpenseRow.id expense;
     Expense.userId := ExpenseRow.userId expense;
     Expense.category := ExpenseRow.category expense;
     Expense.amount := parseFloat (ExpenseRow.amount expense);
     Expense.description := ExpenseRow.description expense;
     Expense.date := ExpenseRow.date expense;
     Expense.notes := or_undefined (ExpenseRow.notes expense);
     Expense.createdAt := ExpenseRow.createdAt expense |}.

Definition getAllExpenses (userId : Z) (db : Database) : list Expense.t :=
  mapExpense <$> select_where (of_user userId) (expenses db).

Definition getExpense (id : string) (userId : Z) (db : Database) : result (option Expense.t) :=
  match uuid_in id with
  | None => Throw invalid_uuid
  | Some id =>
    match head (select_where (is_record id userId) (expenses db)) with
    | None => Ok None
    | Some r => Ok (Some (mapExpense r))
    end
  end.

(** The [date] column is a timestamp: the driver writes a [Date] through
    [toISOString], which throws on an Invalid Date. *)
Definition createExpense (id : string) (now : Z) (expense : ExpenseData.t) (db : Database)
    : result (Expense.t * Database) :=
  match ExpenseData.amount expense with
  | None => Throw undefined_toString
  | Some amount =>
    match ExpenseData.date expense with
    | Some None => Throw invalid_time
    | date =>
      match uuid_in id with
      | None => Throw invalid_uuid
      | Some id =>
        match ExpenseData.userId expense, ExpenseData.category expense,
              ExpenseData.description expense, mjoin date with
        | Some userId, Some category, Some description, Some date =>
          let expenseData :=
            {| ExpenseRow.id := id; ExpenseRow.userId := userId;
               ExpenseRow.category := category;
               ExpenseRow.amount := numberToString amount;
               ExpenseRow.description := description; ExpenseRow.date := date;
               ExpenseRow.notes := or_null (ExpenseData.notes expense);
               ExpenseRow.createdAt := now |} in
          match insert_returning (users db) expenseData (expenses db) with
          | Throw e => Throw e
          | Ok (r, t) => Ok (mapExpense r, set_expenses db t)
          end
        | _, _, _, _ => Throw not_null_violation
        end
      end
    end
  end.

Definition setExpense (expense : ExpenseData.t) (date : option Z) (r : ExpenseRow.t)
    : ExpenseRow.t :=
  {| ExpenseRow.id := ExpenseRow.id r;
     ExpenseRow.userId := default (ExpenseRow.userId r) (ExpenseData.userId expense);
     ExpenseRow.category := default (ExpenseRow.category r) (ExpenseData.category expense);
     ExpenseRow.amount := default (ExpenseRow.amount r) (numberToString <$> ExpenseData.amount expense);
     ExpenseRow.description := default (ExpenseRow.description r) (ExpenseData.description expense);
     ExpenseRow.date := default (ExpenseRow.date r) date;
     ExpenseRow.notes := or_null (ExpenseData.notes expense);
     ExpenseRow.createdAt := ExpenseRow.createdAt r |}.

Definition updateExpense (id : string) (expense : ExpenseData.t) (userId : Z) (db : Database)
    : result Database :=
  match ExpenseData.date expense with
  | Some None => Throw invalid_time
  | date =>
    match uuid_in id with
    | None => Throw invalid_uuid
    | Some id =>
      match update_where (users db) (is_record id userId) (ExpenseData.userId expense)
              (setExpense expense (mjoin date)) (expenses db) with
      | Throw e => Throw e
      | Ok (_, t) => Ok (set_expenses db t)
      end
    end
  end.

Definition deleteExpense (id : string) (userId : Z) (db : Database) : result Database :=
  match uuid_in id with
  | None => Throw invalid_uuid
  | Some id => Ok (set_expenses db (delete_where (is_record id userId) (expenses db)))
  end.
(** *** Assets *)

Definition mapAsset (asset : AssetRow.t) : Asset.t :=
  {| Asset.id := AssetRow.id asset;
     Asset.userId := AssetRow.userId asset;
     Asset.name := AssetRow.name asset;
     Asset.category := AssetRow.category asset;
     Asset.value := parseFloat (AssetRow.value asset);
     Asset.incomeGenerated := parseFloat (AssetRow.incomeGenerated asset);
     Asset.notes := or_undefined (AssetRow.notes asset);
     Asset.createdAt := AssetRow.createdAt asset |}.

Definition getAllAssets (userId : Z) (db : Database) : list Asset.t :=
  mapAsset <$> select_where (of_user userId) (assets db).

Definition getAsset (id : string) (userId : Z) (db : Database) : result (option Asset.t) :=
  match uuid_in id with
  | None => Throw invalid_uuid
  | Some id =>
    match head (select_where (is_record id userId) (assets db)) with
    | None => Ok None
    | Some r => Ok (Some (mapAsset r))
    end
  end.

Definition createAsset (id : string) (now : Z) (asset : AssetData.t) (db : Database)
    : result (Asset.t * Database) :=
  match AssetData.value asset, AssetData.incomeGenerated asset with
  | Some value, Some incomeGenerated =>
    match uuid_in id with
    | None => Throw invalid_uuid
    | Some id =>
      match AssetData.userId asset, AssetData.name asset, AssetData.category asset with
      | Some userId, Some name, Some category =>
        let assetData :=
          {| AssetRow.id := id; AssetRow.userId := userId;
             AssetRow.name := name; AssetRow.category := category;
             AssetRow.value := numberToString value;
             AssetRow.incomeGenerated := numberToString incomeGenerated;
             AssetRow.notes := or_null (AssetData.notes asset);
             AssetRow.createdAt := now |} in
        match insert_returning (users db) assetData (assets db) with
        | Throw e => Throw e
        | Ok (r, t) => Ok (mapAsset r, set_assets db t)
        end
      | _, _, _ => Throw not_null_violation
      end
    end
  | _, _ => Throw undefined_toString
  end.

Definition setAsset (asset : AssetData.t) (r : AssetRow.t) : AssetRow.t :=
  {| AssetRow.id := AssetRow.id r;
     AssetRow.userId := default (AssetRow.userId r) (AssetData.userId asset);
     AssetRow.name := default (AssetRow.name r) (AssetData.name asset);
     AssetRow.category := default (AssetRow.category r) (AssetData.category asset);
     AssetRow.value := default (AssetRow.value r) (numberToString <$> AssetData.value asset);
     AssetRow.incomeGenerated :=
       default (AssetRow.incomeGenerated r) (numberToString <$> AssetData.incomeGenerated asset);
     AssetRow.notes := or_null (AssetData.notes asset);
     AssetRow.createdAt := AssetRow.createdAt r |}.

Definition updateAsset (id : string) (asset : AssetData.t) (userId : Z) (db : Database)
    : result Database :=
  match uuid_in id with
  | None => Throw invalid_uuid
  | Some id =>
    match update_where (users db) (is_record id userId) (AssetData.userId asset)
            (setAsset asset) (assets db) with
    | Throw e => Throw e
    | Ok (_, t) => Ok (set_assets db t)
    end
  end.

Definition deleteAsset (id : string) (userId : Z) (db : Database) : result Database :=
  match uuid_in id with
  | None => Throw invalid_uuid
  | Some id => Ok (set_assets db (delete_where (is_record id userId) (assets db)))
  end.

(** *** Liabilities *)

Definition mapLiability (liability : LiabilityRow.t) : Liability.t :=
  {| Liability.id := LiabilityRow.id liability;
     Liability.userId := LiabilityRow.userId liability;
     Liability.description := LiabilityRow.description liability;
     Liability.type := LiabilityRow.type liability;
     Liability.amount := parseFloat (LiabilityRow.amount liability);
     Liability.interestRate := parseFloat (LiabilityRow.interestRate liability);
     Liability.notes := or_undefined (LiabilityRow.notes liability);
     Liability.createdAt := LiabilityRow.createdAt liability |}.

Definition getAllLiabilities (userId : Z) (db : Database) : list Liability.t :=
  mapLiability <$> select_where (of_user userId) (liabilities db).

Definition getLiability (id : string) (userId : Z) (db : Database) : result (option Liability.t) :=
  match uuid_in id with
  | None => Throw invalid_uuid
  | Some id =>
    match head (select_where (is_record id userId) (liabilities db)) with
    | None => Ok None
    | Some r => Ok (Some (mapLiability r))
    end
  end.

Definition createLiability (id : string) (now : Z) (liability : LiabilityData.t)
    (db : Database) : result (Liability.t * Database) :=
  match LiabilityData.amount liability, LiabilityData.interestRate liability with
  | Some amount, Some interestRate =>
    match uuid_in id with
    | None => Throw invalid_uuid
    | Some id =>
      match LiabilityData.userId liability, LiabilityData.description liability,
            LiabilityData.type liability with
      | Some userId, Some description, Some type =>
        let liabilityData :=
          {| LiabilityRow.id := id; LiabilityRow.userId := userId;
             LiabilityRow.description := description; LiabilityRow.type := type;
             LiabilityRow.amount := numberToString amount;
             LiabilityRow.interestRate := numberToString interestRate;
             LiabilityRow.notes := or_null (LiabilityData.notes liability);
             LiabilityRow.createdAt := now |} in
        match insert_returning (users db) liabilityData (liabilities db) with
        | Throw e => Throw e
        | Ok (r, t) => Ok (mapLiability r, set_liabilities db t)
        end
      | _, _, _ => Throw not_null_violation
      end
    end
  | _, _ => Throw undefined_toString
  end.

Definition setLiability (liability : LiabilityData.t) (r : LiabilityRow.t) : LiabilityRow.t :=
  {| LiabilityRow.id := LiabilityRow.id r;
     LiabilityRow.userId := default (LiabilityRow.userId r) (LiabilityData.userId liability);
     LiabilityRow.description :=
       default (LiabilityRow.description r) (LiabilityData.description liability);
     LiabilityRow.type := default (LiabilityRow.type r) (LiabilityData.type liability);
     LiabilityRow.amount :=
       default (LiabilityRow.amount r) (numberToString <$> LiabilityData.amount liability);
     LiabilityRow.interestRate :=
       default (LiabilityRow.interestRate r)
               (numberToString <$> LiabilityData.interestRate liability);
     LiabilityRow.notes := or_null (LiabilityData.notes liability);
     LiabilityRow.createdAt := LiabilityRow.createdAt r |}.

Definition updateLiability (id : string) (liability : LiabilityData.t) (userId : Z)
    (db : Database) : result Database :=
  match uuid_in id with
  | None => Throw invalid_uuid
  | Some id =>
    match update_where (users db) (is_record id userId) (LiabilityData.userId liability)
            (setLiability liability) (liabilities db) with
    | Throw e => Throw e
    | Ok (_, t) => Ok (set_liabilities db t)
    end
  end.

Definition deleteLiability (id : string) (userId : Z) (db : Database) : result Database :=
  match uuid_in id with
  | None => Throw invalid_uuid
  | Some id => Ok (set_liabilities db (delete_where (is_record id userId) (liabilities db)))
  end.

(** *** Goals *)

(** [new Date(text)] *)
Definition Date_of_string (text : string) : Date := Date_parse text.

Definition mapGoal (goal : GoalRow.t) : Goal.t :=
  {| Goal.id := GoalRow.id goal;
     Goal.userId := GoalRow.userId goal;
     Goal.description := GoalRow.description goal;
     Goal.targetAmount := parseFloat (GoalRow.targetAmount goal);
     Goal.currentAmount := parseFloat (GoalRow.currentAmount goal);
     Goal.targetDate := Date_of_string (GoalRow.targetDate goal);
     Goal.createdAt := GoalRow.createdAt goal |}.

Definition getAllGoals (userId : Z) (db : Database) : list Goal.t :=
  mapGoal <$> select_where (of_user userId) (goals db).

Definition getGoal (id : string) (userId : Z) (db : Database) : result (option Goal.t) :=
  match uuid_in id with
  | None => Throw invalid_uuid
  | Some id =>
    match head (select_where (is_record id userId) (goals db)) with
    | None => Ok None
    | Some r => Ok (Some (mapGoal r))
    end
  end.

(** [target_date] is a date column: the text of [toISOString] is what
    the statement sends, and the row returned, which [new Date] then
    reads, holds what the engine kept of it. *)
Definition createGoal (id : string) (now : Z) (goal : GoalData.t) (db : Database)
    : result (Goal.t * Database) :=
  match GoalData.targetAmount goal, GoalData.currentAmount goal with
  | Some targetAmount, Some currentAmount =>
    match GoalData.targetDate goal with
    | None => Throw undefined_toISOString
    | Some None => Throw invalid_time
    | Some (Some targetDate) =>
      match uuid_in id with
      | None => Throw invalid_uuid
      | Some id =>
        match date_in (toISOString targetDate) with
        | None => Throw invalid_date
        | Some day =>
          match GoalData.userId goal, GoalData.description goal with
          | Some userId, Some description =>
            let goalData :=
              {| GoalRow.id := id; GoalRow.userId := userId;
                 GoalRow.description := description;
                 GoalRow.targetAmount := numberToString targetAmount;
                 GoalRow.currentAmount := numberToString currentAmount;
                 GoalRow.targetDate := day;
                 GoalRow.createdAt := now |} in
            match insert_returning (users db) goalData (goals db) with
            | Throw e => Throw e
            | Ok (r, t) => Ok (mapGoal r, set_goals db t)
            end
          | _, _ => Throw not_null_violation
          end
        end
      end
    end
  | _, _ => Throw undefined_toString
  end.

Definition setGoal (goal : GoalData.t) (targetDate : option string) (r : GoalRow.t)
    : GoalRow.t :=
  {| GoalRow.id := GoalRow.id r;
     GoalRow.userId := default (GoalRow.userId r) (GoalData.userId goal);
     GoalRow.description := default (GoalRow.description r) (GoalData.description goal);
     GoalRow.targetAmount :=
       default (GoalRow.targetAmount r) (numberToString <$> GoalData.targetAmount goal);
     GoalRow.currentAmount :=
       default (GoalRow.currentAmount r) (numberToString <$> GoalData.currentAmount goal);
     GoalRow.targetDate := default (GoalRow.targetDate r) targetDate;
     GoalRow.createdAt := GoalRow.createdAt r |}.

(** What the engine keeps of the target date of a patch, if it has one;
    [None] when it refuses the text. *)
Definition stored_day (targetDate : option Z) : option (option string) :=
  match targetDate with
  | None => Some None
  | Some t =>
    match date_in (toISOString t) with
    | Some day => Some (Some day)
    | None => None
    end
  end.

(** A goal has no [notes]; a patch in which every property is [undefined]
    leaves the query builder with nothing to set, which it refuses. *)
Definition updateGoal (id : string) (goal : GoalData.t) (userId : Z) (db : Database)
    : result Database :=
  match GoalData.targetDate goal with
  | Some None => Throw invalid_time
  | targetDate =>
    match GoalData.userId goal, GoalData.description goal, GoalData.targetAmount goal,
          GoalData.currentAmount goal, targetDate with
    | None, None, None, None, None => Throw (Error "No values to set")
    | _, _, _, _, _ =>
      match stored_day (mjoin targetDate) with
      | None => Throw invalid_date
      | Some day =>
        match uuid_in id with
        | None => Throw invalid_uuid
        | Some id =>
          match update_where (users db) (is_record id userId) (GoalData.userId goal)
                  (setGoal goal day) (goals db) with
          | Throw e => Throw e
          | Ok (_, t) => Ok (set_goals db t)
          end
        end
      end
    end
  end.

Definition deleteGoal (id : string) (userId : Z) (db : Database) : result Database :=
  match uuid_in id with
  | None => Throw invalid_uuid
  | Some id => Ok (set_goals db (delete_where (is_record id userId) (goals db)))
  end.
End Storage.

(** ** auth.ts *)

Section Auth.
Context {rt : Runtime}.

(** [bcrypt.compare] rejects when the hash is missing. *)
Definition comparePasswords (password : string) (hashedPassword : nullable string)
    : result bool :=
  match hashedPassword with
  | Null => Throw (Error "data and hash arguments required")
  | NotNull h => Ok (bcrypt_compare password h)
  end.

Definition generateToken (id : Z) (username : string) (now : Z) : string :=
  jwt_sign id username now.

Record LoginResult := {
  token : string;
  user_id : Z;
  user_username : string }.

Definition setLastLogin (now : Z) (u : UserRow.t) : UserRow.t :=
  {| UserRow.id := UserRow.id u; UserRow.username := UserRow.username u;
     UserRow.password := UserRow.password u; UserRow.email := UserRow.email u;
     UserRow.googleId := UserRow.googleId u; UserRow.googleName := UserRow.googleName u;
     UserRow.googlePicture := UserRow.googlePicture u;
     UserRow.createdAt := UserRow.createdAt u; UserRow.lastLogin := NotNull now |}.

Definition login (now : Z) (username password : string) (db : Database)
    : result (LoginResult * Database) :=
  match head (filter (fun u => UserRow.username u = username) (users db)) with
  | None => Throw (Error "User not found")
  | Some user =>
    match comparePasswords password (UserRow.password user) with
    | Throw e => Throw e
    | Ok false => Throw (Error "Invalid password")
    | Ok true =>
      let db' := set_users db
        ((fun u => if decide (UserRow.id u = UserRow.id user) then setLastLogin now u else u)
           <$> users db) in
      Ok ({| token := generateToken (UserRow.id user) (UserRow.username user) now;
             user_id := UserRow.id user;
             user_username := UserRow.username user |}, db')
    end
  end.
End Auth.

(** ** Request bodies *)

(** A value of a parsed JSON body, or what a handler puts in its place
    before validation. An array carries the string it converts to; a
    plain object converts to "[object Object]". *)
Inductive value :=
| VNull
| VBool (b : bool)
| VNumber (x : number)
| VString (s : string)
| VDate (d : Date)
| VArray (joined : string)
| VObject.

(** A property that is absent reads as [undefined]: [None]. *)
Definition object := gmap string value.

Definition float_of_bool (b : bool) : number := if b then 1%float else 0%float.

(** The integer part of a finite number. *)
Definition truncate (x : number) : option Z :=
  match Prim2SF x with
  | S754_zero _ => Some 0
  | S754_finite s m e =>
    let a := if 0 <=? e then Z.pos m * 2 ^ e else Z.pos m / 2 ^ (- e) in
    Some (if s then - a else a)
  | _ => None
  end.

(** TimeClip *)
Definition TimeClip (x : number) : Date :=
  match truncate x with
  | Some t => if Z.abs t <=? 8640000000000000 then Some t else None
  | None => None
  end.

Section Conversions.
Context {rt : Runtime}.

(** [Number(v)] *)
Definition Number (v : option value) : number :=
  match v with
  | None => nan
  | Some VNull => 0%float
  | Some (VBool b) => float_of_bool b
  | Some (VNumber x) => x
  | Some (VString s) => stringToNumber s
  | Some (VDate (Some t)) => if t <? 0 then (- of_uint63 (Uint63.of_Z (- t)))%float
                             else of_uint63 (Uint63.of_Z t)
  | Some (VDate None) => nan
  | Some (VArray joined) => stringToNumber joined
  | Some VObject => stringToNumber "[object Object]"
  end.

(** [new Date(v)] *)
Definition new_Date (v : option value) : Date :=
  match v with
  | None => None
  | Some VNull => Some 0
  | Some (VBool b) => Some (if b then 1 else 0)
  | Some (VNumber x) => TimeClip x
  | Some (VString s) => Date_parse s
  | Some (VDate d) => d
  | Some (VArray joined) => Date_parse joined
  | Some VObject => Date_parse "[object Object]"
  end.
End Conversions.

(** ** shared/schema: the zod schemas *)

Definition typeName (v : option value) : string :=
  match v with
  | None => "undefined"
  | Some VNull => "null"
  | Some (VBool _) => "boolean"
  | Some (VNumber x) => if is_nan x then "nan" else "number"
  | Some (VString _) => "string"
  | Some (VDate _) => "date"
  | Some (VArray _) => "array"
  | Some VObject => "object"
  end.

Definition invalid_type (key expected : string) (v : option value) : ZodIssue :=
  {| code := "invalid_type"; path := key;
     message := match v with
                | None => "Required"
                | _ => "Expected " +:+ expected +:+ ", received " +:+ typeName v
                end |}.

Definition too_small (key msg : string) : ZodIssue :=
  {| code := "too_small"; path := key; message := msg |}.

(** The outcome of one property: its issues, or its value. *)
Definition checked (A : Type) : Type := list ZodIssue + A.

Definition issues_of {A} (c : checked A) : list ZodIssue :=
  match c with inl l => l | inr _ => [] end.

(** [z.string()] *)
Definition z_string (key : string) (v : option value) : checked string :=
  match v with
  | Some (VString s) => inr s
  | _ => inl [invalid_type key "string" v]
  end.

(** [z.string().min(1, { message })] *)
Definition z_string_min1 (key msg : string) (v : option value) : checked string :=
  match v with
  | Some (VString s) => if (String.length s <? 1)%nat then inl [too_small key msg] else inr s
  | _ => inl [invalid_type key "string" v]
  end.

(** [z.string().optional()] *)
Definition z_string_optional (key : string) (v : option value) : checked (option string) :=
  match v with
  | None => inr None
  | Some (VString s) => inr (Some s)
  | _ => inl [invalid_type key "string" v]
  end.

(** [z.number()] *)
Definition z_number (key : string) (v : option value) : checked number :=
  match v with
  | Some (VNumber x) => if is_nan x then inl [invalid_type key "number" v] else inr x
  | _ => inl [invalid_type key "number" v]
  end.

(** [z.number().min(0, { message })] *)
Definition z_number_min0 (key msg : string) (v : option value) : checked number :=
  match v with
  | Some (VNumber x) =>
    if is_nan x then inl [invalid_type key "number" v]
    else if (x <? 0)%float then inl [too_small key msg] else inr x
  | _ => inl [invalid_type key "number" v]
  end.

(** [z.date()] *)
Definition z_date (key : string) (v : option value) : checked Z :=
  match v with
  | Some (VDate (Some t)) => inr t
  | Some (VDate None) =>
    inl [{| code := "invalid_date"; path := key; message := "Invalid date" |}]
  | _ => inl [invalid_type key "date" v]
  end.

Fixpoint joinValues (options : list string) : string :=
  match options with
  | [] => ""
  | [o] => "'" +:+ o +:+ "'"
  | o :: rest => "'" +:+ o +:+ "' | " +:+ joinValues rest
  end.

(** [z.enum(options)] *)
Definition z_enum (options : list string) (key : string) (v : option value) : checked string :=
  match v with
  | Some (VString s) =>
    if bool_decide (s ∈ options) then inr s
    else inl [{| code := "invalid_enum_value"; path := key;
                 message := "Invalid enum value. Expected " +:+ joinValues options
                            +:+ ", received '" +:+ s +:+ "'" |}]
  | _ => inl [invalid_type key (joinValues options) v]
  end.

(** The schemas with [id] and [createdAt] omitted, as the create routes
    use them. [userId] is the id of the verified token, which the routes
    put in the place of whatever the body carries under that key: it is a
    number, so its check passes. *)
Definition incomeSchema_parse (userId : Z) (data : object) : result IncomeData.t :=
  match z_string "source" (data !! "source"), z_string "category" (data !! "category"),
        z_number "amount" (data !! "amount"),
        z_enum ["active"; "passive"] "type" (data !! "type"),
        z_enum ["monthly"; "bi-weekly"; "weekly"; "annually"; "one-time"] "frequency"
               (data !! "frequency"),
        z_string_optional "notes" (data !! "notes") with
  | inr source, inr category, inr amount, inr type, inr frequency, inr notes =>
    Ok {| IncomeData.userId := Some userId; IncomeData.source := Some source;
          IncomeData.category := Some category; IncomeData.amount := Some amount;
          IncomeData.type := Some type; IncomeData.frequency := Some frequency;
          IncomeData.notes := notes |}
  | source, category, amount, type, frequency, notes =>
    Throw (ZodError (issues_of source ++ issues_of category ++ issues_of amount
                     ++ issues_of type ++ issues_of frequency ++ issues_of notes))
  end.

Definition expenseSchema_parse (userId : Z) (data : object) : result ExpenseData.t :=
  match z_string "category" (data !! "category"), z_number "amount" (data !! "amount"),
        z_string "description" (data !! "description"), z_date "date" (data !! "date"),
        z_string_optional "notes" (data !! "notes") with
  | inr category, inr amount, inr description, inr date, inr notes =>
    Ok {| ExpenseData.userId := Some userId; ExpenseData.category := Some category;
          ExpenseData.amount := Some amount; ExpenseData.description := Some description;
          ExpenseData.date := Some (Some date); ExpenseData.notes := notes |}
  | category, amount, description, date, notes =>
    Throw (ZodError (issues_of category ++ issues_of amount ++ issues_of description
                     ++ issues_of date ++ issues_of notes))
  end.

Definition assetSchema_parse (userId : Z) (data : object) : result AssetData.t :=
  match z_string_min1 "name" "Asset name is required" (data !! "name"),
        z_string_min1 "category" "Category is required" (data !! "category"),
        z_number_min0 "value" "Value must be non-negative" (data !! "value"),
        z_number_min0 "incomeGenerated" "Income must be non-negative"
                      (data !! "incomeGenerated"),
        z_string_optional "notes" (data !! "notes") with
  | inr name, inr category, inr value, inr incomeGenerated, inr notes =>
    Ok {| AssetData.userId := Some userId; AssetData.name := Some name;
          AssetData.category := Some category; AssetData.value := Some value;
          AssetData.incomeGenerated := Some incomeGenerated; AssetData.notes := notes |}
  | name, category, value, incomeGenerated, notes =>
    Throw (ZodError (issues_of name ++ issues_of category ++ issues_of value
                     ++ issues_of incomeGenerated ++ issues_of notes))
  end.

Definition liabilitySchema_parse (userId : Z) (data : object) : result LiabilityData.t :=
  match z_string_min1 "description" "Description is required" (data !! "description"),
        z_string_min1 "type" "Type is required" (data !! "type"),
        z_number_min0 "amount" "Amount must be non-negative" (data !! "amount"),
        z_number_min0 "interestRate" "Interest rate must be non-negative"
                      (data !! "interestRate"),
        z_string_optional "notes" (data !! "notes") with
  | inr description, inr type, inr amount, inr interestRate, inr notes =>
    Ok {| LiabilityData.userId := Some userId; LiabilityData.description := Some description;
          LiabilityData.type := Some type; LiabilityData.amount := Some amount;
          LiabilityData.interestRate := Some interestRate; LiabilityData.notes := notes |}
  | description, type, amount, interestRate, notes =>
    Throw (ZodError (issues_of description ++ issues_of type ++ issues_of amount
                     ++ issues_of interestRate ++ issues_of notes))
  end.

Definition goalSchema_parse (userId : Z) (data : object) : result GoalData.t :=
  match z_string_min1 "description" "Description is required" (data !! "description"),
        z_number_min0 "targetAmount" "Target amount must be non-negative"
                      (data !! "targetAmount"),
        z_number_min0 "currentAmount" "Current amount must be non-negative"
                      (data !! "currentAmount"),
        z_date "targetDate" (data !! "targetDate") with
  | inr description, inr targetAmount, inr currentAmount, inr targetDate =>
    Ok {| GoalData.userId := Some userId; GoalData.description := Some description;
          GoalData.targetAmount := Some targetAmount;
          GoalData.currentAmount := Some currentAmount;
          GoalData.targetDate := Some (Some targetDate) |}
  | description, targetAmount, currentAmount, targetDate =>
    Throw (ZodError (issues_of description ++ issues_of targetAmount
                     ++ issues_of currentAmount ++ issues_of targetDate))
  end.

(** ** routes.ts *)

(** The body of a response: [{ error: message }], [{ error: issues }], a
    payload, or nothing ([send()]). *)
Inductive Json (A : Type) :=
| JError (error : string)
| JIssues (error : list ZodIssue)
| JData (a : A)
| JEmpty.
Arguments JError {A} error.
Arguments JIssues {A} error.
Arguments JData {A} a.
Arguments JEmpty {A}.

Record Response (A : Type) := {
  status : Z;
  body : Json A }.
Arguments status {A} r.
Arguments body {A} r.

(** [res.json(a)] *)
Definition json {A} (a : A) : Response A := {| status := 200; body := JData a |}.

(** [res.status(s).json({ error })] *)
Definition error_json {A} (s : Z) (error : string) : Response A :=
  {| status := s; body := JError error |}.

(** The catch clause of the create routes. *)
Definition catch_create {A} (failed : string) (e : exn) : Response A :=
  match e with
  | ZodError issues => {| status := 400; body := JIssues issues |}
  | _ => error_json 500 failed
  end.

(** [if (v)] on an optional string. *)
Definition truthy (v : option string) : bool :=
  match v with
  | Some s => negb (String.eqb s "")
  | None => false
  end.

(** The elements of the arrays of the bulk routes. *)
Module IncomeElem.
Record t := mk {
  id : option string; source : option string; category : option string;
  amount : option number; type : option string; frequency : option string;
  notes : option string }.
End IncomeElem.

Module ExpenseElem.
Record t := mk {
  id : option string; category : option string; amount : option number;
  description : option string; date : option value }.
End ExpenseElem.

Module AssetElem.
Record t := mk {
  id : option string; name : option string; category : option string;
  value : option number; incomeGenerated : option number;
  notes : option string }.
End AssetElem.

Module LiabilityElem.
Record t := mk {
  id : option string; description : option string; type : option string;
  amount : option value; interestRate : option value;
  notes : option string }.
End LiabilityElem.

Module GoalElem.
Record t := mk {
  id : option string; description : option string;
  targetAmount : option number; currentAmount : option number;
  targetDate : option value }.
End GoalElem.

Section Routes.
Context {rt : Runtime} {en : Engine}.

(** *** /auth/login *)

(** [username] and [password] are the properties of that name of the
    body. The handler answers a thrown [Error] with its message; its other
    answer, "Invalid credentials", is for a thrown value that is no
    [Error], which nothing it calls throws. *)
Definition post_auth_login (username password : option string) (now : Z) (db : Database)
    : Response LoginResult * Database :=
  match username, password with
  | Some u, Some p =>
    if truthy username && truthy password then
      match login now u p db with
      | Ok (r, db') => (json r, db')
      | Throw e => (error_json 401 (error_message e), db)
      end
    else (error_json 400 "Username and password are required", db)
  | _, _ => (error_json 400 "Username and password are required", db)
  end.

(** *** The routes behind [authenticateToken]; [userId] is [req.user.id]. *)

Definition get_incomes_id (id : string) (userId : Z) (db : Database) : Response Income.t :=
  match getIncome id userId db with
  | Ok None => error_json 404 "Income not found"
  | Ok (Some income) => json income
  | Throw _ => error_json 500 "Failed to get income"
  end.

Definition get_expenses_id (id : string) (userId : Z) (db : Database) : Response Expense.t :=
  match getExpense id userId db with
  | Ok None => error_json 404 "Expense not found"
  | Ok (Some expense) => json expense
  | Throw _ => error_json 500 "Failed to get expense"
  end.

Definition get_assets_id (id : string) (userId : Z) (db : Database) : Response Asset.t :=
  match getAsset id userId db with
  | Ok None => error_json 404 "Asset not found"
  | Ok (Some asset) => json asset
  | Throw _ => error_json 500 "Failed to get asset"
  end.

Definition get_liabilities_id (id : string) (userId : Z) (db : Database)
    : Response Liability.t :=
  match getLiability id userId db with
  | Ok None => error_json 404 "Liability not found"
  | Ok (Some liability) => json liability
  | Throw _ => error_json 500 "Failed to get liability"
  end.

Definition get_goals_id (id : string) (userId : Z) (db : Database) : Response Goal.t :=
  match getGoal id userId db with
  | Ok None => error_json 404 "Goal not found"
  | Ok (Some goal) => json goal
  | Throw _ => error_json 500 "Failed to get goal"
  end.

(** The create routes: [id] and [now] are the uuid and the clock reading
    the storage draws. *)
Definition post_incomes (userId : Z) (body : object) (id : string) (now : Z) (db : Database)
    : Response Income.t * Database :=
  match incomeSchema_parse userId body with
  | Throw e => (catch_create "Failed to create income" e, db)
  | Ok validatedData =>
    match createIncome id now validatedData db with
    | Throw e => (catch_create "Failed to create income" e, db)
    | Ok (income, db') => (json income, db')
    end
  end.

Definition post_expenses (userId : Z) (body : object) (id : string) (now : Z) (db : Database)
    : Response Expense.t * Database :=
  let expenseData := delete "notes" (<["date" := VDate (new_Date (body !! "date"))]> body) in
  match expenseSchema_parse userId expenseData with
  | Throw e => (catch_create "Failed to create expense" e, db)
  | Ok validatedData =>
    match createExpense id now validatedData db with
    | Throw e => (catch_create "Failed to create expense" e, db)
    | Ok (expense, db') => (json expense, db')
    end
  end.

Definition post_assets (userId : Z) (body : object) (id : string) (now : Z) (db : Database)
    : Response Asset.t * Database :=
  match assetSchema_parse userId body with
  | Throw e => (catch_create "Failed to create asset" e, db)
  | Ok validatedData =>
    match createAsset id now validatedData db with
    | Throw e => (catch_create "Failed to create asset" e, db)
    | Ok (asset, db') => (json asset, db')
    end
  end.

Definition post_liabilities (userId : Z) (body : object) (id : string) (now : Z)
    (db : Database) : Response Liability.t * Database :=
  if userId =? 0 then (error_json 401 "User not authenticated", db)
  else
    let liabilityData :=
      <["interestRate" := VNumber (Number (body !! "interestRate"))]>
        (<["amount" := VNumber (Number (body !! "amount"))]> body) in
    match liabilitySchema_parse userId liabilityData with
    | Throw e => (catch_create "Failed to create liability" e, db)
    | Ok validatedData =>
      match createLiability id now validatedData db with
      | Throw e => (catch_create "Failed to create liability" e, db)
      | Ok (liability, db') => (json liability, db')
      end
    end.

Definition post_goals (userId : Z) (body : object) (id : string) (now : Z) (db : Database)
    : Response Goal.t * Database :=
  let goalData :=
    <["currentAmount" := VNumber (Number (body !! "currentAmount"))]>
      (<["targetAmount" := VNumber (Number (body !! "targetAmount"))]>
        (<["targetDate" := VDate (new_Date (body !! "targetDate"))]> body)) in
  match goalSchema_parse userId goalData with
  | Throw e => (catch_create "Failed to create goal" e, db)
  | Ok validatedData =>
    match createGoal id now validatedData db with
    | Throw e => (catch_create "Failed to create goal" e, db)
    | Ok (goal, db') => (json goal, db')
    end
  end.

(** The delete routes. *)
Definition delete_incomes_id (id : string) (userId : Z) (db : Database)
    : Response unit * Database :=
  match deleteIncome id userId db with
  | Ok db' => ({| status := 204; body := JEmpty |}, db')
  | Throw _ => (error_json 500 "Failed to delete income", db)
  end.

Definition delete_expenses_id (id : string) (userId : Z) (db : Database)
    : Response unit * Database :=
  match deleteExpense id userId db with
  | Ok db' => ({| status := 204; body := JEmpty |}, db')
  | Throw _ => (error_json 500 "Failed to delete expense", db)
  end.

Definition delete_assets_id (id : string) (userId : Z) (db : Database)
    : Response unit * Database :=
  match deleteAsset id userId db with
  | Ok db' => ({| status := 204; body := JEmpty |}, db')
  | Throw _ => (error_json 500 "Failed to delete asset", db)
  end.

Definition delete_liabilities_id (id : string) (userId : Z) (db : Database)
    : Response unit * Database :=
  match deleteLiability id userId db with
  | Ok db' => ({| status := 204; body := JEmpty |}, db')
  | Throw _ => (error_json 500 "Failed to delete liability", db)
  end.

Definition delete_goals_id (id : string) (userId : Z) (db : Database)
    : Response unit * Database :=
  match deleteGoal id userId db with
  | Ok db' => ({| status := 204; body := JEmpty |}, db')
  | Throw _ => (error_json 500 "Failed to delete goal", db)
  end.
(** *** The bulk routes

    An element of the array is an object read without validation: a
    property is absent or carries a value of the type its column takes,
    except where the handler converts it ([Number], [new Date]). Each
    element comes with the uuid and the clock reading the storage draws
    if it creates a record for it. [Promise.all] starts one write per
    element and the database runs them in an order of its own: the list
    is the array in that order. A write that throws leaves the others in
    place. *)

Definition Promise_all {E} (f : E -> Database -> result Database) (l : list E)
    (db : Database) : option exn * Database :=
  foldl (fun acc e =>
           match f e (acc.2) with
           | Ok db' => (acc.1, db')
           | Throw x => (match acc.1 with None => Some x | Some y => Some y end, acc.2)
           end) (None, db) l.

Definition created {A} (r : result (A * Database)) : result Database :=
  match r with
  | Ok (_, db') => Ok db'
  | Throw e => Throw e
  end.

Definition sync_income (userId : Z) (e : IncomeElem.t * string * Z) (db : Database)
    : result Database :=
  let '(income, uuid, now) := e in
  let fields (owner : option Z) :=
    {| IncomeData.userId := owner;
       IncomeData.source := IncomeElem.source income;
       IncomeData.category := IncomeElem.category income;
       IncomeData.amount := IncomeElem.amount income;
       IncomeData.type := IncomeElem.type income;
       IncomeData.frequency := IncomeElem.frequency income;
       IncomeData.notes := IncomeElem.notes income |} in
  match IncomeElem.id income with
  | Some id =>
    if truthy (Some id) then updateIncome id (fields None) userId db
    else created (createIncome uuid now (fields (Some userId)) db)
  | None => created (createIncome uuid now (fields (Some userId)) db)
  end.

Definition put_incomes (userId : Z) (body : list (IncomeElem.t * string * Z)) (db : Database)
    : Response (list Income.t) * Database :=
  match Promise_all (sync_income userId) body db with
  | (None, db') => (json (getAllIncomes userId db'), db')
  | (Some _, db') => (error_json 500 "Failed to sync incomes", db')
  end.

Definition sync_expense (userId : Z) (e : ExpenseElem.t * string * Z) (db : Database)
    : result Database :=
  let '(expense, uuid, now) := e in
  let expenseData (owner : option Z) :=
    {| ExpenseData.userId := owner;
       ExpenseData.category := ExpenseElem.category expense;
       ExpenseData.amount := ExpenseElem.amount expense;
       ExpenseData.description := ExpenseElem.description expense;
       ExpenseData.date := Some (new_Date (ExpenseElem.date expense));
       ExpenseData.notes := None |} in
  match ExpenseElem.id expense with
  | Some id =>
    if truthy (Some id) then updateExpense id (expenseData None) userId db
    else created (createExpense uuid now (expenseData (Some userId)) db)
  | None => created (createExpense uuid now (expenseData (Some userId)) db)
  end.

Definition put_expenses (userId : Z) (body : list (ExpenseElem.t * string * Z)) (db : Database)
    : Response (list Expense.t) * Database :=
  match Promise_all (sync_expense userId) body db with
  | (None, db') => (json (getAllExpenses userId db'), db')
  | (Some _, db') => (error_json 500 "Failed to sync expenses", db')
  end.

Definition sync_asset (userId : Z) (e : AssetElem.t * string * Z) (db : Database)
    : result Database :=
  let '(asset, uuid, now) := e in
  let fields (owner : option Z) :=
    {| AssetData.userId := owner;
       AssetData.name := AssetElem.name asset;
       AssetData.category := AssetElem.category asset;
       AssetData.value := AssetElem.value asset;
       AssetData.incomeGenerated := AssetElem.incomeGenerated asset;
       AssetData.notes := AssetElem.notes asset |} in
  match AssetElem.id asset with
  | Some id =>
    if truthy (Some id) then updateAsset id (fields None) userId db
    else created (createAsset uuid now (fields (Some userId)) db)
  | None => created (createAsset uuid now (fields (Some userId)) db)
  end.

Definition put_assets (userId : Z) (body : list (AssetElem.t * string * Z)) (db : Database)
    : Response (list Asset.t) * Database :=
  match Promise_all (sync_asset userId) body db with
  | (None, db') => (json (getAllAssets userId db'), db')
  | (Some _, db') => (error_json 500 "Failed to sync assets", db')
  end.

Definition sync_liability (userId : Z) (e : LiabilityElem.t * string * Z) (db : Database)
    : result Database :=
  let '(liability, uuid, now) := e in
  let fields (owner : option Z) :=
    {| LiabilityData.userId := owner;
       LiabilityData.description := LiabilityElem.description liability;
       LiabilityData.type := LiabilityElem.type liability;
       LiabilityData.amount := Some (Number (LiabilityElem.amount liability));
       LiabilityData.interestRate := Some (Number (LiabilityElem.interestRate liability));
       LiabilityData.notes := LiabilityElem.notes liability |} in
  match LiabilityElem.id liability with
  | Some id =>
    if truthy (Some id) then updateLiability id (fields None) userId db
    else created (createLiability uuid now (fields (Some userId)) db)
  | None => created (createLiability uuid now (fields (Some userId)) db)
  end.

(** The body is an array, or one element that the handler wraps. *)
Definition put_liabilities (userId : Z)
    (body : (LiabilityElem.t * string * Z) + list (LiabilityElem.t * string * Z))
    (db : Database) : Response (list Liability.t) * Database :=
  let liabilities := match body with inl one => [one] | inr l => l end in
  match Promise_all (sync_liability userId) liabilities db with
  | (None, db') => (json (getAllLiabilities userId db'), db')
  | (Some _, db') => (error_json 500 "Failed to sync liabilities", db')
  end.

Definition sync_goal (userId : Z) (e : GoalElem.t * string * Z) (db : Database)
    : result Database :=
  let '(goal, uuid, now) := e in
  let fields (owner : option Z) :=
    {| GoalData.userId := owner;
       GoalData.description := GoalElem.description goal;
       GoalData.targetAmount := GoalElem.targetAmount goal;
       GoalData.currentAmount := GoalElem.currentAmount goal;
       GoalData.targetDate := Some (new_Date (GoalElem.targetDate goal)) |} in
  match GoalElem.id goal with
  | Some id =>
    if truthy (Some id) then updateGoal id (fields None) userId db
    else created (createGoal uuid now (fields (Some userId)) db)
  | None => created (createGoal uuid now (fields (Some userId)) db)
  end.

Definition put_goals (userId : Z) (body : list (GoalElem.t * string * Z)) (db : Database)
    : Response (list Goal.t) * Database :=
  match Promise_all (sync_goal userId) body db with
  | (None, db') => (json (getAllGoals userId db'), db')
  | (Some _, db') => (error_json 500 "Failed to sync goals", db')
  end.
End Routes.

(** ** Accounts: the rest of auth.ts, the user storage, and the routes
    that come before the token check *)

#[export] Instance nullable_eq_dec {A} `{EqDecision A} : EqDecision (nullable A).
Proof. solve_decision. Defined.

(** [s.split(sep)] for a separator of one character. *)
Fixpoint split (sep : ascii) (s : string) : list string :=
  match s with
  | EmptyString => [EmptyString]
  | String c s' =>
    if Ascii.eqb c sep then EmptyString :: split sep s'
    else match split sep s' with
         | h :: t => String c h :: t
         | [] => [String c EmptyString]
         end
  end.

(** What the code takes from bcrypt and jsonwebtoken besides [compare]
    and [sign]; nothing is assumed of them. *)
Class Crypto := {
  (** [bcrypt.hash(password, salt)], [salt] being what [genSalt(10)] drew. *)
  bcrypt_hash : string -> string -> string;
  (** [jwt.verify(token, JWT_SECRET)] at a given time: the claims [id] and
      [username] of a token it accepts, [None] when it throws. *)
  jwt_verify : string -> Z -> option (Z * string);
}.

(** The outcome of a middleware: an answer, or [next()] with [req.user]
    set. *)
Inductive Passed :=
| Stop (status : Z) (error : string)
| Next (id : Z) (username : string).

(** [InsertUser] and [Partial<InsertUser>]: a property is a value or
    [undefined]; no caller passes [null]. *)
Module InsertUser.
Record t := mk {
  username : option string; password : option string; email : option string;
  googleId : option string; googleName : option string;
  googlePicture : option string; lastLogin : option Z }.
End InsertUser.

(** The argument of [createGoogleUser]. *)
Module GoogleUserData.
Record t := mk {
  username : string; email : string; googleId : string;
  googleName : option string; googlePicture : option string }.
End GoogleUserData.

(** The payload of a verified Google id token, as far as the code reads
    it. *)
Module TokenPayload.
Record t := mk {
  sub : string; email : option string; name : option string;
  picture : option string }.
End TokenPayload.

(** [db.insert(users).values(r).returning()]: [id] is the primary key,
    [username], [email] and [google_id] are unique (shared/schema), a
    NULL [google_id] clashing with none. *)
Definition insert_user (r : UserRow.t) (us : list UserRow.t)
    : result (UserRow.t * list UserRow.t) :=
  if bool_decide (UserRow.id r ∈ UserRow.id <$> us) then
    Throw (PostgresError "duplicate key value violates unique constraint")
  else if bool_decide (UserRow.username r ∈ UserRow.username <$> us) then
    Throw (PostgresError "duplicate key value violates unique constraint")
  else if bool_decide (UserRow.email r ∈ UserRow.email <$> us) then
    Throw (PostgresError "duplicate key value violates unique constraint")
  else if bool_decide (UserRow.googleId r <> Null /\
                       UserRow.googleId r ∈ UserRow.googleId <$> us) then
    Throw (PostgresError "duplicate key value violates unique constraint")
  else Ok (r, us ++ [r]).

(** The set clause [set(userData)]: a property that is [undefined] leaves
    its column as it is. *)
Definition setUser (userData : InsertUser.t) (u : UserRow.t) : UserRow.t :=
  {| UserRow.id := UserRow.id u;
     UserRow.username := default (UserRow.username u) (InsertUser.username userData);
     UserRow.password :=
       default (UserRow.password u) (NotNull <$> InsertUser.password userData);
     UserRow.email := default (UserRow.email u) (InsertUser.email userData);
     UserRow.googleId :=
       default (UserRow.googleId u) (NotNull <$> InsertUser.googleId userData);
     UserRow.googleName :=
       default (UserRow.googleName u) (NotNull <$> InsertUser.googleName userData);
     UserRow.googlePicture :=
       default (UserRow.googlePicture u) (NotNull <$> InsertUser.googlePicture userData);
     UserRow.createdAt := UserRow.createdAt u;
     UserRow.lastLogin :=
       default (UserRow.lastLogin u) (NotNull <$> InsertUser.lastLogin userData) |}.

(** The set clause gives the row [r] a username, an email or a Google id
    that one of the other rows has. *)
Definition takes_unique (userData : InsertUser.t) (r : UserRow.t) (others : list UserRow.t)
    : Prop :=
  (is_Some (InsertUser.username userData) /\
   UserRow.username r ∈ UserRow.username <$> others) \/
  (is_Some (InsertUser.email userData) /\ UserRow.email r ∈ UserRow.email <$> others) \/
  (is_Some (InsertUser.googleId userData) /\
   UserRow.googleId r ∈ UserRow.googleId <$> others).

(** [picture ? (picture.startsWith('http') ? picture : `https://${picture}`)
    : undefined], which the callback route and [createGoogleUser] both
    compute. *)
Definition pictureUrl (picture : option string) : option string :=
  match picture with
  | Some p =>
    if truthy picture then Some (if String.prefix "http" p then p else "https://" +:+ p)
    else None
  | None => None
  end.

Section Accounts.
Context {rt : Runtime} {cr : Crypto} {en : Engine}.

(** [authHeader] is [req.headers["authorization"]]. *)
Definition authenticateToken (authHeader : option string) (now : Z) : Passed :=
  let token :=
    match authHeader with
    | Some h => if truthy authHeader then split " " h !! 1%nat else authHeader
    | None => None
    end in
  match token with
  | Some t =>
    if truthy token then
      match jwt_verify t now with
      | Some (id, username) => Next id username
      | None => Stop 403 "Invalid token"
      end
    else Stop 401 "Authentication required"
  | None => Stop 401 "Authentication required"
  end.

(** [router.use(authenticateToken)]: a route registered after it runs
    when the check calls [next()], with the id of [req.user]; the answer
    is that of the check otherwise. *)
Definition use_authenticateToken {A} (authHeader : option string) (now : Z)
    (route : Z -> Database -> Response A * Database) (db : Database)
    : Response A * Database :=
  match authenticateToken authHeader now with
  | Stop status error => (error_json status error, db)
  | Next id _ => route id db
  end.

(** The routes that list the records of the caller. *)
Definition get_incomes (userId : Z) (db : Database) : Response (list Income.t) :=
  json (getAllIncomes userId db).

Definition get_expenses (userId : Z) (db : Database) : Response (list Expense.t) :=
  json (getAllExpenses userId db).

Definition get_assets (userId : Z) (db : Database) : Response (list Asset.t) :=
  json (getAllAssets userId db).

Definition get_liabilities (userId : Z) (db : Database) : Response (list Liability.t) :=
  json (getAllLiabilities userId db).

Definition get_goals (userId : Z) (db : Database) : Response (list Goal.t) :=
  json (getAllGoals userId db).

Definition hashPassword (password salt : string) : string := bcrypt_hash password salt.

Definition getUserByGoogleId (googleId : string) (db : Database) : option UserRow.t :=
  head (filter (fun u => UserRow.googleId u = NotNull googleId) (users db)).

(** [id] is the next value of the sequence of the serial column and [now]
    the [now()] of the default of [created_at]. *)
Definition createUser (id : Z) (now : Z) (insertUser : InsertUser.t) (db : Database)
    : result (UserRow.t * Database) :=
  match InsertUser.username insertUser, InsertUser.email insertUser with
  | Some username, Some email =>
    let r :=
      {| UserRow.id := id; UserRow.username := username;
         UserRow.password := or_null (InsertUser.password insertUser);
         UserRow.email := email;
         UserRow.googleId := or_null (InsertUser.googleId insertUser);
         UserRow.googleName := or_null (InsertUser.googleName insertUser);
         UserRow.googlePicture := or_null (InsertUser.googlePicture insertUser);
         UserRow.createdAt := now;
         UserRow.lastLogin := or_null (InsertUser.lastLogin insertUser) |} in
    match insert_user r (users db) with
    | Throw e => Throw e
    | Ok (r, t) => Ok (r, set_users db t)
    end
  | _, _ => Throw not_null_violation
  end.

(** [now] is the value of [new Date()]. The insert returns its row, so
    the check of [result[0]] passes. *)
Definition createGoogleUser (id : Z) (now : Z) (userData : GoogleUserData.t) (db : Database)
    : result (UserRow.t * Database) :=
  let userToCreate :=
    {| UserRow.id := id; UserRow.username := GoogleUserData.username userData;
       UserRow.password := Null;
       UserRow.email := GoogleUserData.email userData;
       UserRow.googleId := NotNull (GoogleUserData.googleId userData);
       UserRow.googleName := or_null (GoogleUserData.googleName userData);
       UserRow.googlePicture := or_null (pictureUrl (GoogleUserData.googlePicture userData));
       UserRow.createdAt := now;
       UserRow.lastLogin := NotNull now |} in
  match insert_user userToCreate (users db) with
  | Throw e => Throw e
  | Ok (r, t) => Ok (r, set_users db t)
  end.

(** The query builder refuses a set clause with no value; the statement
    fails when it gives a row a value of a unique column that another row
    has. *)
Definition updateUser (id : Z) (userData : InsertUser.t) (db : Database) : result Database :=
  match userData with
  | InsertUser.mk None None None None None None None => Throw (Error "No values to set")
  | _ =>
    let others := filter (fun u => UserRow.id u <> id) (users db) in
    if bool_decide (Exists (fun u => UserRow.id u = id /\
                                     takes_unique userData (setUser userData u) others)
                           (users db)) then
      Throw (PostgresError "duplicate key value violates unique constraint")
    else
      Ok (set_users db
            ((fun u => if decide (UserRow.id u = id) then setUser userData u else u)
               <$> users db))
  end.

(** *** /auth/register

    The body carries its three properties as strings. [id], [salt] and
    [now] are what the sequence, [genSalt] and the clock give. *)
Definition post_auth_register (username password email : string) (id : Z) (salt : string)
    (now : Z) (db : Database) : Response LoginResult * Database :=
  match getUserByUsername username db with
  | Some _ => (error_json 400 "Username already exists", db)
  | None =>
    let hashedPassword := hashPassword password salt in
    match createUser id now
            {| InsertUser.username := Some username;
               InsertUser.password := Some hashedPassword;
               InsertUser.email := Some email;
               InsertUser.googleId := None; InsertUser.googleName := None;
               InsertUser.googlePicture := None; InsertUser.lastLogin := None |} db with
    | Throw e => (error_json 500 (error_message e), db)
    | Ok (user, db') =>
      ({| status := 201;
          body := JData {| token := generateToken (UserRow.id user) (UserRow.username user) now;
                           user_id := UserRow.id user;
                           user_username := UserRow.username user |} |}, db')
    end
  end.

(** *** /auth/google/callback

    [payload] is what the exchange of the code with Google gives: the
    payload of the verified id token, or an exception (no code, no
    configuration, a refused code, no payload). The answer is the
    location the browser is redirected to. [id] and [now] are what the
    sequence and the clock give. *)
Definition get_auth_google_callback (frontendUrl : string) (payload : result TokenPayload.t)
    (id : Z) (now : Z) (db : Database) : string * Database :=
  let failed := frontendUrl +:+ "/auth?error=google_auth_failed" in
  match payload with
  | Throw _ => (failed, db)
  | Ok payload =>
    let googleId := TokenPayload.sub payload in
    match TokenPayload.email payload with
    | Some email =>
      if truthy (Some email) then
        let pictureUrl := pictureUrl (TokenPayload.picture payload) in
        let found :=
          match getUserByGoogleId googleId db with
          | Some user => Ok (user, db)
          | None =>
            let username :=
              if truthy (head (split "@" email)) then default EmptyString (head (split "@" email))
              else "user_" +:+ NilZero.string_of_int (Z.to_int now) in
            createGoogleUser id now
              {| GoogleUserData.username := username; GoogleUserData.email := email;
                 GoogleUserData.googleId := googleId;
                 GoogleUserData.googleName := TokenPayload.name payload;
                 GoogleUserData.googlePicture := pictureUrl |} db
          end in
        match found with
        | Throw _ => (failed, db)
        | Ok (user, db1) =>
          let token := generateToken (UserRow.id user) (UserRow.username user) now in
          match updateUser (UserRow.id user)
                  {| InsertUser.username := None; InsertUser.password := None;
                     InsertUser.email := None; InsertUser.googleId := None;
                     InsertUser.googleName := None; InsertUser.googlePicture := None;
                     InsertUser.lastLogin := Some now |} db1 with
          | Throw _ => (failed, db1)
          | Ok db2 => (frontendUrl +:+ "/auth/callback?token=" +:+ token, db2)
          end
        end
      else (failed, db)
    | None => (failed, db)
    end
  end.
End Accounts.

(** ** routes.ts: the context of the chat route *)

(** [l.join(sep)] *)
Definition join (sep : string) (l : list string) : string :=
  match l with
  | [] => EmptyString
  | x :: rest => foldl (fun acc y => acc +:+ sep +:+ y) x rest
  end.

Section ChatContext.
Context {rt : Runtime}.

(** The lists are those the storage returns for the caller. *)
Definition createFinancialContext (incomes : list Income.t) (expenses : list Expense.t)
    (assets : list Asset.t) (liabilities : list Liability.t) (goals : list Goal.t)
    : string :=
  let context : list string := [] in
  let context :=
    if (0 <? length incomes)%nat then
      (context ++ ["INCOMES:"]) ++
      ((fun income => "- " +:+ Income.source income +:+ ": $"
                      +:+ numberToString (Income.amount income)
                      +:+ " (" +:+ Income.frequency income +:+ ")") <$> incomes)
    else context in
  let context :=
    if (0 <? length expenses)%nat then
      (context ++ [nl +:+ "EXPENSES:"]) ++
      ((fun expense => "- " +:+ Expense.category expense +:+ ": $"
                       +:+ numberToString (Expense.amount expense)) <$> expenses)
    else context in
  let context :=
    if (0 <? length assets)%nat then
      (context ++ [nl +:+ "ASSETS:"]) ++
      ((fun asset => "- " +:+ Asset.name asset +:+ ": $"
                     +:+ numberToString (Asset.value asset)) <$> assets)
    else context in
  let context :=
    if (0 <? length liabilities)%nat then
      (context ++ [nl +:+ "LIABILITIES:"]) ++
      ((fun liability => "- " +:+ Liability.description liability +:+ ": $"
                         +:+ numberToString (Liability.amount liability)) <$> liabilities)
    else context in
  let context :=
    if (0 <? length goals)%nat then
      (context ++ [nl +:+ "GOALS:"]) ++
      ((fun goal => "- " +:+ Goal.description goal +:+ ": $"
                    +:+ numberToString (Goal.currentAmount goal) +:+ " / $"
                    +:+ numberToString (Goal.targetAmount goal)) <$> goals)
    else context in
  join nl context.
End ChatContext.

(** ** google-auth.ts *)

(** What [handleGoogleCallback] returns. *)
Record GoogleLogin := {
  google_token : string;
  google_user_id : Z;
  google_user_username : string;
  google_user_email : string }.

Section GoogleAuth.
Context {rt : Runtime} {cr : Crypto}.

(** [payload] is what the exchange of the code gives: an exception, no
    payload, or the payload of the verified id token. The catch clause
    throws again what it caught. [id] and [now] are what the sequence
    and the clock give when a user is created. *)
Definition handleGoogleCallback (payload : result (option TokenPayload.t)) (id : Z) (now : Z)
    (db : Database) : result (GoogleLogin * Database) :=
  match payload with
  | Throw e => Throw e
  | Ok None => Throw (Error "Failed to get user info from Google")
  | Ok (Some payload) =>
    let googleId := TokenPayload.sub payload in
    let found :=
      match getUserByGoogleId googleId db with
      | Some user => Ok (user, db)
      | None =>
        match TokenPayload.email payload with
        | None => Throw (TypeError "Cannot read properties of undefined (reading 'split')")
        | Some email =>
          createUser id now
            {| InsertUser.username := head (split "@" email);
               InsertUser.password := None;
               InsertUser.email := Some email;
               InsertUser.googleId := Some googleId;
               InsertUser.googleName := TokenPayload.name payload;
               InsertUser.googlePicture := TokenPayload.picture payload;
               InsertUser.lastLogin := None |} db
        end
      end in
    match found with
    | Throw e => Throw e
    | Ok (user, db') =>
      Ok ({| google_token := generateToken (UserRow.id user) (UserRow.username user) now;
             google_user_id := UserRow.id user;
             google_user_username := UserRow.username user;
             google_user_email := UserRow.email user |}, db')
    end
  end.
End GoogleAuth.

(** ** A stand-in runtime and sample data

    To run the model on concrete inputs: decimal printing and parsing of
    non-negative integers, time values written as integers, the identity
    as password hash. *)

Fixpoint digits_value (s : string) (acc : N) : option N :=
  match s with
  | EmptyString => Some acc
  | String c s' =>
    let n := N_of_ascii c in
    if ((48 <=? n) && (n <=? 57))%N then digits_value s' (acc * 10 + (n - 48))%N
    else None
  end.

Definition integer_of_string (s : string) : option Z :=
  match s with
  | EmptyString => None
  | _ => Z.of_N <$> digits_value s 0%N
  end.

Definition float_of_Z (z : Z) : number := of_uint63 (Uint63.of_Z z).

Definition test_runtime : Runtime := {|
  finiteToString x := match truncate x with
                      | Some z => string_of_N (Z.to_N z)
                      | None => ""
                      end;
  parseFloat s := match integer_of_string s with
                  | Some z => float_of_Z z
                  | None => nan
                  end;
  stringToNumber s := match integer_of_string s with
                      | Some z => float_of_Z z
                      | None => nan
                      end;
  Date_parse := integer_of_string;
  toISOString t := string_of_N (Z.to_N t);
  getFullYear t := 1970 + t / 31556952000;
  getMonth t := (t / 2629746000) mod 12;
  bcrypt_compare := String.eqb;
  jwt_sign id username now := username;
  zod_message issues := "";
|}.

(** A stand-in for the engine: a select returns the rows it matches last
    row first, and a date column keeps the day (of 86400000 ms) of a time
    value written as an integer. *)
Definition test_engine : Engine := {|
  scan := fun R l => reverse l;
  scan_perm := fun R l => reverse_Permutation l;
  date_in s :=
    (fun t => string_of_N (Z.to_N (t / 86400000 * 86400000))) <$> integer_of_string s;
|}.

(** The ids of the sample data: uuids, as [uuidv4()] prints them, and a
    uuid that no record has. *)
Definition id_i1 : string := "10000000-0000-4000-8000-000000000001".
Definition id_i2 : string := "10000000-0000-4000-8000-000000000002".
Definition id_i3 : string := "10000000-0000-4000-8000-000000000003".
Definition id_i9 : string := "10000000-0000-4000-8000-000000000009".
Definition id_e1 : string := "20000000-0000-4000-8000-000000000001".
Definition id_e2 : string := "20000000-0000-4000-8000-000000000002".
Definition id_e9 : string := "20000000-0000-4000-8000-000000000009".
Definition id_a1 : string := "30000000-0000-4000-8000-000000000001".
Definition id_l1 : string := "40000000-0000-4000-8000-000000000001".
Definition id_g1 : string := "50000000-0000-4000-8000-000000000001".
Definition id_g2 : string := "50000000-0000-4000-8000-000000000002".
Definition id_none : string := "90000000-0000-4000-8000-000000000000".

Definition alice : UserRow.t :=
  {| UserRow.id := 1; UserRow.username := "alice"; UserRow.password := NotNull "pw123456";
     UserRow.email := "a@x.com"; UserRow.googleId := Null; UserRow.googleName := Null;
     UserRow.googlePicture := Null; UserRow.createdAt := 0; UserRow.lastLogin := Null |}.

Definition bob : UserRow.t :=
  {| UserRow.id := 2; UserRow.username := "bob"; UserRow.password := NotNull "hunter22";
     UserRow.email := "b@x.com"; UserRow.googleId := Null; UserRow.googleName := Null;
     UserRow.googlePicture := Null; UserRow.createdAt := 0; UserRow.lastLogin := Null |}.

Definition salary : IncomeRow.t :=
  {| IncomeRow.id := id_i1; IncomeRow.userId := 1; IncomeRow.source := "Salary";
     IncomeRow.category := "Job"; IncomeRow.amount := "5000"; IncomeRow.type := "active";
     IncomeRow.frequency := "monthly"; IncomeRow.notes := NotNull "";
     IncomeRow.createdAt := 10 |}.

Definition groceries : ExpenseRow.t :=
  {| ExpenseRow.id := id_e1; ExpenseRow.userId := 1; ExpenseRow.category := "Food";
     ExpenseRow.amount := "150"; ExpenseRow.description := "Groceries";
     ExpenseRow.date := 1704067200000; ExpenseRow.notes := NotNull "weekly shop";
     ExpenseRow.createdAt := 11 |}.

Definition flat : AssetRow.t :=
  {| AssetRow.id := id_a1; AssetRow.userId := 1; AssetRow.name := "Flat";
     AssetRow.category := "Real Estate"; AssetRow.value := "200000";
     AssetRow.incomeGenerated := "900"; AssetRow.notes := Null; AssetRow.createdAt := 12 |}.

Definition car_loan : LiabilityRow.t :=
  {| LiabilityRow.id := id_l1; LiabilityRow.userId := 1; LiabilityRow.description := "Car loan";
     LiabilityRow.type := "Loan"; LiabilityRow.amount := "8000";
     LiabilityRow.interestRate := "7"; LiabilityRow.notes := NotNull "until 2027";
     LiabilityRow.createdAt := 13 |}.

Definition holiday : GoalRow.t :=
  {| GoalRow.id := id_g1; GoalRow.userId := 1; GoalRow.description := "Holiday";
     GoalRow.targetAmount := "3000"; GoalRow.currentAmount := "500";
     GoalRow.targetDate := "1735689600000"; GoalRow.createdAt := 14 |}.

Definition sample_db : Database :=
  {| users := [alice; bob]; incomes := [salary]; expenses := [groceries];
     assets := [flat]; liabilities := [car_loan]; goals := [holiday] |}.

Definition bonus : IncomeData.t :=
  {| IncomeData.userId := Some 1; IncomeData.source := Some "Bonus";
     IncomeData.category := Some "Job"; IncomeData.amount := Some 700%float;
     IncomeData.type := Some "active"; IncomeData.frequency := Some "one-time";
     IncomeData.notes := None |}.

Definition bonus_row : IncomeRow.t :=
  {| IncomeRow.id := id_i2; IncomeRow.userId := 1; IncomeRow.source := "Bonus";
     IncomeRow.category := "Job"; IncomeRow.amount := "700"; IncomeRow.type := "active";
     IncomeRow.frequency := "one-time"; IncomeRow.notes := Null;
     IncomeRow.createdAt := 20 |}.

Definition db_with_bonus : Database := set_incomes sample_db [salary; bonus_row].

Definition memo : IncomeData.t :=
  {| IncomeData.userId := Some 1; IncomeData.source := Some "Refund";
     IncomeData.category := Some "Other"; IncomeData.amount := Some 40%float;
     IncomeData.type := Some "passive"; IncomeData.frequency := Some "one-time";
     IncomeData.notes := Some "" |}.

Definition memo_row : IncomeRow.t :=
  {| IncomeRow.id := id_i3; IncomeRow.userId := 1; IncomeRow.source := "Refund";
     IncomeRow.category := "Other"; IncomeRow.amount := "40"; IncomeRow.type := "passive";
     IncomeRow.frequency := "one-time"; IncomeRow.notes := NotNull "";
     IncomeRow.createdAt := 30 |}.

Definition db_with_memo : Database := set_incomes sample_db [salary; memo_row].

Definition dining : ExpenseData.t :=
  {| ExpenseData.userId := None; ExpenseData.category := Some "Dining";
     ExpenseData.amount := None; ExpenseData.description := None;
     ExpenseData.date := None; ExpenseData.notes := None |}.

Definition groceries_as_dining : ExpenseRow.t :=
  {| ExpenseRow.id := id_e1; ExpenseRow.userId := 1; ExpenseRow.category := "Dining";
     ExpenseRow.amount := "150"; ExpenseRow.description := "Groceries";
     ExpenseRow.date := 1704067200000; ExpenseRow.notes := Null;
     ExpenseRow.createdAt := 11 |}.






(** The body of the request that creates that goal, and the row it
    makes: the date column keeps the day. *)
Definition trip_body : object :=
  <["description" := VString "Trip"]> (<["targetAmount" := VNumber 3000%float]>
  (<["currentAmount" := VNumber 500%float]>
  (<["targetDate" := VNumber 1735693200000%float]> ∅))).

Definition trip_row : GoalRow.t :=
  {| GoalRow.id := id_g2; GoalRow.userId := 1; GoalRow.description := "Trip";
     GoalRow.targetAmount := "3000"; GoalRow.currentAmount := "500";
     GoalRow.targetDate := "1735689600000"; GoalRow.createdAt := 80 |}.

(** The income of the specification's scenario, with its amount sent as
    a string. *)
Definition salary_body : object :=
  <["source" := VString "Salary"]> (<["category" := VString "Job"]>
  (<["amount" := VString "5000"]> (<["type" := VString "active"]>
  (<["frequency" := VString "monthly"]> ∅)))).

Definition amount_issue : ZodIssue :=
  {| code := "invalid_type"; path := "amount";
     message := "Expected number, received string" |}.

Definition no_records (s : Summary.t) : UserData.t :=
  {| UserData.incomes := []; UserData.expenses := []; UserData.assets := [];
     UserData.liabilities := []; UserData.goals := []; UserData.summary := s |}.

Definition empty_summary : Summary.t :=
  {| Summary.totalIncome := 0%float; Summary.totalExpenses := 0%float;
     Summary.cashFlow := 0%float; Summary.perDay := 0%float;
     Summary.passiveIncome := 0%float; Summary.netWorth := 0%float;
     Summary.netWorthChange := 0%float; Summary.largestExpenseCategory := "Food";
     Summary.largestExpenseAmount := 0%float |}.

(** A question that names expenses and goals at once. *)
Definition mixed_request : AIAssistantRequest :=
  {| query := "How can I REDUCE my expenses and reach my goals?";
     userData := no_records empty_summary |}.

(** The bulk scenario of the specification: Alice's expense [id_e1] with
    new properties, and a new expense. The dates are sent as time
    values. [id_e9] is the uuid drawn for the first element, which the
    update does not use. *)
Definition food_update : ExpenseElem.t :=
  {| ExpenseElem.id := Some id_e1; ExpenseElem.category := Some "Food";
     ExpenseElem.amount := Some 200%float; ExpenseElem.description := Some "Groceries";
     ExpenseElem.date := Some (VNumber 1704067200000%float) |}.

(** The first element of the scenario as the specification writes it,
    with the id "e1". *)
Definition food_update_e1 : ExpenseElem.t :=
  {| ExpenseElem.id := Some "e1"; ExpenseElem.category := Some "Food";
     ExpenseElem.amount := Some 200%float; ExpenseElem.description := Some "Groceries";
     ExpenseElem.date := Some (VNumber 1704067200000%float) |}.

Definition movie : ExpenseElem.t :=
  {| ExpenseElem.id := None; ExpenseElem.category := Some "Fun";
     ExpenseElem.amount := Some 50%float; ExpenseElem.description := Some "Movie";
     ExpenseElem.date := Some (VNumber 1704153600000%float) |}.

Definition scenario_body : list (ExpenseElem.t * string * Z) :=
  [(food_update, id_e9, 70); (movie, id_e2, 71)].

Definition groceries_synced : ExpenseRow.t :=
  {| ExpenseRow.id := id_e1; ExpenseRow.userId := 1; ExpenseRow.category := "Food";
     ExpenseRow.amount := "200"; ExpenseRow.description := "Groceries";
     ExpenseRow.date := 1704067200000; ExpenseRow.notes := Null;
     ExpenseRow.createdAt := 11 |}.

Definition movie_row : ExpenseRow.t :=
  {| ExpenseRow.id := id_e2; ExpenseRow.userId := 1; ExpenseRow.category := "Fun";
     ExpenseRow.amount := "50"; ExpenseRow.description := "Movie";
     ExpenseRow.date := 1704153600000; ExpenseRow.notes := Null;
     ExpenseRow.createdAt := 71 |}.

(** An element with no id and no amount, and one with an empty id. *)
Definition movie_without_amount : ExpenseElem.t :=
  {| ExpenseElem.id := None; ExpenseElem.category := Some "Fun";
     ExpenseElem.amount := None; ExpenseElem.description := Some "Movie";
     ExpenseElem.date := Some (VNumber 1704153600000%float) |}.

Definition movie_with_empty_id : ExpenseElem.t :=
  {| ExpenseElem.id := Some ""; ExpenseElem.category := Some "Fun";
     ExpenseElem.amount := Some 50%float; ExpenseElem.description := Some "Movie";
     ExpenseElem.date := Some (VNumber 1704153600000%float) |}.

(** A stand-in for bcrypt and jsonwebtoken that goes with the runtime
    above: the hash is the password, and the tokens accepted are the
    usernames of Alice and Bob. *)
Definition test_crypto : Crypto := {|
  bcrypt_hash password salt := password;
  jwt_verify token now :=
    if String.eqb token "alice" then Some (1, "alice")
    else if String.eqb token "bob" then Some (2, "bob")
    else None;
|}.

(** Dave, as Google describes him. *)
Definition dave : TokenPayload.t :=
  {| TokenPayload.sub := "g-dave"; TokenPayload.email := Some "dave@x.com";
     TokenPayload.name := Some "Dave"; TokenPayload.picture := Some "lh3.example/dave.png" |}.

Definition dave_row : UserRow.t :=
  {| UserRow.id := 3; UserRow.username := "dave"; UserRow.password := Null;
     UserRow.email := "dave@x.com"; UserRow.googleId := NotNull "g-dave";
     UserRow.googleName := NotNull "Dave";
     UserRow.googlePicture := NotNull "https://lh3.example/dave.png";
     UserRow.createdAt := 70; UserRow.lastLogin := NotNull 70 |}.

Definition db_with_dave : Database := set_users sample_db [alice; bob; dave_row].

(** The body of the request that creates Alice's bonus. *)
Definition bonus_body : object :=
  <["source" := VString "Bonus"]> (<["category" := VString "Job"]>
  (<["amount" := VNumber 700%float]> (<["type" := VString "active"]>
  (<["frequency" := VString "one-time"]> ∅)))).

(** The body of a request that creates the expense "Movie", with notes. *)
Definition movie_body : object :=
  <["category" := VString "Fun"]> (<["amount" := VNumber 50%float]>
  (<["description" := VString "Movie"]> (<["date" := VNumber 1704153600000%float]>
  (<["notes" := VString "with popcorn"]> ∅)))).

(** Alice's car loan, as she reads it. *)
Definition car_loan_read : Liability.t :=
  {| Liability.id := id_l1; Liability.userId := 1; Liability.description := "Car loan";
     Liability.type := "Loan"; Liability.amount := 8000%float;
     Liability.interestRate := 7%float; Liability.notes := Some "until 2027";
     Liability.createdAt := 13 |}.

(** Alice's salary, as she reads it. *)
Definition salary_read : Income.t :=
  {| Income.id := id_i1; Income.userId := 1; Income.source := "Salary";
     Income.category := "Job"; Income.amount := 5000%float; Income.type := "active";
     Income.frequency := "monthly"; Income.notes := Some ""; Income.createdAt := 10 |}.

(** Dave's row when it is [handleGoogleCallback] that creates it. *)
Definition dave_as_handled : UserRow.t :=
  {| UserRow.id := 3; UserRow.username := "dave"; UserRow.password := Null;
     UserRow.email := "dave@x.com"; UserRow.googleId := NotNull "g-dave";
     UserRow.googleName := NotNull "Dave";
     UserRow.googlePicture := NotNull "lh3.example/dave.png";
     UserRow.createdAt := 70; UserRow.lastLogin := Null |}.

Definition db_with_dave_as_handled : Database :=
  set_users sample_db [alice; bob; dave_as_handled].

(** ** Notions used by the properties *)

(** The get-one operation [get] of a table is scoped to the owner: a
    record just created by [create] is not found by any other user, with
    the same answer as a uuid the table does not hold; a row of a table
    with distinct keys is not found by any user but its owner, whatever
    the text its uuid is asked with; whatever is found carries the uuid
    and the user asked for; and a text that is no uuid is refused. *)
Definition scoped_to_owner {R A D : Type} `{Owned R} (table : Database -> list R)
    (create : string -> Z -> D -> Database -> result (A * Database))
    (get : string -> Z -> Database -> result (option A))
    (id_of : A -> string) (userId_of : A -> Z) : Prop :=
  (forall db id now data rec db1 userId',
     create id now data db = Ok (rec, db1) ->
     userId' <> userId_of rec ->
     get (id_of rec) userId' db1 = Ok None /\
     forall id' uuid, uuid_in id' = Some uuid -> uuid ∉ row_id <$> table db1 ->
                      get id' userId' db1 = get (id_of rec) userId' db1) /\
  (forall db r id userId',
     NoDup (row_id <$> table db) -> r ∈ table db -> uuid_in id = Some (row_id r) ->
     userId' <> row_userId r ->
     get id userId' db = Ok None) /\
  (forall db id userId x,
     get id userId db = Ok (Some x) -> uuid_in id = Some (id_of x) /\ userId_of x = userId) /\
  (forall db id userId, uuid_in id = None -> get id userId db = Throw invalid_uuid).

(** How a read returns the [notes] column: SQL NULL as [undefined], a
    stored string as that string. *)
Definition notes_as_stored (stored : nullable string) (read : option string) : Prop :=
  match stored with
  | Null => read = None
  | NotNull s => read = Some s
  end.

(** The list-all and get-one operations of a table return every row with
    its notes as stored. *)
Definition reads_notes_as_stored {en : Engine} {R A : Type} `{Owned R}
    (table : Database -> list R)
    (getAll : Z -> Database -> list A) (get : string -> Z -> Database -> result (option A))
    (stored : R -> nullable string) (read : A -> option string) : Prop :=
  (forall db userId,
     Forall2 (fun r x => notes_as_stored (stored r) (read x))
             (select_where (of_user userId) (table db)) (getAll userId db)) /\
  (forall db id userId x,
     get id userId db = Ok (Some x) ->
     exists r uuid, uuid_in id = Some uuid /\ r ∈ table db /\ is_record uuid userId r /\
                    notes_as_stored (stored r) (read x)).






(** The answer of a create route to a body that fails validation. *)
Definition validation_error {A : Type} (issues : list ZodIssue) : Response A :=
  {| status := 400; body := JIssues issues |}.

(** What [toFixed] prints for a number that is not finite. *)
Definition not_finite_text (p : number) : string :=
  if is_nan p then "NaN" else if (p <? 0)%float then "-Infinity" else "Infinity".

(** The properties of an element of a bulk array as a patch, with the
    owner given. *)
Definition income_fields (e : IncomeElem.t) (owner : option Z) : IncomeData.t :=
  IncomeData.mk owner (IncomeElem.source e) (IncomeElem.category e) (IncomeElem.amount e)
    (IncomeElem.type e) (IncomeElem.frequency e) (IncomeElem.notes e).

Definition expense_fields {rt : Runtime} (e : ExpenseElem.t) (owner : option Z)
    : ExpenseData.t :=
  ExpenseData.mk owner (ExpenseElem.category e) (ExpenseElem.amount e)
    (ExpenseElem.description e) (Some (new_Date (ExpenseElem.date e))) None.

Definition asset_fields (e : AssetElem.t) (owner : option Z) : AssetData.t :=
  AssetData.mk owner (AssetElem.name e) (AssetElem.category e) (AssetElem.value e)
    (AssetElem.incomeGenerated e) (AssetElem.notes e).

Definition liability_fields {rt : Runtime} (e : LiabilityElem.t) (owner : option Z)
    : LiabilityData.t :=
  LiabilityData.mk owner (LiabilityElem.description e) (LiabilityElem.type e)
    (Some (Number (LiabilityElem.amount e))) (Some (Number (LiabilityElem.interestRate e)))
    (LiabilityElem.notes e).

Definition goal_fields {rt : Runtime} (e : GoalElem.t) (owner : option Z) : GoalData.t :=
  GoalData.mk owner (GoalElem.description e) (GoalElem.targetAmount e)
    (GoalElem.currentAmount e) (Some (new_Date (GoalElem.targetDate e))).

(** [synced step db l ok db']: the writes of the elements of [l] are run
    on [db] one after the other; a write that succeeds changes the
    database, a write that throws leaves it; [db'] is the outcome and
    [ok] tells that no write threw. *)
Inductive synced {E : Type} (step : E -> Database -> result Database)
    : Database -> list E -> bool -> Database -> Prop :=
| synced_nil db : synced step db [] true db
| synced_ok db e db1 l ok db2 :
    step e db = Ok db1 -> synced step db1 l ok db2 -> synced step db (e :: l) ok db2
| synced_throw db e x l ok db2 :
    step e db = Throw x -> synced step db l ok db2 -> synced step db (e :: l) false db2.

(** A bulk route is an upsert by presence of an id: an element with a
    non-empty id is an update of that record with the element's
    properties, for the caller, which throws when the id is no uuid; an
    element with no id, or an empty one, is the creation of a record of
    the caller; the writes always run to an outcome; when none throws the
    answer is the caller's list read from the outcome, in the order the
    engine returns it, when one throws it is a 500. *)
Definition upsert_by_id {E A : Type} (id_of : E -> option string)
    (step : E * string * Z -> Database -> result Database)
    (update : E -> string -> Database -> result Database)
    (create : E -> string -> Z -> Database -> result Database)
    (put : list (E * string * Z) -> Database -> Response (list A) * Database)
    (getAll : Database -> list A) (failed : string) : Prop :=
  (forall e uuid now db id,
     id_of e = Some id -> id <> "" -> step (e, uuid, now) db = update e id db) /\
  (forall e uuid now db id,
     id_of e = Some id -> id <> "" -> uuid_in id = None ->
     exists x, step (e, uuid, now) db = Throw x) /\
  (forall e uuid now db,
     id_of e = None \/ id_of e = Some "" ->
     step (e, uuid, now) db = create e uuid now db) /\
  (forall body db, exists ok db', synced step db body ok db') /\
  (forall body db ok db',
     synced step db body ok db' ->
     put body db = (if ok then json (getAll db') else error_json 500 failed, db')).

(** ** Notions used by the further properties *)

(** The primary keys of the five tables of records. *)
Definition keys_distinct (db : Database) : Prop :=
  NoDup (row_id <$> incomes db) /\ NoDup (row_id <$> expenses db) /\
  NoDup (row_id <$> assets db) /\ NoDup (row_id <$> liabilities db) /\
  NoDup (row_id <$> goals db).

(** [I] holds after each successful write of one kind of record when it
    held before. *)
Definition kept_by_writes {D A : Type} (I : Database -> Prop)
    (create : string -> Z -> D -> Database -> result (A * Database))
    (update : string -> D -> Z -> Database -> result Database)
    (delete : string -> Z -> Database -> result Database) : Prop :=
  (forall id now data db rec db',
     I db -> create id now data db = Ok (rec, db') -> I db') /\
  (forall id data userId db db', I db -> update id data userId db = Ok db' -> I db') /\
  (forall id userId db db', I db -> delete id userId db = Ok db' -> I db').

(** What an update of the record [(id, userId)] makes of a row: [f] of
    it when it is that record, the row itself otherwise. *)
Definition updated {R : Type} `{Owned R} (id : string) (userId : Z) (f : R -> R) (r : R)
    : R :=
  if decide (is_record id userId r) then f r else r.

(** A record that a create returns is what its owner reads next: it
    carries the uuid of the id drawn, get-one finds it under the id drawn
    and under its own id, and the owner's list is the list before and the
    record, in some order. *)
Definition create_then_read {A D : Type}
    (create : string -> Z -> D -> Database -> result (A * Database))
    (get : string -> Z -> Database -> result (option A)) (getAll : Z -> Database -> list A)
    (id_of : A -> string) (userId_of : A -> Z) (owner_of : D -> option Z) : Prop :=
  forall id now data db rec db',
    create id now data db = Ok (rec, db') ->
    uuid_in id = Some (id_of rec) /\ owner_of data = Some (userId_of rec) /\
    get id (userId_of rec) db' = Ok (Some rec) /\
    get (id_of rec) (userId_of rec) db' = Ok (Some rec) /\
    getAll (userId_of rec) db' ≡ₚ rec :: getAll (userId_of rec) db.

(** The rows of a user, table by table, as the tables hold them. *)
Definition rows_of (userId : Z) (db : Database)
    : list IncomeRow.t * list ExpenseRow.t * list AssetRow.t * list LiabilityRow.t
      * list GoalRow.t :=
  (filter (of_user userId) (incomes db), filter (of_user userId) (expenses db),
   filter (of_user userId) (assets db), filter (of_user userId) (liabilities db),
   filter (of_user userId) (goals db)).

(** What a user reads is the same in [db'] as in [db]: the five lists and
    every get-one. *)
Definition reads_same {rt : Runtime} {en : Engine} (userId : Z) (db db' : Database) : Prop :=
  (getAllIncomes userId db' = getAllIncomes userId db /\
   forall id, getIncome id userId db' = getIncome id userId db) /\
  (getAllExpenses userId db' = getAllExpenses userId db /\
   forall id, getExpense id userId db' = getExpense id userId db) /\
  (getAllAssets userId db' = getAllAssets userId db /\
   forall id, getAsset id userId db' = getAsset id userId db) /\
  (getAllLiabilities userId db' = getAllLiabilities userId db /\
   forall id, getLiability id userId db' = getLiability id userId db) /\
  (getAllGoals userId db' = getAllGoals userId db /\
   forall id, getGoal id userId db' = getGoal id userId db).

(** The writes of one kind of record by or for a user leave what every
    other user reads as it was: a create for the user, an update by the
    user that assigns no owner, a delete by the user. *)
Definition others_unaffected {rt : Runtime} {en : Engine} {D A : Type}
    (create : string -> Z -> D -> Database -> result (A * Database))
    (update : string -> D -> Z -> Database -> result Database)
    (delete : string -> Z -> Database -> result Database)
    (owner_of : D -> option Z) : Prop :=
  forall userId userId', userId' <> userId ->
    (forall id now data db rec db',
       owner_of data = Some userId -> create id now data db = Ok (rec, db') ->
       reads_same userId' db db') /\
    (forall id data db db',
       owner_of data = None -> update id data userId db = Ok db' ->
       reads_same userId' db db') /\
    (forall id db db', delete id userId db = Ok db' -> reads_same userId' db db').

(** An owner's delete of an id that is no uuid throws. A delete of a
    uuid succeeds, and after it: the get-one of that id finds nothing, the
    owner's list is the list before without the records of that uuid, in
    some order, the owner's records of another uuid are read as before,
    and a second delete succeeds and changes nothing more. *)
Definition delete_then_read {A : Type}
    (delete : string -> Z -> Database -> result Database)
    (get : string -> Z -> Database -> result (option A)) (getAll : Z -> Database -> list A)
    (id_of : A -> string) : Prop :=
  forall id userId db,
    match uuid_in id with
    | None => delete id userId db = Throw invalid_uuid
    | Some uuid =>
      exists db',
        delete id userId db = Ok db' /\
        get id userId db' = Ok None /\
        getAll userId db' ≡ₚ filter (fun a => id_of a <> uuid) (getAll userId db) /\
        (forall id' uuid', uuid_in id' = Some uuid' -> uuid' <> uuid ->
                           get id' userId db' = get id' userId db) /\
        delete id userId db' = Ok db'
    end.

(** What an owner's update that assigns no owner leaves alone: the ids of
    the owner's list, up to their order, and every record of the owner
    that has another uuid; and the whole database when the owner has no
    record of the id. The id it was given is a uuid. *)
Definition update_touches_one {A D : Type}
    (update : string -> D -> Z -> Database -> result Database)
    (get : string -> Z -> Database -> result (option A)) (getAll : Z -> Database -> list A)
    (id_of : A -> string) (owner_of : D -> option Z) : Prop :=
  forall id data userId db db',
    owner_of data = None -> update id data userId db = Ok db' ->
    exists uuid,
      uuid_in id = Some uuid /\
      id_of <$> getAll userId db' ≡ₚ id_of <$> getAll userId db /\
      (forall id' uuid', uuid_in id' = Some uuid' -> uuid' <> uuid ->
                         get id' userId db' = get id' userId db) /\
      (get id userId db = Ok None -> db' = db).

(** The text has no space. *)
Definition no_space (s : string) : Prop := " "%char ∉ list_ascii_of_string s.

(** What the token check makes of the token it has read. *)
Definition verified {cr : Crypto} (token : string) (now : Z) : Passed :=
  match jwt_verify token now with
  | Some (id, username) => Next id username
  | None => Stop 403 "Invalid token"
  end.


(** The answer of the login and registration routes for a user. *)
Definition signed_in {rt : Runtime} (id : Z) (username : string) (now : Z) : LoginResult :=
  {| token := generateToken id username now; user_id := id; user_username := username |}.

(** The two locations the Google callback redirects to. *)
Definition google_signed_in (frontendUrl token : string) : string :=
  frontendUrl +:+ "/auth/callback?token=" +:+ token.

Definition google_failed (frontendUrl : string) : string :=
  frontendUrl +:+ "/auth?error=google_auth_failed".

(** The row of a user after the sign-in of the user [id] at [now]. *)
Definition logged_at (id : Z) (now : Z) (u : UserRow.t) : UserRow.t :=
  if decide (UserRow.id u = id) then setLastLogin now u else u.

(** [request_by userId db db']: a request of the user [userId] to one of
    the write routes behind the token check, whatever its body, its path
    parameter and the draws of the storage, makes [db'] of [db]. *)
Inductive request_by {rt : Runtime} {en : Engine} (userId : Z) (db : Database)
    : Database -> Prop :=
| by_post_incomes data id now :
    request_by userId db (post_incomes userId data id now db).2
| by_put_incomes elements :
    request_by userId db (put_incomes userId elements db).2
| by_delete_incomes id :
    request_by userId db (delete_incomes_id id userId db).2
| by_post_expenses data id now :
    request_by userId db (post_expenses userId data id now db).2
| by_put_expenses elements :
    request_by userId db (put_expenses userId elements db).2
| by_delete_expenses id :
    request_by userId db (delete_expenses_id id userId db).2
| by_post_assets data id now :
    request_by userId db (post_assets userId data id now db).2
| by_put_assets elements :
    request_by userId db (put_assets userId elements db).2
| by_delete_assets id :
    request_by userId db (delete_assets_id id userId db).2
| by_post_liabilities data id now :
    request_by userId db (post_liabilities userId data id now db).2
| by_put_liabilities elements :
    request_by userId db (put_liabilities userId elements db).2
| by_delete_liabilities id :
    request_by userId db (delete_liabilities_id id userId db).2
| by_post_goals data id now :
    request_by userId db (post_goals userId data id now db).2
| by_put_goals elements :
    request_by userId db (put_goals userId elements db).2
| by_delete_goals id :
    request_by userId db (delete_goals_id id userId db).2.

(** A request to one of the routes before the token check. *)
Inductive account_request {rt : Runtime} {cr : Crypto} (db : Database) : Database -> Prop :=
| by_register username password email id salt now :
    account_request db (post_auth_register username password email id salt now db).2
| by_login username password now :
    account_request db (post_auth_login username password now db).2
| by_google_callback frontendUrl payload id now :
    account_request db (get_auth_google_callback frontendUrl payload id now db).2.

(** [others_act userId' db db']: a sequence of requests, none of them a
    request of [userId'] to a write route behind the token check, makes
    [db'] of [db]. *)
Inductive others_act {rt : Runtime} {cr : Crypto} {en : Engine} (userId' : Z)
    : Database -> Database -> Prop :=
| others_done db : others_act userId' db db
| others_account db db1 db2 :
    account_request db db1 -> others_act userId' db1 db2 -> others_act userId' db db2
| others_request userId db db1 db2 :
    userId <> userId' -> request_by userId db db1 -> others_act userId' db1 db2 ->
    others_act userId' db db2.

(** A bulk route keeps the caller's records: the ids of the caller's list
    before are ids of the list after, each as many times, whatever the
    order of the two lists. *)
Definition bulk_keeps_records {E A : Type}
    (put : Z -> E -> Database -> Response (list A) * Database)
    (getAll : Z -> Database -> list A) (id_of : A -> string) : Prop :=
  forall userId elements db,
    (id_of <$> getAll userId db) ⊆+ (id_of <$> getAll userId (put userId elements db).2).

(** No expense of the database has notes. *)
Definition no_expense_notes (db : Database) : Prop :=
  Forall (fun r => ExpenseRow.notes r = Null) (expenses db).

(** A number that passes [z.number().min(0)]. *)
Definition non_negative (x : number) : Prop :=
  is_nan x = false /\ (x <? 0)%float = false.

(** The notes a create stores for a body: those of a string under
    [notes], and none for a body without. *)
Definition notes_given (v : option value) : nullable string :=
  match v with Some (VString s) => NotNull s | _ => Null end.

(** The rows the create routes store for a caller, an id and a clock
    reading. *)
Definition income_row (userId : Z) (id : string) (now : Z)
    (source category amount type frequency : string) (notes : nullable string) : IncomeRow.t :=
  {| IncomeRow.id := id; IncomeRow.userId := userId; IncomeRow.source := source;
     IncomeRow.category := category; IncomeRow.amount := amount; IncomeRow.type := type;
     IncomeRow.frequency := frequency; IncomeRow.notes := notes;
     IncomeRow.createdAt := now |}.

Definition expense_row (userId : Z) (id : string) (now : Z)
    (category amount description : string) (date : Z) : ExpenseRow.t :=
  {| ExpenseRow.id := id; ExpenseRow.userId := userId; ExpenseRow.category := category;
     ExpenseRow.amount := amount; ExpenseRow.description := description;
     ExpenseRow.date := date; ExpenseRow.notes := Null; ExpenseRow.createdAt := now |}.

Definition asset_row (userId : Z) (id : string) (now : Z)
    (name category value incomeGenerated : string) (notes : nullable string) : AssetRow.t :=
  {| AssetRow.id := id; AssetRow.userId := userId; AssetRow.name := name;
     AssetRow.category := category; AssetRow.value := value;
     AssetRow.incomeGenerated := incomeGenerated; AssetRow.notes := notes;
     AssetRow.createdAt := now |}.

Definition liability_row (userId : Z) (id : string) (now : Z)
    (description type amount interestRate : string) (notes : nullable string)
    : LiabilityRow.t :=
  {| LiabilityRow.id := id; LiabilityRow.userId := userId;
     LiabilityRow.description := description; LiabilityRow.type := type;
     LiabilityRow.amount := amount; LiabilityRow.interestRate := interestRate;
     LiabilityRow.notes := notes; LiabilityRow.createdAt := now |}.

Definition goal_row (userId : Z) (id : string) (now : Z)
    (description targetAmount currentAmount targetDate : string) : GoalRow.t :=
  {| GoalRow.id := id; GoalRow.userId := userId; GoalRow.description := description;
     GoalRow.targetAmount := targetAmount; GoalRow.currentAmount := currentAmount;
     GoalRow.targetDate := targetDate; GoalRow.createdAt := now |}.

(** What a body has passed when a create route stores the row [r] for
    it: each property the schema names is there with the type and the
    bounds the schema asks for, after the conversions of the handler, and
    the row holds these properties, the caller as owner, the uuid of the
    id drawn and the clock reading; the target date of a goal is held as
    the day the engine kept of its text. *)
Definition accepted_income {rt : Runtime} (userId : Z) (data : object) (id : string)
    (now : Z) (r : IncomeRow.t) : Prop :=
  exists uuid source category amount type frequency,
    uuid_in id = Some uuid /\
    data !! "source" = Some (VString source) /\
    data !! "category" = Some (VString category) /\
    (data !! "amount" = Some (VNumber amount) /\ is_nan amount = false) /\
    (data !! "type" = Some (VString type) /\ type ∈ ["active"; "passive"]) /\
    (data !! "frequency" = Some (VString frequency) /\
     frequency ∈ ["monthly"; "bi-weekly"; "weekly"; "annually"; "one-time"]) /\
    r = income_row userId uuid now source category (numberToString amount) type frequency
          (notes_given (data !! "notes")).

Definition accepted_expense {rt : Runtime} (userId : Z) (data : object) (id : string)
    (now : Z) (r : ExpenseRow.t) : Prop :=
  exists uuid category amount description date,
    uuid_in id = Some uuid /\
    data !! "category" = Some (VString category) /\
    (data !! "amount" = Some (VNumber amount) /\ is_nan amount = false) /\
    data !! "description" = Some (VString description) /\
    new_Date (data !! "date") = Some date /\
    r = expense_row userId uuid now category (numberToString amount) description date.

Definition accepted_asset {rt : Runtime} (userId : Z) (data : object) (id : string)
    (now : Z) (r : AssetRow.t) : Prop :=
  exists uuid name category value incomeGenerated,
    uuid_in id = Some uuid /\
    (data !! "name" = Some (VString name) /\ name <> "") /\
    (data !! "category" = Some (VString category) /\ category <> "") /\
    (data !! "value" = Some (VNumber value) /\ non_negative value) /\
    (data !! "incomeGenerated" = Some (VNumber incomeGenerated) /\
     non_negative incomeGenerated) /\
    r = asset_row userId uuid now name category (numberToString value)
          (numberToString incomeGenerated) (notes_given (data !! "notes")).

Definition accepted_liability {rt : Runtime} (userId : Z) (data : object) (id : string)
    (now : Z) (r : LiabilityRow.t) : Prop :=
  exists uuid description type,
    uuid_in id = Some uuid /\
    userId <> 0 /\
    (data !! "description" = Some (VString description) /\ description <> "") /\
    (data !! "type" = Some (VString type) /\ type <> "") /\
    non_negative (Number (data !! "amount")) /\
    non_negative (Number (data !! "interestRate")) /\
    r = liability_row userId uuid now description type
          (numberToString (Number (data !! "amount")))
          (numberToString (Number (data !! "interestRate")))
          (notes_given (data !! "notes")).

Definition accepted_goal {rt : Runtime} {en : Engine} (userId : Z) (data : object)
    (id : string) (now : Z) (r : GoalRow.t) : Prop :=
  exists uuid description targetDate day,
    uuid_in id = Some uuid /\
    (data !! "description" = Some (VString description) /\ description <> "") /\
    non_negative (Number (data !! "targetAmount")) /\
    non_negative (Number (data !! "currentAmount")) /\
    new_Date (data !! "targetDate") = Some targetDate /\
    date_in (toISOString targetDate) = Some day /\
    r = goal_row userId uuid now description
          (numberToString (Number (data !! "targetAmount")))
          (numberToString (Number (data !! "currentAmount")))
          day.

(** The total the debt template computes, and the share of the cash flow
    it goes on to advise. *)
Definition totalLiabilities (liabilities : list Liability.t) : number :=
  foldl (fun sum l => sum + Liability.amount l)%float 0%float liabilities.

Definition debt_share (liabilities : list Liability.t) (cashFlow : number) : number :=
  Math_min 20%float (Math_max 5%float (cashFlow / totalLiabilities liabilities * 100)%float).

(** A get-one route behind the token check answers with a record only to
    a request whose authorization header has, as its second field, a
    token that verifies, and the record then has the uuid asked for and
    the user of that token as owner. *)
Definition served_to_owner {rt : Runtime} {cr : Crypto} {A : Type}
    (get : string -> Z -> Database -> Response A)
    (id_of : A -> string) (userId_of : A -> Z) : Prop :=
  forall authHeader now db id a,
    (use_authenticateToken authHeader now (fun userId db => (get id userId db, db)) db).1
    = json a ->
    exists header token userId username,
      authHeader = Some header /\ split " " header !! 1%nat = Some token /\
      jwt_verify token now = Some (userId, username) /\
      uuid_in id = Some (id_of a) /\ userId_of a = userId.

(** A list route behind the token check answers with a list only to a
    request whose authorization header has, as its second field, a token
    that verifies, and every record of the list has the user of that
    token as owner. *)
Definition lists_own_records {rt : Runtime} {cr : Crypto} {A : Type}
    (getAll : Z -> Database -> Response (list A)) (userId_of : A -> Z) : Prop :=
  forall authHeader now db l,
    (use_authenticateToken authHeader now (fun userId db => (getAll userId db, db)) db).1
    = json l ->
    exists header token userId username,
      authHeader = Some header /\ split " " header !! 1%nat = Some token /\
      jwt_verify token now = Some (userId, username) /\
      Forall (fun a => userId_of a = userId) l.

(** The active income the general template computes. *)
Definition activeIncome {rt : Runtime} (incomes : list Income.t) : number :=
  foldl (fun sum i => sum + parseFloat_number (Income.amount i))%float 0%float
        (filter (fun i => Income.type i = "active") incomes).

(** Some asset has the category. *)
Definition has_category (category : string) (assets : list Asset.t) : Prop :=
  Exists (fun a => Asset.category a = category) assets.

(** Some goal is due within twelve months of [today], or later than
    that; a goal whose target date is invalid counts for neither. *)
Definition has_short_term {rt : Runtime} (today : Z) (goals : list Goal.t) : Prop :=
  Exists (fun g => exists m, monthsUntilTarget today g = Some m /\ m <= 12) goals.

Definition has_long_term {rt : Runtime} (today : Z) (goals : list Goal.t) : Prop :=
  Exists (fun g => exists m, monthsUntilTarget today g = Some m /\ 12 < m) goals.

(** What [handleGoogleCallback] returns for a user. *)
Definition google_login {rt : Runtime} (user : UserRow.t) (now : Z) : GoogleLogin :=
  {| google_token := generateToken (UserRow.id user) (UserRow.username user) now;
     google_user_id := UserRow.id user;
     google_user_username := UserRow.username user;
     google_user_email := UserRow.email user |}.

(** A create is undone by the owner's delete of the id it drew: the
    database is the one before the create. *)
Definition create_undone_by_delete {A D : Type}
    (create : string -> Z -> D -> Database -> result (A * Database))
    (delete : string -> Z -> Database -> result Database) (owner_of : D -> option Z) : Prop :=
  forall id now data db rec db' userId,
    create id now data db = Ok (rec, db') -> owner_of data = Some userId ->
    delete id userId db' = Ok db.

(** An owner's update that assigns no owner and succeeds can be sent
    again: it succeeds again and changes nothing more. *)
Definition update_twice_is_once {D : Type}
    (update : string -> D -> Z -> Database -> result Database)
    (owner_of : D -> option Z) : Prop :=
  forall id data userId db db',
    owner_of data = None -> update id data userId db = Ok db' ->
    update id data userId db' = Ok db'.

(** The shape the five get-one operations share. *)
Definition get_by_uuid {en : Engine} {R A : Type} `{Owned R} (table : Database -> list R)
    (map_row : R -> A) (id : string) (userId : Z) (db : Database) : result (option A) :=
  match uuid_in id with
  | None => Throw invalid_uuid
  | Some uuid => Ok (map_row <$> head (select_where (is_record uuid userId) (table db)))
  end.


(** * Properties *)

(** ** The runtime helpers on sample inputs *)

Section Samples.
Local Open Scope float_scope.
#[local] Existing Instance test_runtime.

Example toFixed_ties_up :
  (toFixed 0.5 0, toFixed 2.5 0,
   toFixed (-1.5) 0) = ("1", "3", "-2").
Proof. by vm_compute. Qed.

Example toFixed_pads :
  (toFixed 100 1, toFixed 0 2,
   toFixed 0.0625 2, toFixed 12345.75 1)
  = ("100.0", "0.00", "0.06", "12345.8").
Proof. by vm_compute. Qed.

Example toFixed_not_a_number :
  (toFixed nan 1, toFixed infinity 1,
   toFixed neg_infinity 0) = ("NaN", "Infinity", "-Infinity").
Proof. by vm_compute. Qed.

Example numberToString_samples :
  (numberToString 5000, numberToString (-12),
   numberToString (-0), numberToString nan)
  = ("5000", "-12", "0", "NaN").
Proof. by vm_compute. Qed.

Example includes_lower_case :
  (includes (toLowerCase "Pay OFF my Liability") "pay off",
   includes (toLowerCase "Pay OFF my Liability") "liability",
   includes "payoff" "pay off", includes "anything" "")
  = (true, true, false, true).
Proof. by vm_compute. Qed.

Example Math_max_nan : is_nan (Math_min 20 (Math_max 5 nan)) = true.
Proof. by vm_compute. Qed.

Example Math_clamp :
  (toFixed (Math_min 20 (Math_max 5 2.5)) 0,
   toFixed (Math_min 20 (Math_max 5 12.5)) 0,
   toFixed (Math_min 20 (Math_max 5 250)) 0) = ("5", "13", "20").
Proof. by vm_compute. Qed.

Example new_Date_samples :
  (new_Date None, new_Date (Some VNull),
   new_Date (Some (VNumber 1704067200000.5)),
   new_Date (Some (VNumber nan)))
  = (None, Some 0%Z, Some 1704067200000%Z, None).
Proof. by vm_compute. Qed.
End Samples.

(** ** The engine: the order of a select, and the uuids *)

Section EngineFacts.
Context {en : Engine}.

Lemma scan_nil {R : Type} : scan (@nil R) = [].
Proof. apply Permutation_nil_r, scan_perm. Qed.

Lemma scan_singleton {R : Type} (x : R) : scan [x] = [x].
Proof. apply Permutation_singleton_r, scan_perm. Qed.

Lemma elem_of_scan {R : Type} (x : R) (l : list R) : x ∈ scan l <-> x ∈ l.
Proof. by rewrite scan_perm. Qed.

Lemma scan_fmap {R B : Type} (f : R -> B) (l : list R) : f <$> scan l ≡ₚ f <$> l.
Proof. by rewrite scan_perm. Qed.
End EngineFacts.

Lemma hex_value_lt (a : ascii) (x : N) : hex_value a = Some x -> (x < 16)%N.
Proof.
  unfold hex_value. intros Hv.
  repeat case_match; simplify_eq;
    repeat match goal with
           | E : (_ && _) = true |- _ => apply andb_true_iff in E as [? ?]
           | E : (_ <=? _)%N = true |- _ => apply N.leb_le in E
           end; lia.
Qed.

Lemma hex_value_char (d : N) : (d < 16)%N -> hex_value (hex_char d) = Some d.
Proof.
  intros Hd.
  assert (d ∈ (N.of_nat <$> seq 0 16)) as Hin.
  { apply list_elem_of_fmap. exists (N.to_nat d). split; [lia|].
    apply elem_of_seq. lia. }
  simpl in Hin.
  repeat (apply elem_of_cons in Hin as [->|Hin]; [reflexivity|]).
  by apply elem_of_nil in Hin.
Qed.

Lemma hex_char_not_brace (d : N) (s : string) :
  (d < 16)%N ->
  match String (hex_char d) s with
  | String "{"%char rest => (rest, true)
  | _ => (String (hex_char d) s, false)
  end = (String (hex_char d) s, false).
Proof.
  intros Hd.
  assert (d ∈ (N.of_nat <$> seq 0 16)) as Hin.
  { apply list_elem_of_fmap. exists (N.to_nat d). split; [lia|].
    apply elem_of_seq. lia. }
  simpl in Hin.
  repeat (apply elem_of_cons in Hin as [->|Hin]; [reflexivity|]).
  by apply elem_of_nil in Hin.
Qed.

Lemma skip_hyphen_hex (d : N) (s : string) :
  (d < 16)%N -> skip_hyphen (String (hex_char d) s) = String (hex_char d) s.
Proof.
  intros Hd.
  assert (d ∈ (N.of_nat <$> seq 0 16)) as Hin.
  { apply list_elem_of_fmap. exists (N.to_nat d). split; [lia|].
    apply elem_of_seq. lia. }
  simpl in Hin.
  repeat (apply elem_of_cons in Hin as [->|Hin]; [reflexivity|]).
  by apply elem_of_nil in Hin.
Qed.

Lemma skip_hyphen_end : skip_hyphen "" = "".
Proof. reflexivity. Qed.

Lemma skip_hyphen_hyphen (s : string) : skip_hyphen (String "-" s) = s.
Proof. reflexivity. Qed.

Lemma uuid_digits_spec (n : nat) (src : string) (l : list N) (rest : string) :
  uuid_digits n src = Some (l, rest) ->
  length l = (2 * n)%nat /\ Forall (fun d => (d < 16)%N) l.
Proof.
  revert src l rest. induction n as [|n IH]; intros src l rest Hd; simpl in Hd.
  - by simplify_eq.
  - destruct src as [|a [|b src]]; try done.
    destruct (hex_value a) as [x|] eqn:Hx; [|done].
    destruct (hex_value b) as [y|] eqn:Hy; [|done].
    destruct (uuid_digits n _) as [[l' src']|] eqn:Hl; [|done].
    simplify_eq. apply IH in Hl as [Hlen Hall]. split.
    + simpl. lia.
    + repeat constructor; eauto using hex_value_lt.
Qed.

Lemma uuid_digits_step (n : nat) (x y : N) (src : string) :
  (x < 16)%N -> (y < 16)%N ->
  uuid_digits (S n) (String (hex_char x) (String (hex_char y) src))
  = match uuid_digits n (if Nat.even n && negb (n =? 0)%nat then skip_hyphen src else src) with
    | Some (l, src') => Some (x :: y :: l, src')
    | None => None
    end.
Proof. intros Hx Hy. simpl. by rewrite !hex_value_char. Qed.

(** The output text of a uuid is read as that uuid. *)
Lemma uuid_in_out (l : list N) :
  length l = 32%nat -> Forall (fun d => (d < 16)%N) l -> uuid_in (uuid_out l) = Some (uuid_out l).
Proof.
  intros Hlen Hall.
  do 32 (destruct l as [|? l]; [done|]). destruct l; [|done]. clear Hlen.
  repeat match goal with
         | Hf : Forall _ (_ :: _) |- _ => apply Forall_cons in Hf as [? Hf]
         end.
  unfold uuid_in, uuid_out. cbn [uuid_text Nat.eqb orb].
  rewrite hex_char_not_brace by done.
  repeat (rewrite uuid_digits_step by done;
          cbn [Nat.even Nat.eqb andb negb];
          rewrite ?skip_hyphen_hyphen, ?skip_hyphen_hex, ?skip_hyphen_end by done).
  reflexivity.
Qed.

Lemma uuid_in_idem (id uuid : string) : uuid_in id = Some uuid -> uuid_in uuid = Some uuid.
Proof.
  unfold uuid_in at 1. intros Hin. repeat case_match; simplify_eq;
    match goal with
    | Hd : uuid_digits _ _ = Some _ |- _ =>
      apply uuid_digits_spec in Hd as [? ?]; by apply uuid_in_out
    end.
Qed.

Lemma filter_none {A} (p : A -> Prop) `{!forall a, Decision (p a)} (l : list A) :
  (forall a, a ∈ l -> ~ p a) -> filter p l = [].
Proof.
  intros Hno. induction l as [|a l IH]; [done|].
  rewrite filter_cons_False by (apply Hno; left).
  apply IH. intros b Hb. apply Hno. by right.
Qed.

(** ** Tables *)

Section TableFacts.
Context {en : Engine} {R : Type} `{Owned R}.

Lemma key_determines_row (t : list R) (r r' : R) :
  NoDup (row_id <$> t) -> r ∈ t -> r' ∈ t -> row_id r = row_id r' -> r = r'.
Proof.
  induction t as [|x t IH]; intros Hnd Hr Hr' Heq.
  - by apply elem_of_nil in Hr.
  - rewrite fmap_cons in Hnd. apply NoDup_cons in Hnd as [Hx Hnd].
    apply elem_of_cons in Hr as [->|Hr]; apply elem_of_cons in Hr' as [->|Hr'].
    + done.
    + exfalso. apply Hx. rewrite Heq. by apply list_elem_of_fmap_2.
    + exfalso. apply Hx. rewrite <- Heq. by apply list_elem_of_fmap_2.
    + by apply IH.
Qed.

Lemma select_none (p : R -> Prop) `{!forall r, Decision (p r)} (t : list R) :
  (forall r, r ∈ t -> ~ p r) -> select_where p t = [].
Proof.
  intros Hno. unfold select_where.
  destruct (filter p t) as [|x l] eqn:E; [apply scan_nil|].
  assert (x ∈ filter p t) as Hx by (rewrite E; left).
  apply list_elem_of_filter in Hx as [Hp Hx]. by destruct (Hno x Hx).
Qed.

Lemma select_elem_of (p : R -> Prop) `{!forall r, Decision (p r)} (t : list R) (r : R) :
  r ∈ select_where p t <-> p r /\ r ∈ t.
Proof. unfold select_where. by rewrite elem_of_scan, list_elem_of_filter. Qed.

Lemma select_perm (p : R -> Prop) `{!forall r, Decision (p r)} (t : list R) :
  select_where p t ≡ₚ filter p t.
Proof. apply scan_perm. Qed.

(** Two tables with the same matching rows are read alike. *)
Lemma select_same (p : R -> Prop) `{!forall r, Decision (p r)} (t t' : list R) :
  filter p t' = filter p t -> select_where p t' = select_where p t.
Proof. unfold select_where. by intros ->. Qed.

Lemma select_one (p : R -> Prop) `{!forall r, Decision (p r)} (t : list R) (r : R) :
  filter p t = [r] -> select_where p t = [r].
Proof. unfold select_where. intros ->. apply scan_singleton. Qed.

Lemma select_other_owner (t : list R) (r : R) (userId : Z) :
  NoDup (row_id <$> t) -> r ∈ t -> userId <> row_userId r ->
  select_where (is_record (row_id r) userId) t = [].
Proof.
  intros Hnd Hr Hne. apply select_none. intros r' Hr' [Hid Hu].
  assert (r' = r) as -> by by eapply key_determines_row.
  by destruct Hne.
Qed.

Lemma select_unknown_id (t : list R) (id : string) (userId : Z) :
  id ∉ row_id <$> t -> select_where (is_record id userId) t = [].
Proof.
  intros Hid. apply select_none. intros r Hr [Heq _].
  apply Hid. rewrite <- Heq. by apply list_elem_of_fmap_2.
Qed.

Lemma select_head_record (t : list R) (id : string) (userId : Z) (r : R) :
  head (select_where (is_record id userId) t) = Some r ->
  r ∈ t /\ row_id r = id /\ row_userId r = userId.
Proof.
  intros Hh. apply head_Some_elem_of in Hh.
  apply select_elem_of in Hh as [[? ?] ?]. done.
Qed.

Lemma insert_returning_inv (us : list UserRow.t) (r r' : R) (t t' : list R) :
  insert_returning us r t = Ok (r', t') ->
  r' = r /\ t' = t ++ [r] /\ (row_id r ∉ row_id <$> t) /\
  row_userId r ∈ UserRow.id <$> us.
Proof.
  unfold insert_returning. intros Hi.
  repeat case_bool_decide; simplify_eq. done.
Qed.

Lemma select_after_insert (t : list R) (r : R) (userId : Z) :
  row_id r ∉ row_id <$> t -> userId <> row_userId r ->
  select_where (is_record (row_id r) userId) (t ++ [r]) = [].
Proof.
  intros Hfresh Hne. apply select_none. intros r' Hr' [Hid Hu].
  apply elem_of_app in Hr' as [Hr'|Hr'].
  - apply Hfresh. rewrite <- Hid. by apply list_elem_of_fmap_2.
  - apply list_elem_of_singleton in Hr' as ->. by destruct Hne.
Qed.

Lemma insert_keeps_keys (t : list R) (r : R) :
  NoDup (row_id <$> t) -> row_id r ∉ row_id <$> t -> NoDup (row_id <$> t ++ [r]).
Proof.
  intros Hnd Hfresh. rewrite fmap_app. apply NoDup_app. split; [done|]. split.
  - intros x Hx Hx'. apply list_elem_of_singleton in Hx'. by subst.
  - apply NoDup_singleton.
Qed.
Lemma update_keeps_keys (us : list UserRow.t) (p : R -> Prop) `{!forall r, Decision (p r)}
    (owner : option Z) (f : R -> R) (t rs t' : list R) :
  (forall r, row_id (f r) = row_id r) ->
  update_where us p owner f t = Ok (rs, t') ->
  row_id <$> t' = row_id <$> t.
Proof.
  intros Hf Hu.
  assert (t' = (fun r => if decide (p r) then f r else r) <$> t) as ->.
  { unfold update_where in Hu. destruct owner; [case_bool_decide|]; by simplify_eq. }
  rewrite <- list_fmap_compose. apply list_fmap_ext. intros i r _. simpl.
  by case_decide.
Qed.

Lemma delete_keeps_keys (p : R -> Prop) `{!forall r, Decision (p r)} (t : list R) :
  NoDup (row_id <$> t) -> NoDup (row_id <$> delete_where p t).
Proof.
  unfold delete_where. induction t as [|r t IH]; [done|].
  rewrite fmap_cons. intros [Hr Hnd]%NoDup_cons.
  destruct (decide (~ p r)).
  - rewrite filter_cons_True by done. rewrite fmap_cons. apply NoDup_cons. split; [|by apply IH].
    intros (r' & Heq & Hin)%list_elem_of_fmap. apply Hr.
    apply list_elem_of_filter in Hin as [_ Hin]. rewrite Heq. by apply list_elem_of_fmap_2.
  - rewrite filter_cons_False by done. by apply IH.
Qed.
End TableFacts.

(** ** Storage: what a successful create did *)

Section StorageFacts.
Context {rt : Runtime} {en : Engine}.

Ltac invert_create Hc :=
  repeat case_match; simplify_eq;
  match goal with
  | Hi : insert_returning _ _ _ = Ok _ |- _ =>
    apply insert_returning_inv in Hi as (-> & -> & ? & ?)
  end.

Lemma createIncome_inv id now data db rec db1 :
  createIncome id now data db = Ok (rec, db1) ->
  exists r, rec = mapIncome r /\ db1 = set_incomes db (incomes db ++ [r]) /\
            uuid_in id = Some (IncomeRow.id r) /\ IncomeData.userId data = Some (IncomeRow.userId r) /\
            (IncomeRow.id r ∉ row_id <$> incomes db).
Proof.
  unfold createIncome. intros Hc. invert_create Hc.
  eexists. repeat split; done.
Qed.

Lemma createExpense_inv id now data db rec db1 :
  createExpense id now data db = Ok (rec, db1) ->
  exists r, rec = mapExpense r /\ db1 = set_expenses db (expenses db ++ [r]) /\
            uuid_in id = Some (ExpenseRow.id r) /\ ExpenseData.userId data = Some (ExpenseRow.userId r) /\
            (ExpenseRow.id r ∉ row_id <$> expenses db).
Proof.
  unfold createExpense. intros Hc. invert_create Hc.
  eexists. repeat split; done.
Qed.

Lemma createAsset_inv id now data db rec db1 :
  createAsset id now data db = Ok (rec, db1) ->
  exists r, rec = mapAsset r /\ db1 = set_assets db (assets db ++ [r]) /\
            uuid_in id = Some (AssetRow.id r) /\ AssetData.userId data = Some (AssetRow.userId r) /\
            (AssetRow.id r ∉ row_id <$> assets db).
Proof.
  unfold createAsset. intros Hc. invert_create Hc.
  eexists. repeat split; done.
Qed.

Lemma createLiability_inv id now data db rec db1 :
  createLiability id now data db = Ok (rec, db1) ->
  exists r, rec = mapLiability r /\ db1 = set_liabilities db (liabilities db ++ [r]) /\
            uuid_in id = Some (LiabilityRow.id r) /\
            LiabilityData.userId data = Some (LiabilityRow.userId r) /\
            (LiabilityRow.id r ∉ row_id <$> liabilities db).
Proof.
  unfold createLiability. intros Hc. invert_create Hc.
  eexists. repeat split; done.
Qed.

Lemma createGoal_inv id now data db rec db1 :
  createGoal id now data db = Ok (rec, db1) ->
  exists r, rec = mapGoal r /\ db1 = set_goals db (goals db ++ [r]) /\
            uuid_in id = Some (GoalRow.id r) /\ GoalData.userId data = Some (GoalRow.userId r) /\
            (GoalRow.id r ∉ row_id <$> goals db).
Proof.
  unfold createGoal. intros Hc. invert_create Hc.
  eexists. repeat split; done.
Qed.




End StorageFacts.

(** ** C1: a record is found by its owner only *)

Section GetOne.
Context {rt : Runtime} {en : Engine}.

Lemma getIncome_head id userId db :
  getIncome id userId db = get_by_uuid incomes mapIncome id userId db.
Proof. unfold getIncome, get_by_uuid. by repeat case_match. Qed.

Lemma getExpense_head id userId db :
  getExpense id userId db = get_by_uuid expenses mapExpense id userId db.
Proof. unfold getExpense, get_by_uuid. by repeat case_match. Qed.

Lemma getAsset_head id userId db :
  getAsset id userId db = get_by_uuid assets mapAsset id userId db.
Proof. unfold getAsset, get_by_uuid. by repeat case_match. Qed.

Lemma getLiability_head id userId db :
  getLiability id userId db = get_by_uuid liabilities mapLiability id userId db.
Proof. unfold getLiability, get_by_uuid. by repeat case_match. Qed.

Lemma getGoal_head id userId db :
  getGoal id userId db = get_by_uuid goals mapGoal id userId db.
Proof. unfold getGoal, get_by_uuid. by repeat case_match. Qed.
End GetOne.

Section Scoped.
Context {en : Engine} {R A D : Type} `{Owned R}.
Variable table : Database -> list R.
Variable create : string -> Z -> D -> Database -> result (A * Database).
Variable get : string -> Z -> Database -> result (option A).
Variable map_row : R -> A.
Variable id_of : A -> string.
Variable userId_of : A -> Z.

Hypothesis get_head : forall id userId db,
  get id userId db = get_by_uuid table map_row id userId db.
Hypothesis create_appends : forall id now data db rec db1,
  create id now data db = Ok (rec, db1) ->
  exists r, rec = map_row r /\ table db1 = table db ++ [r] /\
            uuid_in id = Some (row_id r) /\
            (row_id r ∉ row_id <$> table db).
Hypothesis id_of_row : forall r, id_of (map_row r) = row_id r.
Hypothesis userId_of_row : forall r, userId_of (map_row r) = row_userId r.

Lemma scoped_to_owner_table : scoped_to_owner table create get id_of userId_of.
Proof using All.
  split_and!.
  - intros db id now data rec db1 userId' Hc Hne.
    apply create_appends in Hc as (r & -> & Ht & Hid & Hfresh).
    rewrite id_of_row. rewrite userId_of_row in Hne.
    assert (get (row_id r) userId' db1 = Ok None) as Hnone.
    { rewrite get_head. unfold get_by_uuid.
      by rewrite (uuid_in_idem _ _ Hid), Ht, select_after_insert. }
    split; [done|]. intros id' uuid Hid' Hnew.
    rewrite Hnone, get_head. unfold get_by_uuid.
    by rewrite Hid', select_unknown_id.
  - intros db r id userId' Hnd Hr Hid Hne.
    rewrite get_head. unfold get_by_uuid. by rewrite Hid, select_other_owner.
  - intros db id userId x Hget. rewrite get_head in Hget. unfold get_by_uuid in Hget.
    destruct (uuid_in id) as [uuid|]; [|done].
    destruct (head _) as [r|] eqn:Hh; [|done].
    apply select_head_record in Hh as (_ & <- & <-). simpl in Hget.
    inversion Hget. by rewrite id_of_row, userId_of_row.
  - intros db id userId Hid. rewrite get_head. unfold get_by_uuid. by rewrite Hid.
Qed.
End Scoped.

(** C1. For each of the five kinds of record: a record created for a
    user is not found by the get-one operation called with its id and any
    other user, and the answer is the one for a uuid that exists for no
    user; in a table with distinct keys a row is not found by anyone but
    its owner; whatever a get-one operation returns carries the uuid and
    the userId it was called with; and an id that is no uuid is refused
    with the error of the engine. *)
Theorem get_one_scoped_to_owner {rt : Runtime} {en : Engine} :
  scoped_to_owner incomes createIncome getIncome Income.id Income.userId /\
  scoped_to_owner expenses createExpense getExpense Expense.id Expense.userId /\
  scoped_to_owner assets createAsset getAsset Asset.id Asset.userId /\
  scoped_to_owner liabilities createLiability getLiability Liability.id Liability.userId /\
  scoped_to_owner goals createGoal getGoal Goal.id Goal.userId.
Proof.
  split_and!.
  - apply (scoped_to_owner_table incomes createIncome getIncome mapIncome Income.id Income.userId);
      try done; [apply getIncome_head|].
    intros id now data db rec db1 Hc.
    apply createIncome_inv in Hc as (r & -> & -> & ? & _ & ?). by exists r.
  - apply (scoped_to_owner_table expenses createExpense getExpense mapExpense Expense.id Expense.userId);
      try done; [apply getExpense_head|].
    intros id now data db rec db1 Hc.
    apply createExpense_inv in Hc as (r & -> & -> & ? & _ & ?). by exists r.
  - apply (scoped_to_owner_table assets createAsset getAsset mapAsset Asset.id Asset.userId);
      try done; [apply getAsset_head|].
    intros id now data db rec db1 Hc.
    apply createAsset_inv in Hc as (r & -> & -> & ? & _ & ?). by exists r.
  - apply (scoped_to_owner_table liabilities createLiability getLiability mapLiability Liability.id Liability.userId);
      try done; [apply getLiability_head|].
    intros id now data db rec db1 Hc.
    apply createLiability_inv in Hc as (r & -> & -> & ? & _ & ?). by exists r.
  - apply (scoped_to_owner_table goals createGoal getGoal mapGoal Goal.id Goal.userId);
      try done; [apply getGoal_head|].
    intros id now data db rec db1 Hc.
    apply createGoal_inv in Hc as (r & -> & -> & ? & _ & ?). by exists r.
Qed.

(** Alice (user 1) gets a new income [id_i2]; Bob (user 2) does not find
    it, nor Alice's [id_i1], nor a uuid nobody has. *)
Lemma get_one_scoped_to_owner_witness :
  let rt := test_runtime in
  let en := test_engine in
  createIncome id_i2 20 bonus sample_db = Ok (mapIncome bonus_row, db_with_bonus) /\
  getIncome id_i2 2 db_with_bonus = Ok None /\
  getIncome id_none 2 db_with_bonus = getIncome id_i2 2 db_with_bonus /\
  getIncome id_i1 2 sample_db = Ok None.
Proof.
  intros rt en.
  assert (createIncome id_i2 20 bonus sample_db = Ok (mapIncome bonus_row, db_with_bonus))
    as Hc by (vm_compute; reflexivity).
  destruct (get_one_scoped_to_owner (rt := test_runtime) (en := test_engine))
    as ((Hnew & Hrow & _) & _).
  destruct (Hnew _ _ _ _ _ _ 2 Hc) as [Hnone Hsame]; [done|].
  split_and!.
  - exact Hc.
  - exact Hnone.
  - apply (Hsame id_none id_none); [by vm_compute|].
    vm_compute. intros Hin. by repeat (apply elem_of_cons in Hin as [?|Hin]);
      try apply elem_of_nil in Hin.
  - apply (Hrow sample_db salary id_i1 2).
    + apply NoDup_singleton.
    + by left.
    + by vm_compute.
    + done.
Defined.

(** C1 as stated fails for an id that is no uuid. The text "no-such-id"
    is the id of no record of any user; Bob's get-one of it throws, where
    his get-one of Alice's income [id_i2] returns nothing, and the route
    answers 500 to the one and 404 to the other. *)
Lemma get_one_of_a_text_that_is_no_uuid_throws :
  let rt := test_runtime in
  let en := test_engine in
  ("no-such-id" ∉ row_id <$> incomes db_with_bonus) /\
  getIncome id_i2 2 db_with_bonus = Ok None /\
  getIncome "no-such-id" 2 db_with_bonus = Throw invalid_uuid /\
  getIncome "no-such-id" 2 db_with_bonus <> getIncome id_i2 2 db_with_bonus /\
  status (get_incomes_id id_i2 2 db_with_bonus) = 404 /\
  status (get_incomes_id "no-such-id" 2 db_with_bonus) = 500.
Proof.
  intros rt en. split_and!; try by vm_compute.
  vm_compute. intros Hin. by repeat (apply elem_of_cons in Hin as [?|Hin]);
    try apply elem_of_nil in Hin.
Qed.

(** ** C5: notes on read *)

Section Notes.
Context {en : Engine} {R A : Type} `{Owned R}.
Variable table : Database -> list R.
Variable getAll : Z -> Database -> list A.
Variable get : string -> Z -> Database -> result (option A).
Variable map_row : R -> A.
Variable stored : R -> nullable string.
Variable read : A -> option string.

Hypothesis getAll_map : forall userId db,
  getAll userId db = map_row <$> select_where (of_user userId) (table db).
Hypothesis get_head : forall id userId db,
  get id userId db = get_by_uuid table map_row id userId db.
Hypothesis read_row : forall r, read (map_row r) = or_undefined (stored r).

Lemma row_notes_as_stored (r : R) : notes_as_stored (stored r) (read (map_row r)).
Proof using read_row. rewrite read_row. by destruct (stored r). Qed.

Lemma reads_notes_as_stored_table : reads_notes_as_stored table getAll get stored read.
Proof using All.
  split.
  - intros db userId. rewrite getAll_map.
    induction (select_where (of_user userId) (table db)) as [|r l IH]; constructor.
    + apply row_notes_as_stored.
    + apply IH.
  - intros db id userId x Hget. rewrite get_head in Hget. unfold get_by_uuid in Hget.
    destruct (uuid_in id) as [uuid|]; [|done].
    destruct (head _) as [r|] eqn:Hh; [|done].
    apply select_head_record in Hh as (Hin & Hid & Hu).
    simpl in Hget. inversion Hget. exists r, uuid. split_and!; try done.
    apply row_notes_as_stored.
Qed.
End Notes.

(** C5, as the code has it. On every read (list-all and get-one, for the
    four kinds of record that have notes) a row whose notes are NULL is
    returned without notes (undefined), and a row whose notes are a
    string, the empty string included, is returned with that string. *)
Theorem notes_read_as_stored {rt : Runtime} {en : Engine} :
  reads_notes_as_stored incomes getAllIncomes getIncome IncomeRow.notes Income.notes /\
  reads_notes_as_stored expenses getAllExpenses getExpense ExpenseRow.notes Expense.notes /\
  reads_notes_as_stored assets getAllAssets getAsset AssetRow.notes Asset.notes /\
  reads_notes_as_stored liabilities getAllLiabilities getLiability
                        LiabilityRow.notes Liability.notes.
Proof.
  split_and!.
  - apply (reads_notes_as_stored_table incomes getAllIncomes getIncome mapIncome);
      try done. apply getIncome_head.
  - apply (reads_notes_as_stored_table expenses getAllExpenses getExpense mapExpense);
      try done. apply getExpense_head.
  - apply (reads_notes_as_stored_table assets getAllAssets getAsset mapAsset);
      try done. apply getAsset_head.
  - apply (reads_notes_as_stored_table liabilities getAllLiabilities getLiability
             mapLiability); try done. apply getLiability_head.
Qed.

(** Alice's income [id_i1] is stored with the empty string as notes, her
    asset [id_a1] with NULL: the two are read back differently. *)
Lemma notes_read_as_stored_witness :
  let rt := test_runtime in
  let en := test_engine in
  (exists x, getIncome id_i1 1 sample_db = Ok (Some x) /\ Income.notes x = Some "") /\
  (exists x, getAsset id_a1 1 sample_db = Ok (Some x) /\ Asset.notes x = None).
Proof.
  intros rt en.
  destruct (notes_read_as_stored (rt := test_runtime) (en := test_engine))
    as ((_ & Hi) & _ & (_ & Ha) & _).
  split.
  - destruct (getIncome id_i1 1 sample_db) as [[x|]|] eqn:Hg; try by vm_compute in Hg.
    exists x. split; [done|].
    destruct (Hi _ _ _ _ Hg) as (r & uuid & _ & Hr & _ & Hn).
    apply list_elem_of_singleton in Hr as ->. exact Hn.
  - destruct (getAsset id_a1 1 sample_db) as [[x|]|] eqn:Hg; try by vm_compute in Hg.
    exists x. split; [done|].
    destruct (Ha _ _ _ _ Hg) as (r & uuid & _ & Hr & _ & Hn).
    apply list_elem_of_singleton in Hr as ->. exact Hn.
Defined.

(** C5 as stated fails: an income created with the empty string as notes
    is stored with it and returned, by get-one and by list-all, with the
    empty string, not without notes. *)
Lemma empty_notes_are_returned :
  let rt := test_runtime in
  let en := test_engine in
  createIncome id_i3 30 memo sample_db = Ok (mapIncome memo_row, db_with_memo) /\
  IncomeRow.notes <$> last (incomes db_with_memo) = Some (NotNull "") /\
  getIncome id_i3 1 db_with_memo = Ok (Some (mapIncome memo_row)) /\
  Income.notes (mapIncome memo_row) = Some "" /\
  Income.notes <$> getAllIncomes 1 db_with_memo = [Some ""; Some ""] /\
  Some "" <> (None : option string).
Proof.
  intros rt en.
  split_and!;
    [by vm_compute | by vm_compute | by vm_compute | by vm_compute | by vm_compute | done].
Qed.

(** ** C10: an update without notes clears the notes *)

Section UpdateFacts.
Context {R : Type} `{Owned R}.

Lemma update_where_inv (us : list UserRow.t) (p : R -> Prop) `{!forall r, Decision (p r)}
    (owner : option Z) (f : R -> R) (t rs t' : list R) :
  update_where us p owner f t = Ok (rs, t') ->
  t' = (fun r => if decide (p r) then f r else r) <$> t.
Proof.
  unfold update_where. intros Hu.
  destruct owner; [case_bool_decide|]; by simplify_eq.
Qed.

End UpdateFacts.

Section UpdateSucceeds.
Context {en : Engine} {R : Type} `{Owned R}.

End UpdateSucceeds.



(** ** C3: deleting a goal of another user *)

Section DeleteFacts.
Context {R : Type} `{Owned R}.

Lemma delete_none (p : R -> Prop) `{!forall r, Decision (p r)} (t : list R) :
  (forall r, r ∈ t -> ~ p r) -> delete_where p t = t.
Proof.
  intros Hno. unfold delete_where.
  induction t as [|r t IH]; [done|].
  rewrite filter_cons_True.
  - f_equal. apply IH. intros r' Hr'. apply Hno. by right.
  - apply Hno. by left.
Qed.

Lemma delete_other_owner (t : list R) (r : R) (userId : Z) :
  NoDup (row_id <$> t) -> r ∈ t -> userId <> row_userId r ->
  delete_where (is_record (row_id r) userId) t = t.
Proof.
  intros Hnd Hr Hne. apply delete_none. intros r' Hr' [Hid Hu].
  assert (r' = r) as -> by by eapply key_determines_row.
  by destruct Hne.
Qed.

Lemma delete_unknown_id (t : list R) (id : string) (userId : Z) :
  id ∉ row_id <$> t -> delete_where (is_record id userId) t = t.
Proof.
  intros Hid. apply delete_none. intros r Hr [Heq _].
  apply Hid. rewrite <- Heq. by apply list_elem_of_fmap_2.
Qed.
End DeleteFacts.

Lemma set_goals_same (db : Database) : set_goals db (goals db) = db.
Proof. by destruct db. Qed.

(** C3, as the code has it. DELETE /goals/:id with the uuid of a goal
    that belongs to another user answers 204 with no body, which is also
    the answer for a uuid that no goal has; in both cases the database,
    and so the other user's goal, is left as it was. An id that is no
    uuid is answered 500, with the database as it was. *)
Theorem delete_goal_of_other_user (db : Database) (g : GoalRow.t) (userId' : Z)
    (id absent uuid : string) :
  NoDup (row_id <$> goals db) -> g ∈ goals db -> userId' <> GoalRow.userId g ->
  uuid_in id = Some (GoalRow.id g) ->
  uuid_in absent = Some uuid -> uuid ∉ row_id <$> goals db ->
  delete_goals_id id userId' db = ({| status := 204; body := JEmpty |}, db) /\
  delete_goals_id absent userId' db = delete_goals_id id userId' db /\
  forall text, uuid_in text = None ->
               delete_goals_id text userId' db = (error_json 500 "Failed to delete goal", db).
Proof.
  intros Hnd Hg Hne Hid Habsent Hnew. unfold delete_goals_id, deleteGoal.
  rewrite Hid, Habsent.
  change (GoalRow.id g) with (row_id g).
  rewrite (delete_other_owner (goals db) g userId' Hnd Hg Hne).
  rewrite (delete_unknown_id (goals db) uuid userId' Hnew).
  rewrite set_goals_same. split_and!; try done.
  by intros text ->.
Qed.

(** Bob (user 2) deletes Alice's goal [id_g1], then a uuid nobody has,
    then the text "no-such-id". *)
Lemma delete_goal_of_other_user_witness :
  delete_goals_id id_g1 2 sample_db = ({| status := 204; body := JEmpty |}, sample_db) /\
  delete_goals_id id_none 2 sample_db = delete_goals_id id_g1 2 sample_db /\
  delete_goals_id "no-such-id" 2 sample_db
  = (error_json 500 "Failed to delete goal", sample_db).
Proof.
  destruct (delete_goal_of_other_user sample_db holiday 2 id_g1 id_none id_none)
    as (Hg & Hnone & Htext).
  - apply NoDup_singleton.
  - by left.
  - done.
  - by vm_compute.
  - by vm_compute.
  - vm_compute. by intros ?%list_elem_of_singleton.
  - split_and!; [done|done|]. apply Htext. by vm_compute.
Defined.

(** C3 as stated fails: Bob's DELETE of Alice's goal [id_g1] is answered
    204, not 404; and the answer for an id that no goal has is not always
    the same, it is 500 for the text "no-such-id". *)
Lemma delete_goal_of_other_user_is_not_404 :
  status (delete_goals_id id_g1 2 sample_db).1 = 204 /\
  status (delete_goals_id id_g1 2 sample_db).1 <> 404 /\
  ("no-such-id" ∉ row_id <$> goals sample_db) /\
  status (delete_goals_id "no-such-id" 2 sample_db).1 = 500.
Proof.
  split_and!; try by vm_compute.
  vm_compute. by intros ?%list_elem_of_singleton.
Qed.

(** ** C7: validation comes before any write *)

Lemma incomeSchema_parse_throws userId data e :
  incomeSchema_parse userId data = Throw e -> exists issues, e = ZodError issues.
Proof. unfold incomeSchema_parse. intros Hp. repeat case_match; simplify_eq; eauto. Qed.

Lemma expenseSchema_parse_throws userId data e :
  expenseSchema_parse userId data = Throw e -> exists issues, e = ZodError issues.
Proof. unfold expenseSchema_parse. intros Hp. repeat case_match; simplify_eq; eauto. Qed.

Lemma assetSchema_parse_throws userId data e :
  assetSchema_parse userId data = Throw e -> exists issues, e = ZodError issues.
Proof. unfold assetSchema_parse. intros Hp. repeat case_match; simplify_eq; eauto. Qed.

Lemma liabilitySchema_parse_throws userId data e :
  liabilitySchema_parse userId data = Throw e -> exists issues, e = ZodError issues.
Proof. unfold liabilitySchema_parse. intros Hp. repeat case_match; simplify_eq; eauto. Qed.

Lemma goalSchema_parse_throws userId data e :
  goalSchema_parse userId data = Throw e -> exists issues, e = ZodError issues.
Proof. unfold goalSchema_parse. intros Hp. repeat case_match; simplify_eq; eauto. Qed.

(** C7. On each of the five create routes the body, with the fields the
    handler sets or converts, is parsed against the schema of the entity
    before the storage is called: when the parse throws, what it throws is
    a ZodError, the answer is HTTP 400 with the issues of that error, and
    the database is as it was, whatever uuid and clock reading the storage
    would have drawn. (The liabilities route first answers 401 to a user
    id of 0, which no stored user has.) *)
Theorem create_validates_before_writing {rt : Runtime} {en : Engine} (userId : Z) (body : object)
    (id : string) (now : Z) (db : Database) (e : exn) :
  (incomeSchema_parse userId body = Throw e ->
   exists issues, e = ZodError issues /\
     post_incomes userId body id now db = (validation_error issues, db)) /\
  (expenseSchema_parse userId
     (delete "notes" (<["date" := VDate (new_Date (body !! "date"))]> body)) = Throw e ->
   exists issues, e = ZodError issues /\
     post_expenses userId body id now db = (validation_error issues, db)) /\
  (assetSchema_parse userId body = Throw e ->
   exists issues, e = ZodError issues /\
     post_assets userId body id now db = (validation_error issues, db)) /\
  (userId <> 0 ->
   liabilitySchema_parse userId
     (<["interestRate" := VNumber (Number (body !! "interestRate"))]>
        (<["amount" := VNumber (Number (body !! "amount"))]> body)) = Throw e ->
   exists issues, e = ZodError issues /\
     post_liabilities userId body id now db = (validation_error issues, db)) /\
  (goalSchema_parse userId
     (<["currentAmount" := VNumber (Number (body !! "currentAmount"))]>
        (<["targetAmount" := VNumber (Number (body !! "targetAmount"))]>
           (<["targetDate" := VDate (new_Date (body !! "targetDate"))]> body))) = Throw e ->
   exists issues, e = ZodError issues /\
     post_goals userId body id now db = (validation_error issues, db)).
Proof.
  split_and!.
  - intros Hp. destruct (incomeSchema_parse_throws _ _ _ Hp) as [issues ->].
    exists issues. split; [done|]. unfold post_incomes. by rewrite Hp.
  - intros Hp. destruct (expenseSchema_parse_throws _ _ _ Hp) as [issues ->].
    exists issues. split; [done|]. unfold post_expenses. by rewrite Hp.
  - intros Hp. destruct (assetSchema_parse_throws _ _ _ Hp) as [issues ->].
    exists issues. split; [done|]. unfold post_assets. by rewrite Hp.
  - intros Hu Hp. destruct (liabilitySchema_parse_throws _ _ _ Hp) as [issues ->].
    exists issues. split; [done|]. unfold post_liabilities.
    destruct (Z.eqb_spec userId 0) as [->|_]; [done|]. by rewrite Hp.
  - intros Hp. destruct (goalSchema_parse_throws _ _ _ Hp) as [issues ->].
    exists issues. split; [done|]. unfold post_goals. by rewrite Hp.
Qed.

(** Alice posts the income of the scenario with its amount as the string
    "5000": 400 with one issue on [amount], and no income is added. *)
Lemma create_validates_before_writing_witness :
  let rt := test_runtime in
  let en := test_engine in
  incomeSchema_parse 1 salary_body = Throw (ZodError [amount_issue]) /\
  post_incomes 1 salary_body id_i9 50 sample_db = (validation_error [amount_issue], sample_db).
Proof.
  intros rt en.
  assert (incomeSchema_parse 1 salary_body = Throw (ZodError [amount_issue])) as Hp
    by by vm_compute.
  split; [exact Hp|].
  destruct (create_validates_before_writing (rt := test_runtime) (en := test_engine) 1 salary_body id_i9 50
              sample_db (ZodError [amount_issue])) as (Hi & _).
  destruct (Hi Hp) as (issues & Heq & Hpost). by simplify_eq.
Defined.

(** ** C2: what a failed login tells *)

(** C2, on the code. The login route on its two failures: for a username
    no user has, the answer is 401 with the message "User not found"; for
    the username of a user and a password that does not verify, it is 401
    with the message "Invalid password". The two answers differ, so the
    answer tells whether the username exists, which the claim excludes;
    the database is as it was. *)
Theorem login_failures_differ {rt : Runtime} (now : Z) (db : Database)
    (unknown known password password' hash : string) (user : UserRow.t) :
  truthy (Some unknown) = true -> truthy (Some known) = true ->
  truthy (Some password) = true -> truthy (Some password') = true ->
  getUserByUsername unknown db = None ->
  getUserByUsername known db = Some user ->
  UserRow.password user = NotNull hash ->
  bcrypt_compare password' hash = false ->
  post_auth_login (Some unknown) (Some password) now db
    = (error_json 401 "User not found", db) /\
  post_auth_login (Some known) (Some password') now db
    = (error_json 401 "Invalid password", db) /\
  post_auth_login (Some unknown) (Some password) now db
    <> post_auth_login (Some known) (Some password') now db.
Proof.
  intros Hu Hk Hp Hp' Hnone Hsome Hhash Hcmp.
  assert (post_auth_login (Some unknown) (Some password) now db
          = (error_json 401 "User not found", db)) as H1.
  { unfold post_auth_login. rewrite Hu, Hp. simpl. unfold login.
    unfold getUserByUsername in Hnone. by rewrite Hnone. }
  assert (post_auth_login (Some known) (Some password') now db
          = (error_json 401 "Invalid password", db)) as H2.
  { unfold post_auth_login. rewrite Hk, Hp'. simpl. unfold login.
    unfold getUserByUsername in Hsome. rewrite Hsome.
    unfold comparePasswords. by rewrite Hhash, Hcmp. }
  split_and!; [done | done |]. rewrite H1, H2. intros Heq. by inversion Heq.
Qed.

(** No user is called "carol"; "alice" is one, and "wrong" is not her
    password. *)
Lemma login_failures_differ_witness :
  let rt := test_runtime in
  post_auth_login (Some "carol") (Some "wrong") 100 sample_db
    = (error_json 401 "User not found", sample_db) /\
  post_auth_login (Some "alice") (Some "wrong") 100 sample_db
    = (error_json 401 "Invalid password", sample_db) /\
  post_auth_login (Some "carol") (Some "wrong") 100 sample_db
    <> post_auth_login (Some "alice") (Some "wrong") 100 sample_db.
Proof.
  intros rt.
  by apply (login_failures_differ (rt := test_runtime) 100 sample_db
              "carol" "alice" "wrong" "wrong" "pw123456" alice).
Defined.

(** ** Strings *)

Lemma append_cons (x : ascii) (a b : string) : String x a +:+ b = String x (a +:+ b).
Proof. reflexivity. Qed.

Lemma append_nil (b : string) : "" +:+ b = b.
Proof. reflexivity. Qed.

Lemma append_assoc (a b c : string) : (a +:+ b) +:+ c = a +:+ (b +:+ c).
Proof.
  induction a as [|x a IH]; [done|].
  by rewrite !append_cons, IH.
Qed.

Lemma prefix_append (sub b : string) : String.prefix sub (sub +:+ b) = true.
Proof.
  induction sub as [|x sub IH]; [by rewrite append_nil; destruct b|].
  rewrite append_cons. simpl.
  destruct (ascii_dec x x); [done|congruence].
Qed.

Lemma includes_prefix (s sub : string) : String.prefix sub s = true -> includes s sub = true.
Proof. intros Hp. destruct s; cbn [includes]; by rewrite Hp. Qed.

Lemma includes_append (a sub b : string) : includes (a +:+ sub +:+ b) sub = true.
Proof.
  induction a as [|x a IH].
  - rewrite append_nil. apply includes_prefix, prefix_append.
  - rewrite append_cons. cbn [includes]. rewrite IH. apply orb_true_r.
Qed.

Lemma toLowerCase_append (a b : string) :
  toLowerCase (a +:+ b) = toLowerCase a +:+ toLowerCase b.
Proof.
  induction a as [|x a IH]; [done|].
  rewrite append_cons. simpl. by rewrite IH, append_cons.
Qed.

(** ** C4: the dispatch of the advice generator *)

(** C4. With [q] the lower-cased query, the advice is that of the first
    of these that applies: the expense-reduction template when [q]
    contains "reduce" and one of "expense", "spending"; the asset-growth
    template when it contains "increase" and "asset"; the debt-reduction
    template when it contains one of "reduce", "pay off" and "liability";
    the goal-achievement template when it contains "goal" or "reach";
    the general overview otherwise. In particular a query in which
    "reduce" and "expense" occur, in either order and among any other
    text, gets the expense-reduction template. *)
Theorem advice_dispatch_order {rt : Runtime} (today : Z) (request : AIAssistantRequest) :
  let q := toLowerCase (query request) in
  let d := userData request in
  let s := UserData.summary d in
  let expense_reduction :=
    includes q "reduce" && (includes q "expense" || includes q "spending") in
  let asset_growth := includes q "increase" && includes q "asset" in
  let debt_reduction :=
    (includes q "reduce" || includes q "pay off") && includes q "liability" in
  let goal_achievement := includes q "goal" || includes q "reach" in
  let expense_advice :=
    generateExpenseReductionAdvice (UserData.expenses d) (Summary.totalExpenses s)
      (Summary.largestExpenseCategory s) (Summary.largestExpenseAmount s) in
  (expense_reduction = true -> generateFinancialAdvice today request = expense_advice) /\
  (expense_reduction = false -> asset_growth = true ->
   generateFinancialAdvice today request
   = generateAssetIncreaseAdvice (UserData.assets d) (Summary.netWorth s)
       (Summary.passiveIncome s)) /\
  (expense_reduction = false -> asset_growth = false -> debt_reduction = true ->
   generateFinancialAdvice today request
   = generateLiabilityReductionAdvice (UserData.liabilities d) (Summary.cashFlow s)) /\
  (expense_reduction = false -> asset_growth = false -> debt_reduction = false ->
   goal_achievement = true ->
   generateFinancialAdvice today request
   = generateGoalAchievementAdvice today (UserData.goals d) (Summary.cashFlow s)
       (Summary.netWorth s)) /\
  (expense_reduction = false -> asset_growth = false -> debt_reduction = false ->
   goal_achievement = false ->
   generateFinancialAdvice today request
   = generateGeneralFinancialAdvice (UserData.incomes d) (UserData.expenses d)
       (UserData.assets d) (UserData.liabilities d) (UserData.goals d)
       (Summary.cashFlow s) (Summary.passiveIncome s) (Summary.netWorth s)) /\
  (forall a b c : string,
     query request = a +:+ "reduce" +:+ b +:+ "expense" +:+ c \/
     query request = a +:+ "expense" +:+ b +:+ "reduce" +:+ c ->
     generateFinancialAdvice today request = expense_advice).
Proof.
  intros q d s expense_reduction asset_growth debt_reduction goal_achievement
    expense_advice.
  assert (expense_reduction = true ->
          generateFinancialAdvice today request = expense_advice) as Hfirst.
  { intros H1. unfold generateFinancialAdvice. fold q. fold expense_reduction.
    by rewrite H1. }
  split_and!; [done|..].
  - intros H1 H2. unfold generateFinancialAdvice. fold q.
    fold expense_reduction asset_growth. by rewrite H1, H2.
  - intros H1 H2 H3. unfold generateFinancialAdvice. fold q.
    fold expense_reduction asset_growth debt_reduction. by rewrite H1, H2, H3.
  - intros H1 H2 H3 H4. unfold generateFinancialAdvice. fold q.
    fold expense_reduction asset_growth debt_reduction goal_achievement.
    by rewrite H1, H2, H3, H4.
  - intros H1 H2 H3 H4. unfold generateFinancialAdvice. fold q.
    fold expense_reduction asset_growth debt_reduction goal_achievement.
    by rewrite H1, H2, H3, H4.
  - intros a b c Hq. apply Hfirst. unfold expense_reduction, q.
    destruct Hq as [-> | ->]; rewrite !toLowerCase_append; simpl toLowerCase.
    + rewrite (includes_append _ "reduce").
      rewrite <- (append_assoc (toLowerCase a) "reduce"), <- append_assoc.
      by rewrite (includes_append _ "expense").
    + rewrite (includes_append _ "expense").
      rewrite <- (append_assoc (toLowerCase a) "expense"), <- append_assoc.
      by rewrite (includes_append _ "reduce").
Qed.

(** The question names expenses and goals: the expense-reduction
    template wins. *)
Lemma advice_dispatch_order_witness :
  let rt := test_runtime in
  generateFinancialAdvice 0 mixed_request
  = generateExpenseReductionAdvice [] 0%float "Food" 0%float.
Proof.
  intros rt.
  destruct (advice_dispatch_order (rt := test_runtime) 0 mixed_request) as (H1 & _).
  apply H1. by vm_compute.
Defined.

(** ** C9: the expense-reduction template on a zero total *)

Section FloatFacts.
Local Open Scope float_scope.

Lemma is_zero_spec (x : float) :
  is_zero x = true <-> exists s, Prim2SF x = S754_zero s.
Proof.
  unfold is_zero. rewrite FloatAxioms.eqb_spec.
  change (Prim2SF PrimFloat.zero) with (S754_zero false).
  destruct (Prim2SF x) as [s| s | |s m e]; simpl; split;
    try done; try (by intros [? ?]); try eauto.
  - by destruct s.
  - by destruct s.
Qed.

Lemma SFcompare_refl (f : spec_float) : f <> S754_nan -> SFcompare f f = Some Eq.
Proof.
  destruct f as [s| s | |s m e]; intros Hn; try done; simpl.
  - by destruct s.
  - destruct s; by rewrite Z.compare_refl, Pos.compare_cont_refl.
Qed.

Lemma is_nan_spec (x : float) : is_nan x = true <-> Prim2SF x = S754_nan.
Proof.
  unfold is_nan. rewrite FloatAxioms.eqb_spec. unfold SFeqb.
  destruct (Prim2SF x) as [s| s | |s m e] eqn:E;
    try (rewrite SFcompare_refl by done); simpl; split; done.
Qed.

Lemma is_nan_false (x : float) : is_nan x = false <-> Prim2SF x <> S754_nan.
Proof. rewrite <- is_nan_spec. by destruct (is_nan x). Qed.

(** [x / 0 * 100]: NaN for a zero or a NaN, an infinity otherwise. *)
Lemma percentage_of_zero (x tot : float) (st : bool) :
  Prim2SF tot = S754_zero st ->
  Prim2SF (x / tot * 100) =
    match Prim2SF x with
    | S754_nan | S754_zero _ => S754_nan
    | S754_infinity s | S754_finite s _ _ => S754_infinity (xorb (xorb s st) false)
    end.
Proof.
  intros Ht. rewrite mul_spec, div_spec, Ht.
  remember (Prim2SF 100) as h eqn:Hh. vm_compute in Hh. subst h.
  by destruct (Prim2SF x).
Qed.
End FloatFacts.

Lemma toFixed_not_finite {rt : Runtime} (p : number) (f : nat) :
  Prim2SF p = S754_nan \/ (exists s, Prim2SF p = S754_infinity s) ->
  toFixed p f = not_finite_text p.
Proof.
  unfold toFixed, not_finite_text. intros [Hp | [s Hp]]; rewrite Hp.
  - by rewrite (proj2 (is_nan_spec p) Hp).
  - rewrite (proj2 (is_nan_false p)) by (by rewrite Hp).
    rewrite ltb_spec, Hp.
    change (Prim2SF 0) with (S754_zero false). by destruct s.
Qed.

(** C9, as the code has it. The expense-reduction template divides the
    largest expense amount by the total with no guard. When the total is
    zero the percentage is never a finite number: it is NaN when the
    amount is zero or NaN, and an infinity otherwise; [toFixed] prints it
    as "NaN", "Infinity" or "-Infinity", and that text is part of the
    advice returned. *)
Theorem expense_advice_on_zero_total {rt : Runtime} (expenses : list Expense.t)
    (category : string) (amount total : number) :
  is_zero total = true ->
  let p := (amount / total * 100)%float in
  (is_nan p = true \/ is_infinity p = true) /\
  (is_nan p = true <-> is_zero amount = true \/ is_nan amount = true) /\
  toFixed p 1 = not_finite_text p /\
  exists rest,
    generateExpenseReductionAdvice expenses total category amount
    = "Based on your expense data, here are some recommendations to reduce your spending:"
      +:+ nl +:+ nl +:+ "1. Your largest expense category is " +:+ category
      +:+ " (" +:+ not_finite_text p +:+ "% of total expenses). " +:+ rest.
Proof.
  intros [st Ht]%is_zero_spec p.
  pose proof (percentage_of_zero amount total st Ht) as Hp. fold p in Hp.
  assert (Prim2SF p = S754_nan \/ (exists s, Prim2SF p = S754_infinity s)) as Hnf.
  { rewrite Hp. destruct (Prim2SF amount); eauto. }
  split_and!.
  - destruct Hnf as [Hn | [s Hi]]; [left; by apply is_nan_spec|right].
    unfold is_infinity. rewrite FloatAxioms.eqb_spec, abs_spec, Hi.
    by vm_compute.
  - rewrite !is_nan_spec, is_zero_spec, Hp.
    destruct (Prim2SF amount) as [s| s | |s m e]; split; try done; eauto.
    + by intros [[? ?] | ?].
    + by intros [[? ?] | ?].
  - by apply toFixed_not_finite.
  - unfold generateExpenseReductionAdvice. fold p.
    rewrite (toFixed_not_finite p 1 Hnf).
    repeat case_match; eexists; rewrite !append_assoc; reflexivity.
Qed.

(** No expenses at all: total 0 and largest amount 0. The advice reads
    "NaN% of total expenses". *)
Lemma expense_advice_on_zero_total_witness :
  let rt := test_runtime in
  is_nan (0 / 0 * 100)%float = true /\
  toFixed (0 / 0 * 100)%float 1 = "NaN" /\
  includes (generateExpenseReductionAdvice [] 0%float "Food" 0%float)
           "Food (NaN% of total expenses)" = true.
Proof.
  intros rt. subst rt.
  destruct (expense_advice_on_zero_total (rt := test_runtime) [] "Food" 0%float 0%float
              eq_refl) as (_ & Hnan & Htext & rest & Hadvice).
  split_and!.
  - apply Hnan. by left.
  - exact Htext.
  - rewrite Hadvice. by vm_compute.
Defined.

(** C9 as stated fails: with a total of 0 and a largest amount of 5 the
    percentage is not NaN but Infinity, and the advice reads "Infinity%
    of total expenses". *)
Lemma zero_total_percentage_can_be_infinite :
  is_zero 0%float = true /\
  is_nan (5 / 0 * 100)%float = false /\
  (5 / 0 * 100 =? infinity)%float = true /\
  includes (generateExpenseReductionAdvice (rt := test_runtime) [] 0%float "Food" 5%float)
           "Food (Infinity% of total expenses)" = true /\
  includes (generateExpenseReductionAdvice (rt := test_runtime) [] 0%float "Food" 5%float)
           "NaN" = false.
Proof. split_and!; by vm_compute. Qed.

(** ** C8: the bulk routes *)

Section BulkFacts.
Context {E : Type}.
Variable step : E -> Database -> result Database.

Lemma synced_total (l : list E) (db : Database) : exists ok db', synced step db l ok db'.
Proof.
  revert db. induction l as [|e l IH]; intros db.
  - exists true, db. constructor.
  - destruct (step e db) as [db1|x] eqn:Hs.
    + destruct (IH db1) as (ok & db2 & Hl). exists ok, db2. by eapply synced_ok.
    + destruct (IH db) as (ok & db2 & Hl). exists false, db2. by eapply synced_throw.
Qed.

Lemma Promise_all_from (l : list E) (acc : option exn) (db : Database) ok db' :
  synced step db l ok db' ->
  exists err,
    foldl (fun acc e =>
             match step e (acc.2) with
             | Ok db' => (acc.1, db')
             | Throw x => (match acc.1 with None => Some x | Some y => Some y end, acc.2)
             end) (acc, db) l = (err, db') /\
    (err = None <-> acc = None /\ ok = true).
Proof.
  intros Hs. revert acc. induction Hs as [db|db e db1 l ok db2 He Hl IH|db e x l ok db2 He Hl IH];
    intros acc.
  - exists acc. split; [done|]. split; [by intros ->|by intros [-> _]].
  - simpl. rewrite He. apply IH.
  - simpl. rewrite He.
    destruct (IH (match acc with None => Some x | Some y => Some y end)) as (err & Hf & Hiff).
    exists err. split; [done|]. split.
    + intros Herr. apply Hiff in Herr as [Hacc _]. by destruct acc.
    + by intros [_ ?].
Qed.

Lemma Promise_all_synced (l : list E) (db : Database) ok db' :
  synced step db l ok db' ->
  exists err, Promise_all step l db = (err, db') /\ (err = None <-> ok = true).
Proof.
  intros Hs. destruct (Promise_all_from l None db ok db' Hs) as (err & Hf & Hiff).
  exists err. split; [done|]. rewrite Hiff. split; [by intros [_ ?]|done].
Qed.
End BulkFacts.

Section BulkRoute.
Context {E A : Type}.
Variable id_of : E -> option string.
Variable step : E * string * Z -> Database -> result Database.
Variable update : E -> string -> Database -> result Database.
Variable create : E -> string -> Z -> Database -> result Database.
Variable put : list (E * string * Z) -> Database -> Response (list A) * Database.
Variable getAll : Database -> list A.
Variable failed : string.

Hypothesis step_dispatch : forall e uuid now db,
  step (e, uuid, now) db =
  match id_of e with
  | Some id => if truthy (Some id) then update e id db else create e uuid now db
  | None => create e uuid now db
  end.
Hypothesis put_all : forall body db,
  put body db =
  match Promise_all step body db with
  | (None, db') => (json (getAll db'), db')
  | (Some _, db') => (error_json 500 failed, db')
  end.
Hypothesis update_refuses : forall e id db,
  uuid_in id = None -> exists x, update e id db = Throw x.

Lemma upsert_by_id_route : upsert_by_id id_of step update create put getAll failed.
Proof using All.
  split_and!.
  - intros e uuid now db id Hid Hne. rewrite step_dispatch, Hid. simpl.
    by rewrite (proj2 (String.eqb_neq id "") Hne).
  - intros e uuid now db id Hid Hne Hno. rewrite step_dispatch, Hid. simpl.
    rewrite (proj2 (String.eqb_neq id "") Hne). by apply update_refuses.
  - intros e uuid now db [Hid | Hid]; rewrite step_dispatch, Hid; done.
  - intros body db. apply synced_total.
  - intros body db ok db' Hs. rewrite put_all.
    destruct (Promise_all_synced step body db ok db' Hs) as (err & -> & Hiff).
    destruct err as [x|].
    + destruct ok; [|done]. by pose proof (proj2 Hiff eq_refl).
    + by rewrite (proj1 Hiff eq_refl).
Qed.
End BulkRoute.

(** C8, as the code has it. On each of the five bulk routes, for every
    array: an element with a non-empty id is applied as an update of the
    record of that id and of the caller, with the element's properties,
    and the update throws when the id is no uuid; an element with no id
    (or an empty one) is created as a new record of the caller; the
    writes always run to an outcome, whatever the order; when no write
    throws, the answer is 200 with the caller's list read after all
    writes, in the order the engine returns it, and when a write throws
    it is 500 (the writes that did not throw stay). The liabilities route
    takes a single element as the array of that element. *)
Theorem bulk_sync_is_upsert_by_id {rt : Runtime} {en : Engine} (userId : Z) :
  upsert_by_id IncomeElem.id (sync_income userId)
    (fun e id => updateIncome id (income_fields e None) userId)
    (fun e uuid now db => created (createIncome uuid now (income_fields e (Some userId)) db))
    (put_incomes userId) (getAllIncomes userId) "Failed to sync incomes" /\
  upsert_by_id ExpenseElem.id (sync_expense userId)
    (fun e id => updateExpense id (expense_fields e None) userId)
    (fun e uuid now db => created (createExpense uuid now (expense_fields e (Some userId)) db))
    (put_expenses userId) (getAllExpenses userId) "Failed to sync expenses" /\
  upsert_by_id AssetElem.id (sync_asset userId)
    (fun e id => updateAsset id (asset_fields e None) userId)
    (fun e uuid now db => created (createAsset uuid now (asset_fields e (Some userId)) db))
    (put_assets userId) (getAllAssets userId) "Failed to sync assets" /\
  upsert_by_id LiabilityElem.id (sync_liability userId)
    (fun e id => updateLiability id (liability_fields e None) userId)
    (fun e uuid now db =>
       created (createLiability uuid now (liability_fields e (Some userId)) db))
    (fun body => put_liabilities userId (inr body)) (getAllLiabilities userId)
    "Failed to sync liabilities" /\
  (forall one db, put_liabilities userId (inl one) db = put_liabilities userId (inr [one]) db) /\
  upsert_by_id GoalElem.id (sync_goal userId)
    (fun e id => updateGoal id (goal_fields e None) userId)
    (fun e uuid now db => created (createGoal uuid now (goal_fields e (Some userId)) db))
    (put_goals userId) (getAllGoals userId) "Failed to sync goals".
Proof.
  split_and!; try (apply upsert_by_id_route; [by intros [] ? ? ?|done|]); try done.
  - intros e id db Hid. unfold updateIncome. rewrite Hid. by eexists.
  - intros e id db Hid. unfold updateExpense. rewrite Hid. repeat case_match; by eexists.
  - intros e id db Hid. unfold updateAsset. rewrite Hid. by eexists.
  - intros e id db Hid. unfold updateLiability. rewrite Hid. by eexists.
  - intros e id db Hid. unfold updateGoal. rewrite Hid. repeat case_match; by eexists.
Qed.

(** The bulk scenario, with uuids as ids: [id_e1] is updated (and loses
    its notes), [id_e2] is created, and the answer is Alice's two
    expenses, in the order the engine returns them. With the literal id
    "e1" of the scenario, which is no uuid, the update throws. *)
Lemma bulk_sync_is_upsert_by_id_witness :
  let rt := test_runtime in
  let en := test_engine in
  (exists l db',
     put_expenses 1 scenario_body sample_db = (json l, db') /\
     l ≡ₚ mapExpense <$> [groceries_synced; movie_row] /\
     expenses db' ≡ₚ [groceries_synced; movie_row]) /\
  (exists x, sync_expense 1 (food_update_e1, id_e9, 70) sample_db = Throw x).
Proof.
  intros rt en. subst rt en.
  destruct (bulk_sync_is_upsert_by_id (rt := test_runtime) (en := test_engine) 1)
    as (_ & (_ & Hno & _ & _ & Hput) & _).
  split.
  - eexists _, _. split; [|split].
    + apply (Hput scenario_body sample_db true
               (set_expenses sample_db [groceries_synced; movie_row])).
      apply (synced_ok _ _ _ (set_expenses sample_db [groceries_synced])); [by vm_compute|].
      apply (synced_ok _ _ _ (set_expenses sample_db [groceries_synced; movie_row]));
        [by vm_compute|].
      apply synced_nil.
    + unfold getAllExpenses. by rewrite select_perm.
    + done.
  - by apply (Hno food_update_e1 id_e9 70 sample_db "e1").
Defined.

(** C8 as stated fails: an array whose one element has no id and no
    amount is answered 500, not the list, and nothing is written; an
    element whose id is the empty string is created, not applied as an
    update; and the array of the scenario, whose first element has the id
    "e1", is answered 500, with the second element created. *)
Lemma bulk_sync_can_answer_500 :
  let rt := test_runtime in
  let en := test_engine in
  put_expenses 1 [(movie_without_amount, id_e2, 71)] sample_db
  = (error_json 500 "Failed to sync expenses", sample_db) /\
  (exists l,
     put_expenses 1 [(movie_with_empty_id, id_e2, 71)] sample_db
     = (json l, set_expenses sample_db [groceries; movie_row]) /\
     l ≡ₚ mapExpense <$> [groceries; movie_row]) /\
  put_expenses 1 [(food_update_e1, id_e9, 70); (movie, id_e2, 71)] sample_db
  = (error_json 500 "Failed to sync expenses", set_expenses sample_db [groceries; movie_row]).
Proof.
  intros rt en. split_and!; [by vm_compute| |by vm_compute].
  exists (mapExpense <$> [movie_row; groceries]). split; [by vm_compute|].
  apply fmap_Permutation, perm_swap.
Qed.

(** * Further properties of the storage *)

(** ** What the updates do *)

Section UpdateMap.
Context {R : Type} `{Owned R}.

Lemma updated_id id userId f r :
  (forall r, row_id (f r) = row_id r) -> row_id (updated id userId f r) = row_id r.
Proof. intros Hf. unfold updated. by case_decide. Qed.

Lemma updated_userId id userId f r :
  (forall r, row_userId (f r) = row_userId r) ->
  row_userId (updated id userId f r) = row_userId r.
Proof. intros Hf. unfold updated. by case_decide. Qed.

Lemma updated_other_user id userId f r userId' :
  userId' <> userId -> row_userId r = userId' -> updated id userId f r = r.
Proof.
  intros Hne Hu. unfold updated. case_decide as Hm; [|done].
  destruct Hm as [_ Hm]. congruence.
Qed.

Lemma updated_keys id userId f (t : list R) :
  (forall r, row_id (f r) = row_id r) ->
  row_id <$> (updated id userId f <$> t) = row_id <$> t.
Proof.
  intros Hf. rewrite <- list_fmap_compose. apply list_fmap_ext.
  intros i r _. simpl. by apply updated_id.
Qed.

Lemma filter_fmap_same (p : R -> Prop) `{!forall r, Decision (p r)} (g : R -> R)
    (t : list R) :
  (forall r, p (g r) <-> p r) -> filter p (g <$> t) = g <$> filter p t.
Proof.
  intros Hp. induction t as [|r t IH]; [done|].
  rewrite fmap_cons. destruct (decide (p r)) as [Hr|Hr].
  - rewrite (filter_cons_True p (g r)) by by apply Hp.
    rewrite (filter_cons_True p r) by done. by rewrite fmap_cons, IH.
  - rewrite (filter_cons_False p (g r)) by by rewrite Hp.
    by rewrite (filter_cons_False p r).
Qed.

Lemma filter_fmap_fixed (p : R -> Prop) `{!forall r, Decision (p r)} (g : R -> R)
    (t : list R) :
  (forall r, p (g r) <-> p r) -> (forall r, p r -> g r = r) ->
  filter p (g <$> t) = filter p t.
Proof.
  intros Hp Hfix. induction t as [|r t IH]; [done|].
  rewrite fmap_cons. destruct (decide (p r)) as [Hr|Hr].
  - rewrite (Hfix r Hr), !filter_cons_True by done. by rewrite IH.
  - rewrite (filter_cons_False p (g r)) by by rewrite Hp.
    by rewrite (filter_cons_False p r).
Qed.
End UpdateMap.

Ltac simpl_db :=
  cbn [users incomes expenses assets liabilities goals set_users set_incomes
       set_expenses set_assets set_liabilities set_goals] in *.

Section StorageWrites.
Context {rt : Runtime} {en : Engine}.

Ltac invert_update Hu :=
  match type of Hu with
  | match ?u with _ => _ end = _ =>
    let Hw := fresh "Hw" in
    destruct u as [[? ?]|?] eqn:Hw; [|done];
    apply update_where_inv in Hw as ->; by simplify_eq
  end.

Lemma updateIncome_inv id patch userId db db' :
  updateIncome id patch userId db = Ok db' ->
  exists uuid, uuid_in id = Some uuid /\
    db' = set_incomes db (updated uuid userId (setIncome patch) <$> incomes db).
Proof.
  unfold updateIncome. intros Hu. destruct (uuid_in id) as [uuid|]; [|done].
  exists uuid. split; [done|]. invert_update Hu.
Qed.

Lemma updateAsset_inv id patch userId db db' :
  updateAsset id patch userId db = Ok db' ->
  exists uuid, uuid_in id = Some uuid /\
    db' = set_assets db (updated uuid userId (setAsset patch) <$> assets db).
Proof.
  unfold updateAsset. intros Hu. destruct (uuid_in id) as [uuid|]; [|done].
  exists uuid. split; [done|]. invert_update Hu.
Qed.

Lemma updateLiability_inv id patch userId db db' :
  updateLiability id patch userId db = Ok db' ->
  exists uuid, uuid_in id = Some uuid /\
    db' = set_liabilities db (updated uuid userId (setLiability patch) <$> liabilities db).
Proof.
  unfold updateLiability. intros Hu. destruct (uuid_in id) as [uuid|]; [|done].
  exists uuid. split; [done|]. invert_update Hu.
Qed.

Lemma updateExpense_inv id patch userId db db' :
  updateExpense id patch userId db = Ok db' ->
  exists uuid, uuid_in id = Some uuid /\
    ExpenseData.date patch <> Some None /\
    db' = set_expenses db
            (updated uuid userId (setExpense patch (mjoin (ExpenseData.date patch)))
               <$> expenses db).
Proof.
  unfold updateExpense. intros Hu.
  destruct (ExpenseData.date patch) as [[d|]|]; [|done|];
    (destruct (uuid_in id) as [uuid|]; [|done]); exists uuid;
    (split; [done|]); (split; [done|]); invert_update Hu.
Qed.

Lemma updateGoal_inv id patch userId db db' :
  updateGoal id patch userId db = Ok db' ->
  exists uuid day, uuid_in id = Some uuid /\
    stored_day (mjoin (GoalData.targetDate patch)) = Some day /\
    GoalData.targetDate patch <> Some None /\
    db' = set_goals db (updated uuid userId (setGoal patch day) <$> goals db).
Proof.
  unfold updateGoal. intros Hu.
  destruct (GoalData.targetDate patch) as [[d|]|]; [|done|];
    destruct (GoalData.userId patch), (GoalData.description patch),
      (GoalData.targetAmount patch), (GoalData.currentAmount patch);
    try done;
    (destruct (stored_day _) as [day|]; [|done]);
    (destruct (uuid_in id) as [uuid|]; [|done]); exists uuid, day;
    (split; [done|]); (split; [done|]); (split; [done|]); invert_update Hu.
Qed.

Lemma deleteIncome_inv id userId db db' :
  deleteIncome id userId db = Ok db' ->
  exists uuid, uuid_in id = Some uuid /\
    db' = set_incomes db (delete_where (is_record uuid userId) (incomes db)).
Proof. unfold deleteIncome. intros Hd. case_match; simplify_eq. by eexists. Qed.

Lemma deleteExpense_inv id userId db db' :
  deleteExpense id userId db = Ok db' ->
  exists uuid, uuid_in id = Some uuid /\
    db' = set_expenses db (delete_where (is_record uuid userId) (expenses db)).
Proof. unfold deleteExpense. intros Hd. case_match; simplify_eq. by eexists. Qed.

Lemma deleteAsset_inv id userId db db' :
  deleteAsset id userId db = Ok db' ->
  exists uuid, uuid_in id = Some uuid /\
    db' = set_assets db (delete_where (is_record uuid userId) (assets db)).
Proof. unfold deleteAsset. intros Hd. case_match; simplify_eq. by eexists. Qed.

Lemma deleteLiability_inv id userId db db' :
  deleteLiability id userId db = Ok db' ->
  exists uuid, uuid_in id = Some uuid /\
    db' = set_liabilities db (delete_where (is_record uuid userId) (liabilities db)).
Proof. unfold deleteLiability. intros Hd. case_match; simplify_eq. by eexists. Qed.

Lemma deleteGoal_inv id userId db db' :
  deleteGoal id userId db = Ok db' ->
  exists uuid, uuid_in id = Some uuid /\
    db' = set_goals db (delete_where (is_record uuid userId) (goals db)).
Proof. unfold deleteGoal. intros Hd. case_match; simplify_eq. by eexists. Qed.
End StorageWrites.

(** ** X1: the primary keys stay distinct *)

(** X1. Every write of the storage keeps the ids of each table of records
    distinct: a create that succeeds, an update that succeeds and a
    delete, for the five kinds of record. *)
Theorem writes_keep_keys_distinct {rt : Runtime} {en : Engine} :
  kept_by_writes keys_distinct createIncome updateIncome deleteIncome /\
  kept_by_writes keys_distinct createExpense updateExpense deleteExpense /\
  kept_by_writes keys_distinct createAsset updateAsset deleteAsset /\
  kept_by_writes keys_distinct createLiability updateLiability deleteLiability /\
  kept_by_writes keys_distinct createGoal updateGoal deleteGoal.
Proof.
  split_and!.
  - split_and!.
    + intros id now data db rec db' Hk Hc.
      apply createIncome_inv in Hc as (r & -> & -> & Huuid & _ & Hfresh).
      destruct Hk as (? & ? & ? & ? & ?). unfold keys_distinct. simpl_db.
      split_and!; try done. by apply insert_keeps_keys.
    + intros id data userId db db' Hk Hu. apply updateIncome_inv in Hu as (uuid & Huuid & ->).
      destruct Hk as (? & ? & ? & ? & ?). unfold keys_distinct. simpl_db.
      split_and!; try done. by rewrite updated_keys.
    + intros id userId db db' Hk Hd. apply deleteIncome_inv in Hd as (uuid & _ & ->).
      destruct Hk as (? & ? & ? & ? & ?). unfold keys_distinct. simpl_db.
      split_and!; try done. by apply delete_keeps_keys.
  - split_and!.
    + intros id now data db rec db' Hk Hc.
      apply createExpense_inv in Hc as (r & -> & -> & Huuid & _ & Hfresh).
      destruct Hk as (? & ? & ? & ? & ?). unfold keys_distinct. simpl_db.
      split_and!; try done. by apply insert_keeps_keys.
    + intros id data userId db db' Hk Hu. apply updateExpense_inv in Hu as (uuid & Huuid & _ & ->).
      destruct Hk as (? & ? & ? & ? & ?). unfold keys_distinct. simpl_db.
      split_and!; try done. by rewrite updated_keys.
    + intros id userId db db' Hk Hd. apply deleteExpense_inv in Hd as (uuid & _ & ->).
      destruct Hk as (? & ? & ? & ? & ?). unfold keys_distinct. simpl_db.
      split_and!; try done. by apply delete_keeps_keys.
  - split_and!.
    + intros id now data db rec db' Hk Hc.
      apply createAsset_inv in Hc as (r & -> & -> & Huuid & _ & Hfresh).
      destruct Hk as (? & ? & ? & ? & ?). unfold keys_distinct. simpl_db.
      split_and!; try done. by apply insert_keeps_keys.
    + intros id data userId db db' Hk Hu. apply updateAsset_inv in Hu as (uuid & Huuid & ->).
      destruct Hk as (? & ? & ? & ? & ?). unfold keys_distinct. simpl_db.
      split_and!; try done. by rewrite updated_keys.
    + intros id userId db db' Hk Hd. apply deleteAsset_inv in Hd as (uuid & _ & ->).
      destruct Hk as (? & ? & ? & ? & ?). unfold keys_distinct. simpl_db.
      split_and!; try done. by apply delete_keeps_keys.
  - split_and!.
    + intros id now data db rec db' Hk Hc.
      apply createLiability_inv in Hc as (r & -> & -> & Huuid & _ & Hfresh).
      destruct Hk as (? & ? & ? & ? & ?). unfold keys_distinct. simpl_db.
      split_and!; try done. by apply insert_keeps_keys.
    + intros id data userId db db' Hk Hu. apply updateLiability_inv in Hu as (uuid & Huuid & ->).
      destruct Hk as (? & ? & ? & ? & ?). unfold keys_distinct. simpl_db.
      split_and!; try done. by rewrite updated_keys.
    + intros id userId db db' Hk Hd. apply deleteLiability_inv in Hd as (uuid & _ & ->).
      destruct Hk as (? & ? & ? & ? & ?). unfold keys_distinct. simpl_db.
      split_and!; try done. by apply delete_keeps_keys.
  - split_and!.
    + intros id now data db rec db' Hk Hc.
      apply createGoal_inv in Hc as (r & -> & -> & Huuid & _ & Hfresh).
      destruct Hk as (? & ? & ? & ? & ?). unfold keys_distinct. simpl_db.
      split_and!; try done. by apply insert_keeps_keys.
    + intros id data userId db db' Hk Hu. apply updateGoal_inv in Hu as (uuid & day & Huuid & _ & _ & ->).
      destruct Hk as (? & ? & ? & ? & ?). unfold keys_distinct. simpl_db.
      split_and!; try done. by rewrite updated_keys.
    + intros id userId db db' Hk Hd. apply deleteGoal_inv in Hd as (uuid & _ & ->).
      destruct Hk as (? & ? & ? & ? & ?). unfold keys_distinct. simpl_db.
      split_and!; try done. by apply delete_keeps_keys.
Qed.

(** Alice's new income [id_i2] next to [id_i1]. *)
Lemma writes_keep_keys_distinct_witness :
  keys_distinct sample_db /\ keys_distinct db_with_bonus.
Proof.
  assert (keys_distinct sample_db) as Hk.
  { unfold keys_distinct. simpl. split_and!; apply NoDup_singleton. }
  split; [done|].
  destruct (writes_keep_keys_distinct (rt := test_runtime) (en := test_engine))
    as ((Hc & _) & _).
  apply (Hc id_i2 20 bonus sample_db (mapIncome (rt := test_runtime) bonus_row)); [done|].
  by vm_compute.
Defined.

(** ** X2: a created record is read back *)

Section CreateRead.
Context {en : Engine} {R A D : Type} `{Owned R}.
Variable table : Database -> list R.
Variable create : string -> Z -> D -> Database -> result (A * Database).
Variable get : string -> Z -> Database -> result (option A).
Variable getAll : Z -> Database -> list A.
Variable map_row : R -> A.
Variable id_of : A -> string.
Variable userId_of : A -> Z.
Variable owner_of : D -> option Z.

Hypothesis get_head : forall id userId db,
  get id userId db = get_by_uuid table map_row id userId db.
Hypothesis getAll_map : forall userId db,
  getAll userId db = map_row <$> select_where (of_user userId) (table db).
Hypothesis create_row : forall id now data db rec db1,
  create id now data db = Ok (rec, db1) ->
  exists r, rec = map_row r /\ table db1 = table db ++ [r] /\
            uuid_in id = Some (row_id r) /\
            owner_of data = Some (row_userId r) /\ (row_id r ∉ row_id <$> table db).
Hypothesis id_of_row : forall r, id_of (map_row r) = row_id r.
Hypothesis userId_of_row : forall r, userId_of (map_row r) = row_userId r.

Lemma create_then_read_table : create_then_read create get getAll id_of userId_of owner_of.
Proof using All.
  intros id now data db rec db1 Hc.
  apply create_row in Hc as (r & -> & Ht & Hid & Hown & Hfresh).
  rewrite id_of_row, userId_of_row, !get_head, !getAll_map.
  unfold get_by_uuid. rewrite (uuid_in_idem _ _ Hid), Hid, Ht.
  assert (select_where (is_record (row_id r) (row_userId r)) (table db ++ [r]) = [r]) as ->.
  { apply select_one. rewrite filter_app, filter_none, app_nil_l.
    - by rewrite filter_cons_True.
    - intros r' Hr' [Hid' _]. apply Hfresh. rewrite <- Hid'.
      by apply list_elem_of_fmap_2. }
  split_and!; try done.
  rewrite !select_perm, filter_app, (filter_cons_True (of_user (row_userId r))) by done.
  rewrite fmap_app. simpl. by rewrite <- Permutation_cons_append.
Qed.
End CreateRead.

Section CreateReadKinds.
Context {rt : Runtime} {en : Engine}.

Lemma createIncome_read :
  create_then_read createIncome getIncome getAllIncomes Income.id Income.userId
                   IncomeData.userId.
Proof.
  apply (create_then_read_table incomes createIncome getIncome getAllIncomes mapIncome);
    try done; [apply getIncome_head|].
  intros id now data db rec db1 Hc.
  apply createIncome_inv in Hc as (r & -> & -> & ? & ? & ?). by exists r.
Qed.

Lemma createExpense_read :
  create_then_read createExpense getExpense getAllExpenses Expense.id Expense.userId
                   ExpenseData.userId.
Proof.
  apply (create_then_read_table expenses createExpense getExpense getAllExpenses mapExpense);
    try done; [apply getExpense_head|].
  intros id now data db rec db1 Hc.
  apply createExpense_inv in Hc as (r & -> & -> & ? & ? & ?). by exists r.
Qed.

Lemma createAsset_read :
  create_then_read createAsset getAsset getAllAssets Asset.id Asset.userId AssetData.userId.
Proof.
  apply (create_then_read_table assets createAsset getAsset getAllAssets mapAsset);
    try done; [apply getAsset_head|].
  intros id now data db rec db1 Hc.
  apply createAsset_inv in Hc as (r & -> & -> & ? & ? & ?). by exists r.
Qed.

Lemma createLiability_read :
  create_then_read createLiability getLiability getAllLiabilities Liability.id
                   Liability.userId LiabilityData.userId.
Proof.
  apply (create_then_read_table liabilities createLiability getLiability getAllLiabilities
           mapLiability); try done; [apply getLiability_head|].
  intros id now data db rec db1 Hc.
  apply createLiability_inv in Hc as (r & -> & -> & ? & ? & ?). by exists r.
Qed.

Lemma createGoal_read :
  create_then_read createGoal getGoal getAllGoals Goal.id Goal.userId GoalData.userId.
Proof.
  apply (create_then_read_table goals createGoal getGoal getAllGoals mapGoal);
    try done; [apply getGoal_head|].
  intros id now data db rec db1 Hc.
  apply createGoal_inv in Hc as (r & -> & -> & ? & ? & ?). by exists r.
Qed.
End CreateReadKinds.

(** X2. For the five kinds of record: when a create succeeds, the record
    it returns carries the uuid of the id drawn and the owner given, the
    get-one by that owner, of the id drawn and of the id of the record,
    returns this very record, and the owner's list is the list before
    and this record, in some order. *)
Theorem created_record_is_read_back {rt : Runtime} {en : Engine} :
  create_then_read createIncome getIncome getAllIncomes Income.id Income.userId IncomeData.userId /\
  create_then_read createExpense getExpense getAllExpenses Expense.id Expense.userId ExpenseData.userId /\
  create_then_read createAsset getAsset getAllAssets Asset.id Asset.userId AssetData.userId /\
  create_then_read createLiability getLiability getAllLiabilities Liability.id Liability.userId LiabilityData.userId /\
  create_then_read createGoal getGoal getAllGoals Goal.id Goal.userId GoalData.userId.
Proof.
  split_and!; [apply createIncome_read | apply createExpense_read | apply createAsset_read
              | apply createLiability_read | apply createGoal_read].
Qed.

(** Alice's new income [id_i2]: she reads it back, and her list is her
    salary and this income, whatever the order. *)
Lemma created_record_is_read_back_witness :
  let rt := test_runtime in
  let en := test_engine in
  getIncome id_i2 1 db_with_bonus = Ok (Some (mapIncome bonus_row)) /\
  getAllIncomes 1 db_with_bonus ≡ₚ mapIncome bonus_row :: getAllIncomes 1 sample_db.
Proof.
  intros rt en.
  destruct (created_record_is_read_back (rt := test_runtime) (en := test_engine))
    as (Hi & _).
  destruct (Hi id_i2 20 bonus sample_db (mapIncome bonus_row) db_with_bonus)
    as (_ & _ & Hget & _ & Hall); [by vm_compute|].
  split; [exact Hget | exact Hall].
Defined.

(** ** C6: the numeric fields through the decimal text *)



(** ** X3: the writes of a user and the reads of the others *)

Section Rows.
Context {en : Engine} {R : Type} `{Owned R}.

Lemma filter_filter_implied (p q : R -> Prop) `{!forall r, Decision (p r)}
    `{!forall r, Decision (q r)} (t : list R) :
  (forall r, p r -> q r) -> filter p (filter q t) = filter p t.
Proof.
  intros Hpq. induction t as [|r t IH]; [done|].
  destruct (decide (q r)) as [Hq|Hq].
  - rewrite (filter_cons_True q) by done. destruct (decide (p r)).
    + rewrite !filter_cons_True by done. by rewrite IH.
    + by rewrite !filter_cons_False.
  - rewrite (filter_cons_False q) by done.
    rewrite (filter_cons_False p); [done|]. intros Hp. by apply Hq, Hpq.
Qed.

(** Two tables that hold the same rows of a user are read alike by that
    user. *)
Lemma rows_same_select (userId : Z) (t t' : list R) :
  filter (of_user userId) t' = filter (of_user userId) t ->
  select_where (of_user userId) t' = select_where (of_user userId) t /\
  forall id, select_where (is_record id userId) t' = select_where (is_record id userId) t.
Proof.
  intros Hrows. split; [by apply select_same|].
  intros id. apply select_same.
  rewrite <- (filter_filter_implied (is_record id userId) (of_user userId) t')
    by (by intros r [_ ?]).
  rewrite <- (filter_filter_implied (is_record id userId) (of_user userId) t)
    by (by intros r [_ ?]).
  by rewrite Hrows.
Qed.

Lemma rows_after_insert (t : list R) (r : R) (userId' : Z) :
  row_userId r <> userId' ->
  filter (of_user userId') (t ++ [r]) = filter (of_user userId') t.
Proof.
  intros Hne.
  by rewrite filter_app, filter_cons_False, filter_nil, app_nil_r.
Qed.

Lemma rows_after_update (id : string) (userId : Z) (f : R -> R) (t : list R) (userId' : Z) :
  userId' <> userId -> (forall r, row_userId (f r) = row_userId r) ->
  filter (of_user userId') (updated id userId f <$> t)
  = filter (of_user userId') t.
Proof.
  intros Hne Hf. apply filter_fmap_fixed.
  - intros r. unfold of_user. by rewrite updated_userId.
  - intros r Hr. by eapply updated_other_user.
Qed.

Lemma rows_after_delete (id : string) (userId : Z) (t : list R) (userId' : Z) :
  userId' <> userId ->
  filter (of_user userId') (delete_where (is_record id userId) t)
  = filter (of_user userId') t.
Proof.
  intros Hne. unfold delete_where. apply filter_filter_implied.
  intros r Hr [_ Hu]. unfold of_user in Hr. congruence.
Qed.
End Rows.

Section Reads.
Context {rt : Runtime} {en : Engine}.

Lemma rows_determine_reads (userId : Z) (db db' : Database) :
  rows_of userId db' = rows_of userId db -> reads_same userId db db'.
Proof.
  unfold rows_of. intros Hr. simplify_eq.
  repeat match goal with
         | E : filter _ _ = filter _ _ |- _ => apply rows_same_select in E as [? ?]
         end.
  unfold reads_same, getAllIncomes, getIncome, getAllExpenses, getExpense, getAllAssets,
    getAsset, getAllLiabilities, getLiability, getAllGoals, getGoal.
  split_and!; try intros id; try (destruct (uuid_in id); [|done]);
    repeat match goal with
           | E : select_where _ _ = _ |- _ => rewrite E; clear E
           | E : forall id, select_where _ _ = _ |- _ => rewrite E; clear E
           end; done.
Qed.

Lemma createIncome_rows id now data db rec db' userId userId' :
  userId' <> userId -> IncomeData.userId data = Some userId ->
  createIncome id now data db = Ok (rec, db') -> rows_of userId' db' = rows_of userId' db.
Proof.
  intros Hne Hown Hc. apply createIncome_inv in Hc as (r & -> & -> & _ & Hr & _).
  unfold rows_of. simpl_db. rewrite rows_after_insert; [done|].
  change (row_userId r) with (IncomeRow.userId r). congruence.
Qed.

Lemma updateIncome_rows id data userId db db' userId' :
  userId' <> userId -> IncomeData.userId data = None ->
  updateIncome id data userId db = Ok db' -> rows_of userId' db' = rows_of userId' db.
Proof.
  intros Hne Hown Hu. apply updateIncome_inv in Hu as (uuid & Huuid & ->).
  unfold rows_of. simpl_db. rewrite rows_after_update; [done|done|].
  intros r. simpl. by rewrite Hown.
Qed.

Lemma deleteIncome_rows id userId db db' userId' :
  userId' <> userId -> deleteIncome id userId db = Ok db' ->
  rows_of userId' db' = rows_of userId' db.
Proof.
  intros Hne Hd. apply deleteIncome_inv in Hd as (uuid & _ & ->).
  unfold rows_of. simpl_db. by rewrite rows_after_delete.
Qed.

Lemma createExpense_rows id now data db rec db' userId userId' :
  userId' <> userId -> ExpenseData.userId data = Some userId ->
  createExpense id now data db = Ok (rec, db') -> rows_of userId' db' = rows_of userId' db.
Proof.
  intros Hne Hown Hc. apply createExpense_inv in Hc as (r & -> & -> & _ & Hr & _).
  unfold rows_of. simpl_db. rewrite rows_after_insert; [done|].
  change (row_userId r) with (ExpenseRow.userId r). congruence.
Qed.

Lemma updateExpense_rows id data userId db db' userId' :
  userId' <> userId -> ExpenseData.userId data = None ->
  updateExpense id data userId db = Ok db' -> rows_of userId' db' = rows_of userId' db.
Proof.
  intros Hne Hown Hu. apply updateExpense_inv in Hu as (uuid & Huuid & _ & ->).
  unfold rows_of. simpl_db. rewrite rows_after_update; [done|done|].
  intros r. simpl. by rewrite Hown.
Qed.

Lemma deleteExpense_rows id userId db db' userId' :
  userId' <> userId -> deleteExpense id userId db = Ok db' ->
  rows_of userId' db' = rows_of userId' db.
Proof.
  intros Hne Hd. apply deleteExpense_inv in Hd as (uuid & _ & ->).
  unfold rows_of. simpl_db. by rewrite rows_after_delete.
Qed.

Lemma createAsset_rows id now data db rec db' userId userId' :
  userId' <> userId -> AssetData.userId data = Some userId ->
  createAsset id now data db = Ok (rec, db') -> rows_of userId' db' = rows_of userId' db.
Proof.
  intros Hne Hown Hc. apply createAsset_inv in Hc as (r & -> & -> & _ & Hr & _).
  unfold rows_of. simpl_db. rewrite rows_after_insert; [done|].
  change (row_userId r) with (AssetRow.userId r). congruence.
Qed.

Lemma updateAsset_rows id data userId db db' userId' :
  userId' <> userId -> AssetData.userId data = None ->
  updateAsset id data userId db = Ok db' -> rows_of userId' db' = rows_of userId' db.
Proof.
  intros Hne Hown Hu. apply updateAsset_inv in Hu as (uuid & Huuid & ->).
  unfold rows_of. simpl_db. rewrite rows_after_update; [done|done|].
  intros r. simpl. by rewrite Hown.
Qed.

Lemma deleteAsset_rows id userId db db' userId' :
  userId' <> userId -> deleteAsset id userId db = Ok db' ->
  rows_of userId' db' = rows_of userId' db.
Proof.
  intros Hne Hd. apply deleteAsset_inv in Hd as (uuid & _ & ->).
  unfold rows_of. simpl_db. by rewrite rows_after_delete.
Qed.

Lemma createLiability_rows id now data db rec db' userId userId' :
  userId' <> userId -> LiabilityData.userId data = Some userId ->
  createLiability id now data db = Ok (rec, db') -> rows_of userId' db' = rows_of userId' db.
Proof.
  intros Hne Hown Hc. apply createLiability_inv in Hc as (r & -> & -> & _ & Hr & _).
  unfold rows_of. simpl_db. rewrite rows_after_insert; [done|].
  change (row_userId r) with (LiabilityRow.userId r). congruence.
Qed.

Lemma updateLiability_rows id data userId db db' userId' :
  userId' <> userId -> LiabilityData.userId data = None ->
  updateLiability id data userId db = Ok db' -> rows_of userId' db' = rows_of userId' db.
Proof.
  intros Hne Hown Hu. apply updateLiability_inv in Hu as (uuid & Huuid & ->).
  unfold rows_of. simpl_db. rewrite rows_after_update; [done|done|].
  intros r. simpl. by rewrite Hown.
Qed.

Lemma deleteLiability_rows id userId db db' userId' :
  userId' <> userId -> deleteLiability id userId db = Ok db' ->
  rows_of userId' db' = rows_of userId' db.
Proof.
  intros Hne Hd. apply deleteLiability_inv in Hd as (uuid & _ & ->).
  unfold rows_of. simpl_db. by rewrite rows_after_delete.
Qed.

Lemma createGoal_rows id now data db rec db' userId userId' :
  userId' <> userId -> GoalData.userId data = Some userId ->
  createGoal id now data db = Ok (rec, db') -> rows_of userId' db' = rows_of userId' db.
Proof.
  intros Hne Hown Hc. apply createGoal_inv in Hc as (r & -> & -> & _ & Hr & _).
  unfold rows_of. simpl_db. rewrite rows_after_insert; [done|].
  change (row_userId r) with (GoalRow.userId r). congruence.
Qed.

Lemma updateGoal_rows id data userId db db' userId' :
  userId' <> userId -> GoalData.userId data = None ->
  updateGoal id data userId db = Ok db' -> rows_of userId' db' = rows_of userId' db.
Proof.
  intros Hne Hown Hu. apply updateGoal_inv in Hu as (uuid & day & Huuid & _ & _ & ->).
  unfold rows_of. simpl_db. rewrite rows_after_update; [done|done|].
  intros r. simpl. by rewrite Hown.
Qed.

Lemma deleteGoal_rows id userId db db' userId' :
  userId' <> userId -> deleteGoal id userId db = Ok db' ->
  rows_of userId' db' = rows_of userId' db.
Proof.
  intros Hne Hd. apply deleteGoal_inv in Hd as (uuid & _ & ->).
  unfold rows_of. simpl_db. by rewrite rows_after_delete.
Qed.

End Reads.

(** X3. For the five kinds of record, a write of the storage made for a
    user changes nothing of what any other user reads, by list-all or by
    get-one, of any kind: a create whose data name the user as owner, an
    update by the user whose patch assigns no owner, a delete by the
    user. *)
Theorem writes_leave_other_users_reads {rt : Runtime} {en : Engine} :
  others_unaffected createIncome updateIncome deleteIncome IncomeData.userId /\
  others_unaffected createExpense updateExpense deleteExpense ExpenseData.userId /\
  others_unaffected createAsset updateAsset deleteAsset AssetData.userId /\
  others_unaffected createLiability updateLiability deleteLiability LiabilityData.userId /\
  others_unaffected createGoal updateGoal deleteGoal GoalData.userId.
Proof.
  split_and!.
  - intros userId userId' Hne. split_and!.
    + intros id now data db rec db' Hown Hc.
      by eapply rows_determine_reads, createIncome_rows.
    + intros id data db db' Hown Hu.
      by eapply rows_determine_reads, updateIncome_rows.
    + intros id db db' Hd. by eapply rows_determine_reads, deleteIncome_rows.
  - intros userId userId' Hne. split_and!.
    + intros id now data db rec db' Hown Hc.
      by eapply rows_determine_reads, createExpense_rows.
    + intros id data db db' Hown Hu.
      by eapply rows_determine_reads, updateExpense_rows.
    + intros id db db' Hd. by eapply rows_determine_reads, deleteExpense_rows.
  - intros userId userId' Hne. split_and!.
    + intros id now data db rec db' Hown Hc.
      by eapply rows_determine_reads, createAsset_rows.
    + intros id data db db' Hown Hu.
      by eapply rows_determine_reads, updateAsset_rows.
    + intros id db db' Hd. by eapply rows_determine_reads, deleteAsset_rows.
  - intros userId userId' Hne. split_and!.
    + intros id now data db rec db' Hown Hc.
      by eapply rows_determine_reads, createLiability_rows.
    + intros id data db db' Hown Hu.
      by eapply rows_determine_reads, updateLiability_rows.
    + intros id db db' Hd. by eapply rows_determine_reads, deleteLiability_rows.
  - intros userId userId' Hne. split_and!.
    + intros id now data db rec db' Hown Hc.
      by eapply rows_determine_reads, createGoal_rows.
    + intros id data db db' Hown Hu.
      by eapply rows_determine_reads, updateGoal_rows.
    + intros id db db' Hd. by eapply rows_determine_reads, deleteGoal_rows.
Qed.

(** Alice's new income [id_i2] changes nothing for Bob. *)
Lemma writes_leave_other_users_reads_witness :
  reads_same (rt := test_runtime) (en := test_engine) 2 sample_db db_with_bonus.
Proof.
  destruct (writes_leave_other_users_reads (rt := test_runtime) (en := test_engine))
    as (Hi & _).
  destruct (Hi 1 2) as (Hc & _); [done|].
  apply (Hc id_i2 20 bonus sample_db (mapIncome (rt := test_runtime) bonus_row)); [done|].
  by vm_compute.
Defined.


(** ** X4: reading after a delete *)

Section DeleteRead.
Context {en : Engine} {R A : Type} `{Owned R}.
Variable table : Database -> list R.
Variable set_table : Database -> list R -> Database.
Variable delete : string -> Z -> Database -> result Database.
Variable get : string -> Z -> Database -> result (option A).
Variable getAll : Z -> Database -> list A.
Variable map_row : R -> A.
Variable id_of : A -> string.

Hypothesis get_head : forall id userId db,
  get id userId db = get_by_uuid table map_row id userId db.
Hypothesis getAll_map : forall userId db,
  getAll userId db = map_row <$> select_where (of_user userId) (table db).
Hypothesis delete_table : forall id userId db,
  delete id userId db =
  match uuid_in id with
  | None => Throw invalid_uuid
  | Some uuid => Ok (set_table db (delete_where (is_record uuid userId) (table db)))
  end.
Hypothesis table_set : forall db t, table (set_table db t) = t.
Hypothesis set_set : forall db t t', set_table (set_table db t) t' = set_table db t'.
Hypothesis id_of_row : forall r, id_of (map_row r) = row_id r.

Lemma filter_after_delete (uuid : string) (userId : Z) (t : list R) :
  map_row <$> filter (of_user userId) (delete_where (is_record uuid userId) t)
  = filter (fun a => id_of a <> uuid) (map_row <$> filter (of_user userId) t).
Proof using id_of_row.
  unfold delete_where. induction t as [|r t IH]; [done|].
  destruct (decide (is_record uuid userId r)) as [[Hi Hu]|Hn].
  - rewrite (filter_cons_False (fun r => ~ is_record uuid userId r)) by (by intros []).
    rewrite (filter_cons_True (of_user userId)) by done.
    rewrite fmap_cons, filter_cons_False; [done|]. rewrite id_of_row. by intros [].
  - rewrite (filter_cons_True (fun r => ~ is_record uuid userId r)) by done.
    destruct (decide (of_user userId r)) as [Hu|Hu].
    + rewrite !(filter_cons_True (of_user userId)) by done.
      rewrite !fmap_cons, filter_cons_True, IH; [done|].
      rewrite id_of_row. intros Hi. by apply Hn.
    + by rewrite !(filter_cons_False (of_user userId)).
Qed.

Lemma delete_then_read_table : delete_then_read delete get getAll id_of.
Proof using All.
  intros id userId db. destruct (uuid_in id) as [uuid|] eqn:Hid.
  - exists (set_table db (delete_where (is_record uuid userId) (table db))).
    rewrite !delete_table, !Hid, !get_head, !getAll_map.
    unfold get_by_uuid. rewrite Hid, !table_set, set_set.
    split_and!.
    + done.
    + rewrite (select_none (is_record uuid userId)); [done|].
      unfold delete_where. intros r Hr%list_elem_of_filter. by destruct Hr.
    + rewrite !select_perm. by rewrite filter_after_delete.
    + intros id' uuid' Hid' Hne. rewrite ?get_head. unfold get_by_uuid.
      rewrite Hid', table_set. do 3 f_equal. apply select_same.
      unfold delete_where. rewrite filter_filter_implied; [done|].
      intros r [Hi _] [Hi' _]. congruence.
    + do 2 f_equal. unfold delete_where. by apply filter_filter_implied.
  - by rewrite delete_table, Hid.
Qed.
End DeleteRead.

(** X4. For the five kinds of record: an owner's delete of an id that is
    no uuid throws; a delete of a uuid succeeds, and after it the get-one
    of that id answers nothing, the owner's list is the one before
    without the records of that uuid, in some order, every other uuid of
    the owner is read as before, and deleting the id once more succeeds
    and changes nothing. *)
Theorem deleted_record_is_gone {rt : Runtime} {en : Engine} :
  delete_then_read deleteIncome getIncome getAllIncomes Income.id /\
  delete_then_read deleteExpense getExpense getAllExpenses Expense.id /\
  delete_then_read deleteAsset getAsset getAllAssets Asset.id /\
  delete_then_read deleteLiability getLiability getAllLiabilities Liability.id /\
  delete_then_read deleteGoal getGoal getAllGoals Goal.id.
Proof.
  split_and!.
  - apply (delete_then_read_table incomes set_incomes deleteIncome getIncome getAllIncomes
             mapIncome); try done. apply getIncome_head.
  - apply (delete_then_read_table expenses set_expenses deleteExpense getExpense
             getAllExpenses mapExpense); try done. apply getExpense_head.
  - apply (delete_then_read_table assets set_assets deleteAsset getAsset getAllAssets
             mapAsset); try done. apply getAsset_head.
  - apply (delete_then_read_table liabilities set_liabilities deleteLiability getLiability
             getAllLiabilities mapLiability); try done. apply getLiability_head.
  - apply (delete_then_read_table goals set_goals deleteGoal getGoal getAllGoals mapGoal);
      try done. apply getGoal_head.
Qed.

(** Alice deletes her income [id_i1]: it is gone, her income [id_i2]
    stays, and her list is the one before without [id_i1]. A delete of the
    text "no-such-id" throws. *)
Lemma deleted_record_is_gone_witness :
  let rt := test_runtime in
  let en := test_engine in
  (exists db',
     deleteIncome id_i1 1 db_with_bonus = Ok db' /\
     getIncome id_i1 1 db' = Ok None /\
     getIncome id_i2 1 db' = getIncome id_i2 1 db_with_bonus /\
     getAllIncomes 1 db' ≡ₚ filter (fun a => Income.id a <> id_i1)
                                    (getAllIncomes 1 db_with_bonus)) /\
  deleteIncome "no-such-id" 1 db_with_bonus = Throw invalid_uuid.
Proof.
  intros rt en.
  destruct (deleted_record_is_gone (rt := test_runtime) (en := test_engine)) as (Hi & _).
  split.
  - pose proof (Hi id_i1 1 db_with_bonus) as Hd.
    change (uuid_in id_i1) with (Some id_i1) in Hd.
    destruct Hd as (db' & Hdel & Hgone & Hall & Hother & _).
    exists db'. split_and!; [done|done| |done].
    by apply (Hother id_i2 id_i2).
  - exact (Hi "no-such-id" 1 db_with_bonus).
Defined.

(** ** X5: what an update leaves alone *)

Section UpdateRead.
Context {en : Engine} {R A D : Type} `{Owned R}.
Variable table : Database -> list R.
Variable set_table : Database -> list R -> Database.
Variable update : string -> D -> Z -> Database -> result Database.
Variable get : string -> Z -> Database -> result (option A).
Variable getAll : Z -> Database -> list A.
Variable map_row : R -> A.
Variable id_of : A -> string.
Variable owner_of : D -> option Z.

Hypothesis get_head : forall id userId db,
  get id userId db = get_by_uuid table map_row id userId db.
Hypothesis getAll_map : forall userId db,
  getAll userId db = map_row <$> select_where (of_user userId) (table db).
Hypothesis update_table : forall id data userId db db',
  owner_of data = None -> update id data userId db = Ok db' ->
  exists uuid f, uuid_in id = Some uuid /\
            db' = set_table db (updated uuid userId f <$> table db) /\
            (forall r, row_id (f r) = row_id r) /\
            (forall r, row_userId (f r) = row_userId r).
Hypothesis table_set : forall db t, table (set_table db t) = t.
Hypothesis set_same : forall db, set_table db (table db) = db.
Hypothesis id_of_row : forall r, id_of (map_row r) = row_id r.

Lemma update_touches_one_table : update_touches_one update get getAll id_of owner_of.
Proof using All.
  intros id data userId db db' Hown Hu.
  destruct (update_table _ _ _ _ _ Hown Hu) as (uuid & f & Huuid & -> & Hid & Huser).
  exists uuid. split_and!.
  - done.
  - rewrite !getAll_map, table_set, !select_perm.
    rewrite filter_fmap_same by (intros r; unfold of_user; by rewrite updated_userId).
    rewrite <- !list_fmap_compose.
    rewrite (list_fmap_ext (id_of ∘ map_row ∘ updated uuid userId f) (id_of ∘ map_row));
      [done|].
    intros i r _. simpl. by rewrite !id_of_row, updated_id.
  - intros id' uuid' Hid' Hne. rewrite !get_head. unfold get_by_uuid.
    rewrite Hid', table_set. do 3 f_equal. apply select_same.
    rewrite filter_fmap_fixed; [done| |].
    + intros r. unfold is_record. by rewrite updated_id, updated_userId.
    + intros r [Hi _]. unfold updated. case_decide as Hm; [|done].
      destruct Hm as [Hm _]. congruence.
  - rewrite get_head. unfold get_by_uuid. rewrite Huuid. intros Hnone.
    transitivity (set_table db (table db)); [|apply set_same]. f_equal.
    apply list_eq. intros i. rewrite list_lookup_fmap.
    destruct (table db !! i) as [r|] eqn:Hr; [simpl; f_equal|done].
    unfold updated. case_decide as Hm; [|done].
    assert (r ∈ select_where (is_record uuid userId) (table db)) as Hin.
    { apply select_elem_of. split; [done|]. by eapply list_elem_of_lookup_2. }
    destruct (select_where (is_record uuid userId) (table db)); [|done].
    by apply elem_of_nil in Hin.
Qed.
End UpdateRead.

Lemma set_incomes_same (db : Database) : set_incomes db (incomes db) = db.
Proof. by destruct db. Qed.

Lemma set_expenses_same (db : Database) : set_expenses db (expenses db) = db.
Proof. by destruct db. Qed.

Lemma set_assets_same (db : Database) : set_assets db (assets db) = db.
Proof. by destruct db. Qed.

Lemma set_liabilities_same (db : Database) : set_liabilities db (liabilities db) = db.
Proof. by destruct db. Qed.

(** X5. For the five kinds of record, when an owner's update that assigns
    no owner succeeds: the id it was given is a uuid; the owner's list
    has the same ids as before, each as many times, whatever the order of
    the two lists, so that an update neither adds nor removes records;
    every other uuid of the owner is read as before; and when the owner
    had no record of the id, the database is the one before. *)
Theorem update_touches_one_record {rt : Runtime} {en : Engine} :
  update_touches_one updateIncome getIncome getAllIncomes Income.id IncomeData.userId /\
  update_touches_one updateExpense getExpense getAllExpenses Expense.id ExpenseData.userId /\
  update_touches_one updateAsset getAsset getAllAssets Asset.id AssetData.userId /\
  update_touches_one updateLiability getLiability getAllLiabilities Liability.id LiabilityData.userId /\
  update_touches_one updateGoal getGoal getAllGoals Goal.id GoalData.userId.
Proof.
  split_and!.
  - apply (update_touches_one_table incomes set_incomes updateIncome getIncome getAllIncomes mapIncome);
      try done; [apply getIncome_head| |apply set_incomes_same].
    intros id data userId db db' Hown Hu. apply updateIncome_inv in Hu as (uuid & Huuid & ->).
    eexists _, _. split; [done|]. split; [done|]. split; intros r; simpl; [done|by rewrite Hown].
  - apply (update_touches_one_table expenses set_expenses updateExpense getExpense getAllExpenses mapExpense);
      try done; [apply getExpense_head| |apply set_expenses_same].
    intros id data userId db db' Hown Hu. apply updateExpense_inv in Hu as (uuid & Huuid & _ & ->).
    eexists _, _. split; [done|]. split; [done|]. split; intros r; simpl; [done|by rewrite Hown].
  - apply (update_touches_one_table assets set_assets updateAsset getAsset getAllAssets mapAsset);
      try done; [apply getAsset_head| |apply set_assets_same].
    intros id data userId db db' Hown Hu. apply updateAsset_inv in Hu as (uuid & Huuid & ->).
    eexists _, _. split; [done|]. split; [done|]. split; intros r; simpl; [done|by rewrite Hown].
  - apply (update_touches_one_table liabilities set_liabilities updateLiability getLiability getAllLiabilities mapLiability);
      try done; [apply getLiability_head| |apply set_liabilities_same].
    intros id data userId db db' Hown Hu. apply updateLiability_inv in Hu as (uuid & Huuid & ->).
    eexists _, _. split; [done|]. split; [done|]. split; intros r; simpl; [done|by rewrite Hown].
  - apply (update_touches_one_table goals set_goals updateGoal getGoal getAllGoals mapGoal);
      try done; [apply getGoal_head| |apply set_goals_same].
    intros id data userId db db' Hown Hu. apply updateGoal_inv in Hu as (uuid & day & Huuid & _ & _ & ->).
    eexists _, _. split; [done|]. split; [done|]. split; intros r; simpl; [done|by rewrite Hown].
Qed.

(** Alice's update of her expense [id_e1], next to the expense [id_e2]:
    her list has the two ids before and after, and [id_e2] is read as
    before. *)
Lemma update_touches_one_record_witness :
  let rt := test_runtime in
  let en := test_engine in
  let db := set_expenses sample_db [groceries; movie_row] in
  let db' := set_expenses sample_db [groceries_as_dining; movie_row] in
  updateExpense id_e1 dining 1 db = Ok db' /\
  Expense.id <$> getAllExpenses 1 db' ≡ₚ Expense.id <$> getAllExpenses 1 db /\
  getExpense id_e2 1 db' = getExpense id_e2 1 db.
Proof.
  intros rt en db db'.
  assert (updateExpense id_e1 dining 1 db = Ok db') as Hu by by vm_compute.
  destruct (update_touches_one_record (rt := test_runtime) (en := test_engine))
    as (_ & He & _).
  destruct (He id_e1 dining 1 db db' eq_refl Hu) as (uuid & Huuid & Hids & Hother & _).
  split_and!; [done|done|].
  apply (Hother id_e2 id_e2); [by vm_compute|].
  vm_compute in Huuid. by simplify_eq.
Defined.

(** ** X6: a delete undoes a create *)

Section Undo.
Context {R : Type} `{Owned R}.

Lemma delete_after_insert (t : list R) (r : R) :
  row_id r ∉ row_id <$> t ->
  delete_where (is_record (row_id r) (row_userId r)) (t ++ [r]) = t.
Proof.
  intros Hfresh. unfold delete_where. rewrite filter_app.
  fold (delete_where (is_record (row_id r) (row_userId r)) t).
  rewrite (delete_unknown_id t _ _ Hfresh).
  rewrite filter_cons_False by (intros Hn; by apply Hn).
  by rewrite filter_nil, app_nil_r.
Qed.

Lemma updated_twice (id : string) (userId : Z) (f : R -> R) (t : list R) :
  (forall r, row_id (f r) = row_id r) -> (forall r, row_userId (f r) = row_userId r) ->
  (forall r, f (f r) = f r) ->
  updated id userId f <$> (updated id userId f <$> t) = updated id userId f <$> t.
Proof.
  intros Hid Huser Hf. rewrite <- list_fmap_compose. apply list_fmap_ext.
  intros i r _. simpl. unfold updated at 2 3. case_decide as Hr.
  - unfold updated. rewrite decide_True; [by rewrite Hf|].
    destruct Hr as [Hi Hu]. split; [by rewrite Hid|by rewrite Huser].
  - unfold updated. by rewrite decide_False.
Qed.
End Undo.

(** X6. For the five kinds of record, the owner's delete of the id that
    a successful create drew gives back the database as it was before
    the create. *)
Theorem delete_undoes_create {rt : Runtime} {en : Engine} :
  create_undone_by_delete createIncome deleteIncome IncomeData.userId /\
  create_undone_by_delete createExpense deleteExpense ExpenseData.userId /\
  create_undone_by_delete createAsset deleteAsset AssetData.userId /\
  create_undone_by_delete createLiability deleteLiability LiabilityData.userId /\
  create_undone_by_delete createGoal deleteGoal GoalData.userId.
Proof.
  split_and!; intros id now data db rec db' userId Hc Hown.
  - apply createIncome_inv in Hc as (r & _ & -> & Huuid & Hr & Hfresh).
    assert (userId = row_userId r) as -> by (simpl; congruence).
    unfold deleteIncome. rewrite Huuid. simpl_db. f_equal.
    change (IncomeRow.id r) with (row_id r). rewrite delete_after_insert by done.
    by destruct db.
  - apply createExpense_inv in Hc as (r & _ & -> & Huuid & Hr & Hfresh).
    assert (userId = row_userId r) as -> by (simpl; congruence).
    unfold deleteExpense. rewrite Huuid. simpl_db. f_equal.
    change (ExpenseRow.id r) with (row_id r). rewrite delete_after_insert by done.
    by destruct db.
  - apply createAsset_inv in Hc as (r & _ & -> & Huuid & Hr & Hfresh).
    assert (userId = row_userId r) as -> by (simpl; congruence).
    unfold deleteAsset. rewrite Huuid. simpl_db. f_equal.
    change (AssetRow.id r) with (row_id r). rewrite delete_after_insert by done.
    by destruct db.
  - apply createLiability_inv in Hc as (r & _ & -> & Huuid & Hr & Hfresh).
    assert (userId = row_userId r) as -> by (simpl; congruence).
    unfold deleteLiability. rewrite Huuid. simpl_db. f_equal.
    change (LiabilityRow.id r) with (row_id r). rewrite delete_after_insert by done.
    by destruct db.
  - apply createGoal_inv in Hc as (r & _ & -> & Huuid & Hr & Hfresh).
    assert (userId = row_userId r) as -> by (simpl; congruence).
    unfold deleteGoal. rewrite Huuid. simpl_db. f_equal.
    change (GoalRow.id r) with (row_id r). rewrite delete_after_insert by done.
    by destruct db.
Qed.

(** Alice's bonus [id_i2] is created, then deleted: the database is the
    one before. *)
Lemma delete_undoes_create_witness :
  let rt := test_runtime in
  let en := test_engine in
  deleteIncome id_i2 1 db_with_bonus = Ok sample_db.
Proof.
  intros rt en.
  destruct (delete_undoes_create (rt := test_runtime) (en := test_engine)) as (Hi & _).
  apply (Hi id_i2 20 bonus sample_db (mapIncome bonus_row)); [by vm_compute|done].
Defined.

(** ** X7: an update sent twice *)

Section Twice.
Context {rt : Runtime} {en : Engine}.

Lemma setIncome_twice data r : setIncome data (setIncome data r) = setIncome data r.
Proof. destruct data as [[?|] [?|] [?|] [?|] [?|] [?|] [?|]]; by destruct r. Qed.

Lemma updateIncome_again id uuid data userId db :
  uuid_in id = Some uuid -> IncomeData.userId data = None ->
  updateIncome id data userId db
  = Ok (set_incomes db (updated uuid userId (setIncome data) <$> incomes db)).
Proof. intros Hid Hown. unfold updateIncome, update_where. by rewrite Hid, Hown. Qed.

Lemma setAsset_twice data r : setAsset data (setAsset data r) = setAsset data r.
Proof. destruct data as [[?|] [?|] [?|] [?|] [?|] [?|]]; by destruct r. Qed.

Lemma updateAsset_again id uuid data userId db :
  uuid_in id = Some uuid -> AssetData.userId data = None ->
  updateAsset id data userId db
  = Ok (set_assets db (updated uuid userId (setAsset data) <$> assets db)).
Proof. intros Hid Hown. unfold updateAsset, update_where. by rewrite Hid, Hown. Qed.

Lemma setLiability_twice data r : setLiability data (setLiability data r) = setLiability data r.
Proof. destruct data as [[?|] [?|] [?|] [?|] [?|] [?|]]; by destruct r. Qed.

Lemma updateLiability_again id uuid data userId db :
  uuid_in id = Some uuid -> LiabilityData.userId data = None ->
  updateLiability id data userId db
  = Ok (set_liabilities db (updated uuid userId (setLiability data) <$> liabilities db)).
Proof. intros Hid Hown. unfold updateLiability, update_where. by rewrite Hid, Hown. Qed.

Lemma setExpense_twice data date r :
  setExpense data date (setExpense data date r) = setExpense data date r.
Proof. destruct data as [[?|] [?|] [?|] [?|] ? [?|]], date; by destruct r. Qed.

Lemma setGoal_twice data date r : setGoal data date (setGoal data date r) = setGoal data date r.
Proof. destruct data as [[?|] [?|] [?|] [?|] ?], date; by destruct r. Qed.

Lemma updateExpense_again id uuid data userId db :
  uuid_in id = Some uuid -> ExpenseData.date data <> Some None ->
  ExpenseData.userId data = None ->
  updateExpense id data userId db
  = Ok (set_expenses db
          (updated uuid userId (setExpense data (mjoin (ExpenseData.date data)))
             <$> expenses db)).
Proof.
  unfold updateExpense, update_where. intros Hid Hdate Hown. rewrite Hown.
  destruct (ExpenseData.date data) as [[d|]|]; [|done|]; by rewrite Hid.
Qed.

Lemma updateGoal_again id uuid day data userId db0 db0' db :
  updateGoal id data userId db0 = Ok db0' -> GoalData.userId data = None ->
  uuid_in id = Some uuid -> stored_day (mjoin (GoalData.targetDate data)) = Some day ->
  updateGoal id data userId db
  = Ok (set_goals db (updated uuid userId (setGoal data day) <$> goals db)).
Proof.
  unfold updateGoal, update_where. intros Hu Hown Hid Hday. rewrite Hown in *.
  destruct (GoalData.targetDate data) as [[d|]|]; try done;
    destruct (GoalData.description data), (GoalData.targetAmount data),
      (GoalData.currentAmount data); try done; by rewrite Hday, Hid.
Qed.
End Twice.

(** X7. For the five kinds of record, an owner's update that assigns no
    owner and succeeds can be sent again with the same id and patch: it
    succeeds again and the database stays as the first one left it. *)
Theorem update_sent_twice_is_sent_once {rt : Runtime} {en : Engine} :
  update_twice_is_once updateIncome IncomeData.userId /\
  update_twice_is_once updateExpense ExpenseData.userId /\
  update_twice_is_once updateAsset AssetData.userId /\
  update_twice_is_once updateLiability LiabilityData.userId /\
  update_twice_is_once updateGoal GoalData.userId.
Proof.
  split_and!; intros id data userId db db' Hown Hu.
  - apply updateIncome_inv in Hu as (uuid & Huuid & ->).
    rewrite (updateIncome_again _ uuid) by done. simpl_db.
    rewrite updated_twice; [done|done|by intros r; simpl; rewrite Hown|apply setIncome_twice].
  - apply updateExpense_inv in Hu as (uuid & Huuid & Hdate & ->).
    rewrite (updateExpense_again _ uuid) by done. simpl_db.
    rewrite updated_twice; [done|done|by intros r; simpl; rewrite Hown|apply setExpense_twice].
  - apply updateAsset_inv in Hu as (uuid & Huuid & ->).
    rewrite (updateAsset_again _ uuid) by done. simpl_db.
    rewrite updated_twice; [done|done|by intros r; simpl; rewrite Hown|apply setAsset_twice].
  - apply updateLiability_inv in Hu as (uuid & Huuid & ->).
    rewrite (updateLiability_again _ uuid) by done. simpl_db.
    rewrite updated_twice;
      [done|done|by intros r; simpl; rewrite Hown|apply setLiability_twice].
  - destruct (updateGoal_inv _ _ _ _ _ Hu) as (uuid & day & Huuid & Hday & _ & Heq).
    rewrite (updateGoal_again _ uuid day _ _ _ _ db' Hu Hown Huuid Hday). subst db'. simpl_db.
    rewrite updated_twice; [done|done|by intros r; simpl; rewrite Hown|apply setGoal_twice].
Qed.

(** Alice's expense [id_e1] is put in the category "Dining" twice. *)
Lemma update_sent_twice_is_sent_once_witness :
  let rt := test_runtime in
  let en := test_engine in
  updateExpense id_e1 dining 1 (set_expenses sample_db [groceries_as_dining])
  = Ok (set_expenses sample_db [groceries_as_dining]).
Proof.
  intros rt en.
  destruct (update_sent_twice_is_sent_once (rt := test_runtime) (en := test_engine))
    as (_ & He & _).
  by apply (He id_e1 dining 1 sample_db).
Defined.

(** * Further properties of the accounts *)

(** ** X8: what the token check reads of the header *)

Lemma split_no_sep (sep : ascii) (s : string) :
  sep ∉ list_ascii_of_string s -> split sep s = [s].
Proof.
  induction s as [|c s IH]; [done|]. simpl. intros Hno.
  destruct (Ascii.eqb_spec c sep) as [->|Hne].
  - destruct Hno. left.
  - rewrite IH; [done|]. intros Hin. apply Hno. by right.
Qed.

Lemma split_at_sep (sep : ascii) (s rest : string) :
  sep ∉ list_ascii_of_string s ->
  split sep (s +:+ String sep rest) = s :: split sep rest.
Proof.
  induction s as [|c s IH]; intros Hno.
  - rewrite append_nil. simpl. by rewrite Ascii.eqb_refl.
  - rewrite append_cons. simpl.
    destruct (Ascii.eqb_spec c sep) as [->|Hne].
    + destruct Hno. left.
    + rewrite IH; [done|]. intros Hin. apply Hno. by right.
Qed.

Lemma truthy_nonempty (s : string) : s <> "" -> truthy (Some s) = true.
Proof. intros Hne. simpl. by rewrite (proj2 (String.eqb_neq s "") Hne). Qed.

(** X8. The token check reads the second of the fields of the
    Authorization header that single spaces separate, and nothing else of
    it. With no header, or a header without a space, the answer is 401
    "Authentication required". With a header made of a first field, a
    space and a non-empty token, followed or not by a space and more,
    the outcome is that of the verification of the token alone (403
    "Invalid token" when it fails, the claims as [req.user] otherwise):
    the first field can be any text without a space, "Bearer" or not. *)
Theorem token_is_second_field {rt : Runtime} {cr : Crypto} (now : Z) :
  authenticateToken None now = Stop 401 "Authentication required" /\
  (forall h, no_space h ->
     authenticateToken (Some h) now = Stop 401 "Authentication required") /\
  (forall scheme token rest, no_space scheme -> no_space token -> token <> "" ->
     authenticateToken (Some (scheme +:+ " " +:+ token)) now = verified token now /\
     authenticateToken (Some (scheme +:+ " " +:+ token +:+ " " +:+ rest)) now
     = verified token now).
Proof.
  split_and!; [done| |].
  - intros h Hno. unfold authenticateToken.
    destruct (truthy (Some h)) eqn:Ht; [|by rewrite Ht].
    by rewrite (split_no_sep " " h Hno).
  - intros scheme token rest Hs Ht Hne.
    assert (forall tail, truthy (Some (scheme +:+ String " " tail)) = true) as Htruthy.
    { intros tail. apply truthy_nonempty. by destruct scheme. }
    unfold authenticateToken, verified. split.
    + change (scheme +:+ " " +:+ token) with (scheme +:+ String " " token).
      rewrite Htruthy, (split_at_sep " " scheme token Hs), (split_no_sep " " token Ht).
      simpl lookup. by rewrite (truthy_nonempty token Hne).
    + change (scheme +:+ " " +:+ token +:+ " " +:+ rest)
        with (scheme +:+ String " " (token +:+ String " " rest)).
      rewrite Htruthy, (split_at_sep " " scheme _ Hs), (split_at_sep " " token rest Ht).
      simpl lookup. by rewrite (truthy_nonempty token Hne).
Qed.

(** "Token alice" passes as Alice, and so does "Bearer alice"; "alice"
    alone is answered 401. *)
Lemma token_is_second_field_witness :
  let rt := test_runtime in
  let cr := test_crypto in
  authenticateToken (Some "Token alice") 0 = Next 1 "alice" /\
  authenticateToken (Some "alice") 0 = Stop 401 "Authentication required".
Proof.
  intros rt cr.
  destruct (token_is_second_field (rt := test_runtime) (cr := test_crypto) 0)
    as (_ & Hnone & Hfield).
  split.
  - destruct (Hfield "Token" "alice" "") as (H1 & _);
      [by apply (bool_decide_unpack _)|by apply (bool_decide_unpack _)|done|].
    exact H1.
  - apply Hnone. by apply (bool_decide_unpack _).
Defined.


(** ** X9: registration, then login *)

Lemma insert_user_inv (r r' : UserRow.t) (us us' : list UserRow.t) :
  insert_user r us = Ok (r', us') ->
  r' = r /\ us' = us ++ [r] /\ (UserRow.id r ∉ UserRow.id <$> us) /\
  (UserRow.username r ∉ UserRow.username <$> us) /\
  (UserRow.email r ∉ UserRow.email <$> us) /\
  (UserRow.googleId r <> Null -> UserRow.googleId r ∉ UserRow.googleId <$> us).
Proof.
  unfold insert_user. intros Hi. repeat case_bool_decide; simplify_eq.
  split_and!; try done. intros Hg Hin. tauto.
Qed.

Lemma head_filter_none {A} (p : A -> Prop) `{!forall a, Decision (p a)} (l : list A) :
  head (filter p l) = None -> filter p l = [].
Proof. by destruct (filter p l). Qed.

Section Register.
Context {rt : Runtime} {cr : Crypto}.

End Register.




(** ** X10: the Google sign-in finds or creates *)

Section Google.
Context {rt : Runtime} {cr : Crypto}.

Lemma updateUser_lastLogin (id : Z) (now : Z) (db : Database) :
  updateUser id
    {| InsertUser.username := None; InsertUser.password := None;
       InsertUser.email := None; InsertUser.googleId := None;
       InsertUser.googleName := None; InsertUser.googlePicture := None;
       InsertUser.lastLogin := Some now |} db
  = Ok (set_users db (logged_at id now <$> users db)).
Proof.
  unfold updateUser. rewrite bool_decide_eq_false_2; [done|].
  intros Hex. apply Exists_exists in Hex as (u & _ & _ & Ht).
  destruct Ht as [[Hs _]|[[Hs _]|[Hs _]]]; by destruct Hs.
Qed.

Lemma logged_at_id id now u : UserRow.id (logged_at id now u) = UserRow.id u.
Proof. unfold logged_at. by case_decide. Qed.

Lemma logged_at_username id now u : UserRow.username (logged_at id now u) = UserRow.username u.
Proof. unfold logged_at. by case_decide. Qed.

Lemma logged_at_password id now u : UserRow.password (logged_at id now u) = UserRow.password u.
Proof. unfold logged_at. by case_decide. Qed.

Lemma logged_at_googleId id now u : UserRow.googleId (logged_at id now u) = UserRow.googleId u.
Proof. unfold logged_at. by case_decide. Qed.

Lemma found_after_login (googleId : string) (db : Database) (user : UserRow.t) id now :
  getUserByGoogleId googleId db = Some user ->
  getUserByGoogleId googleId (set_users db (logged_at id now <$> users db))
  = Some (logged_at id now user).
Proof.
  unfold getUserByGoogleId. simpl_db. intros Hg.
  rewrite filter_fmap_same by (intros u; by rewrite logged_at_googleId).
  destruct (filter _ (users db)) as [|u l]; simpl in *; by simplify_eq.
Qed.

Lemma callback_found frontendUrl payload id now db user email :
  TokenPayload.email payload = Some email -> email <> "" ->
  getUserByGoogleId (TokenPayload.sub payload) db = Some user ->
  get_auth_google_callback frontendUrl (Ok payload) id now db
  = (google_signed_in frontendUrl
       (generateToken (UserRow.id user) (UserRow.username user) now),
     set_users db (logged_at (UserRow.id user) now <$> users db)).
Proof.
  intros He Hne Hg. unfold get_auth_google_callback.
  by rewrite He, (truthy_nonempty _ Hne), Hg, updateUser_lastLogin.
Qed.

(** A sign-in that does not fail leaves the user it signed in under the
    Google id. *)
Lemma callback_signed_in frontendUrl payload id now db url db' :
  get_auth_google_callback frontendUrl (Ok payload) id now db = (url, db') ->
  url <> google_failed frontendUrl ->
  exists db1 user email,
    TokenPayload.email payload = Some email /\ email <> "" /\
    getUserByGoogleId (TokenPayload.sub payload) db1 = Some user /\
    url = google_signed_in frontendUrl
            (generateToken (UserRow.id user) (UserRow.username user) now) /\
    db' = set_users db1 (logged_at (UserRow.id user) now <$> users db1) /\
    (getUserByGoogleId (TokenPayload.sub payload) db = Some user /\ db1 = db \/
     getUserByGoogleId (TokenPayload.sub payload) db = None /\
     db1 = set_users db (users db ++ [user]) /\ UserRow.password user = Null /\
     UserRow.username user <> "" /\
     (UserRow.username user ∉ UserRow.username <$> users db)).
Proof.
  unfold get_auth_google_callback. intros Hc Hurl.
  destruct (TokenPayload.email payload) as [email|] eqn:He; [|by simplify_eq].
  destruct (truthy (Some email)) eqn:Ht; [|by simplify_eq].
  assert (email <> "") as Hne by (intros ->; done).
  destruct (getUserByGoogleId (TokenPayload.sub payload) db) as [user|] eqn:Hg.
  - rewrite updateUser_lastLogin in Hc. simplify_eq.
    exists db, user, email. split_and!; try done. by left.
  - unfold createGoogleUser in Hc.
    destruct (insert_user _ (users db)) as [[r t]|e] eqn:Hi; [|by simplify_eq].
    apply insert_user_inv in Hi as (-> & -> & _ & Hname & _).
    rewrite updateUser_lastLogin in Hc. simplify_eq.
    eexists _, _, email. split_and!; try done; [|right; split_and!; try done].
    2:{ cbn [UserRow.username GoogleUserData.username].
        destruct (head (split "@" email)) as [name|]; [|done].
        destruct (truthy (Some name)) eqn:Hn; [|done]. simpl. by intros ->. }
    unfold getUserByGoogleId. simpl_db. rewrite filter_app.
    unfold getUserByGoogleId in Hg. rewrite (head_filter_none _ _ Hg), app_nil_l.
    by rewrite filter_cons_True.
Qed.
End Google.

(** X10. When the Google callback does not redirect to the failure page:
    it redirects with a token for a user who is then found under the
    Google id of the payload; when the id was known before, that user is
    the one found before and the only change is the time of the last
    login; and every later callback with the same Google id and some
    email, whatever else its payload says, signs in that same user and
    adds no account, again changing the time of the last login only. *)
Theorem google_sign_in_finds_or_creates {rt : Runtime} {cr : Crypto}
    (frontendUrl : string) (payload : TokenPayload.t) (id : Z) (now : Z)
    (db : Database) (url : string) (db' : Database) :
  get_auth_google_callback frontendUrl (Ok payload) id now db = (url, db') ->
  url <> google_failed frontendUrl ->
  exists user,
    getUserByGoogleId (TokenPayload.sub payload) db' = Some user /\
    url = google_signed_in frontendUrl
            (generateToken (UserRow.id user) (UserRow.username user) now) /\
    (forall existing,
       getUserByGoogleId (TokenPayload.sub payload) db = Some existing ->
       user = logged_at (UserRow.id existing) now existing /\
       db' = set_users db (logged_at (UserRow.id existing) now <$> users db)) /\
    (forall payload' id' now' email,
       TokenPayload.sub payload' = TokenPayload.sub payload ->
       TokenPayload.email payload' = Some email -> email <> "" ->
       get_auth_google_callback frontendUrl (Ok payload') id' now' db'
       = (google_signed_in frontendUrl
            (generateToken (UserRow.id user) (UserRow.username user) now'),
          set_users db' (logged_at (UserRow.id user) now' <$> users db'))).
Proof.
  intros Hc Hurl.
  destruct (callback_signed_in _ _ _ _ _ _ _ Hc Hurl)
    as (db1 & user & email & He & Hne & Hg & -> & -> & Hcase).
  exists (logged_at (UserRow.id user) now user).
  rewrite logged_at_id, logged_at_username.
  pose proof (found_after_login _ _ _ (UserRow.id user) now Hg) as Hg'.
  split_and!; [done|done| |].
  - intros existing Hex. destruct Hcase as [[Hsame ->]|[Hnone _]]; [|congruence].
    by simplify_eq.
  - intros payload' id' now' email' Hsub He' Hne'.
    rewrite <- Hsub in Hg'.
    rewrite (callback_found _ _ _ _ _ _ _ He' Hne' Hg').
    by rewrite logged_at_id, logged_at_username.
Qed.

(** Dave signs in with Google for the first time and an account is made
    for him; he is found under his Google id afterwards. *)
Lemma google_sign_in_finds_or_creates_witness :
  let rt := test_runtime in
  let cr := test_crypto in
  exists user,
    getUserByGoogleId "g-dave" db_with_dave = Some user /\
    google_signed_in "http://localhost:3000" "dave"
    = google_signed_in "http://localhost:3000"
        (generateToken (UserRow.id user) (UserRow.username user) 70).
Proof.
  intros rt cr.
  destruct (google_sign_in_finds_or_creates (rt := test_runtime) (cr := test_crypto)
              "http://localhost:3000" dave 3 70 sample_db
              (google_signed_in "http://localhost:3000" "dave") db_with_dave)
    as (user & Hg & Hurl & _); [by vm_compute|by vm_compute|].
  by exists user.
Defined.


(** ** X11: an account made by the Google sign-in has no password *)

(** X11. When the Google callback signs in under a Google id that no
    account had, the account it makes has no password, and a login with
    its username is answered 401 "data and hash arguments required"
    whatever the password, the database staying as it is: the account
    can be entered through Google only. *)
Theorem google_account_has_no_password {rt : Runtime} {cr : Crypto}
    (frontendUrl : string) (payload : TokenPayload.t) (id : Z) (now : Z)
    (db : Database) (url : string) (db' : Database) :
  get_auth_google_callback frontendUrl (Ok payload) id now db = (url, db') ->
  url <> google_failed frontendUrl ->
  getUserByGoogleId (TokenPayload.sub payload) db = None ->
  exists user,
    getUserByGoogleId (TokenPayload.sub payload) db' = Some user /\
    UserRow.password user = Null /\
    forall password now', password <> "" ->
      post_auth_login (Some (UserRow.username user)) (Some password) now' db'
      = (error_json 401 "data and hash arguments required", db').
Proof.
  intros Hc Hurl Hnone.
  destruct (callback_signed_in _ _ _ _ _ _ _ Hc Hurl)
    as (db1 & user & email & He & Hne & Hg & -> & -> & Hcase).
  destruct Hcase as [[Hsome _]|(_ & -> & Hpw & Hname & Hfresh)]; [congruence|].
  exists (logged_at (UserRow.id user) now user).
  rewrite logged_at_password, logged_at_username.
  split_and!; [by apply found_after_login|done|].
  intros password now' Hp. unfold post_auth_login.
  rewrite (truthy_nonempty _ Hname), (truthy_nonempty _ Hp). simpl andb. cbv iota.
  unfold login. simpl_db.
  rewrite filter_fmap_same by (intros u; by rewrite logged_at_username).
  rewrite filter_app, filter_none, app_nil_l, filter_cons_True by
    first [done | intros u Hu Heq; apply Hfresh; rewrite <- Heq; by apply list_elem_of_fmap_2].
  simpl. rewrite logged_at_password, Hpw. done.
Qed.

(** Dave, whose account the Google sign-in made, cannot log in with a
    password. *)
Lemma google_account_has_no_password_witness :
  let rt := test_runtime in
  let cr := test_crypto in
  exists user,
    getUserByGoogleId "g-dave" db_with_dave = Some user /\
    post_auth_login (Some (UserRow.username user)) (Some "guess") 80 db_with_dave
    = (error_json 401 "data and hash arguments required", db_with_dave).
Proof.
  intros rt cr.
  destruct (google_account_has_no_password (rt := test_runtime) (cr := test_crypto)
              "http://localhost:3000" dave 3 70 sample_db
              (google_signed_in "http://localhost:3000" "dave") db_with_dave)
    as (user & Hg & _ & Hlogin); [by vm_compute|by vm_compute|by vm_compute|].
  exists user. split; [done|]. by apply Hlogin.
Defined.


(** ** X12: handleGoogleCallback finds or creates, and a found user costs no write *)

(** X12. When [handleGoogleCallback] returns, what it returns is the
    token, the id, the username and the email of a user who is then
    found under the Google id of the payload; when that id was known
    before, nothing is written; and every later call with a payload of
    the same Google id, with or without an email, returns that same user
    and writes nothing. *)
Theorem handleGoogleCallback_finds_or_creates {rt : Runtime} {cr : Crypto}
    (payload : TokenPayload.t) (id : Z) (now : Z) (db : Database)
    (login : GoogleLogin) (db' : Database) :
  handleGoogleCallback (Ok (Some payload)) id now db = Ok (login, db') ->
  exists user,
    getUserByGoogleId (TokenPayload.sub payload) db' = Some user /\
    login = google_login user now /\
    (is_Some (getUserByGoogleId (TokenPayload.sub payload) db) -> db' = db) /\
    (forall payload' id' now',
       TokenPayload.sub payload' = TokenPayload.sub payload ->
       handleGoogleCallback (Ok (Some payload')) id' now' db'
       = Ok (google_login user now', db')).
Proof.
  unfold handleGoogleCallback. intros Hc.
  assert (exists user,
            getUserByGoogleId (TokenPayload.sub payload) db' = Some user /\
            login = google_login user now /\
            (is_Some (getUserByGoogleId (TokenPayload.sub payload) db) -> db' = db))
    as (user & Hg & Hl & Hsame).
  { destruct (getUserByGoogleId (TokenPayload.sub payload) db) as [user|] eqn:Hg.
    - simplify_eq. exists user. by split_and!.
    - destruct (TokenPayload.email payload) as [email|]; [|done].
      unfold createUser in Hc.
      cbn [InsertUser.username InsertUser.email InsertUser.password InsertUser.googleId
           InsertUser.googleName InsertUser.googlePicture InsertUser.lastLogin or_null] in Hc.
      destruct (head (split "@" email)) as [name|]; [|done].
      destruct (insert_user _ (users db)) as [[r t]|e] eqn:Hi; [|done].
      apply insert_user_inv in Hi as (Hr & -> & _). injection Hc as <- <-.
      exists r. split_and!; [|done|by intros [? ?]].
      unfold getUserByGoogleId. simpl_db. rewrite filter_app.
      unfold getUserByGoogleId in Hg. rewrite (head_filter_none _ _ Hg), app_nil_l.
      rewrite filter_cons_True by done. by rewrite Hr. }
  exists user. split_and!; [done|done|done|].
  intros payload' id' now' Hsub. by rewrite Hsub, Hg.
Qed.

(** Dave's first call creates his account; his second call returns it
    and writes nothing. *)
Lemma handleGoogleCallback_finds_or_creates_witness :
  let rt := test_runtime in
  let cr := test_crypto in
  handleGoogleCallback (Ok (Some dave)) 4 80 db_with_dave_as_handled
  = Ok (google_login dave_as_handled 80, db_with_dave_as_handled).
Proof.
  intros rt cr.
  destruct (handleGoogleCallback_finds_or_creates (rt := test_runtime) (cr := test_crypto)
              dave 3 70 sample_db (google_login dave_as_handled 70)
              db_with_dave_as_handled) as (user & Hg & _ & _ & Hagain); [by vm_compute|].
  assert (user = dave_as_handled) as ->.
  { assert (getUserByGoogleId "g-dave" db_with_dave_as_handled = Some dave_as_handled)
      as Hd by by vm_compute.
    change (TokenPayload.sub dave) with "g-dave" in Hg. congruence. }
  by apply Hagain.
Defined.

(** ** X13: when a login succeeds, and what it changes *)

(** X13. POST /auth/login with a username and a password answers 200
    exactly when neither is empty, the first user of that username has a
    password hash, and bcrypt verifies the password against it. The
    answer then carries a token for that user with the user's id and
    username, and the database differs by the time of that user's last
    login only; in every other case the database is as it was. *)
Theorem login_succeeds_exactly_when {rt : Runtime} (username password : string) (now : Z)
    (db : Database) :
  (status (post_auth_login (Some username) (Some password) now db).1 = 200 <->
   username <> "" /\ password <> "" /\
   exists user hash,
     getUserByUsername username db = Some user /\
     UserRow.password user = NotNull hash /\ bcrypt_compare password hash = true) /\
  (forall user,
     status (post_auth_login (Some username) (Some password) now db).1 = 200 ->
     getUserByUsername username db = Some user ->
     post_auth_login (Some username) (Some password) now db
     = (json (signed_in (UserRow.id user) username now),
        set_users db (logged_at (UserRow.id user) now <$> users db))) /\
  (status (post_auth_login (Some username) (Some password) now db).1 <> 200 ->
   (post_auth_login (Some username) (Some password) now db).2 = db).
Proof.
  unfold post_auth_login, login, getUserByUsername, comparePasswords.
  destruct (String.eqb_spec username "") as [->|Hu];
    [split_and!; [split; [done|by intros [? _]]|done|done]|].
  destruct (String.eqb_spec password "") as [->|Hp].
  { rewrite (truthy_nonempty _ Hu). simpl.
    split_and!; [split; [done|by intros (_ & ? & _)]|done|done]. }
  rewrite (truthy_nonempty _ Hu), (truthy_nonempty _ Hp). simpl andb. cbv iota.
  destruct (head (filter _ (users db))) as [user|] eqn:Hhead.
  - assert (UserRow.username user = username) as Hname.
    { destruct (filter _ (users db)) as [|u l] eqn:Hf; [done|]. simpl in Hhead.
      simplify_eq. assert (user ∈ user :: l) as Hin by left.
      rewrite <- Hf in Hin. by apply list_elem_of_filter in Hin as [? _]. }
    destruct (UserRow.password user) as [|hash] eqn:Hpw.
    + split_and!; [split; [done|]|done|done].
      intros (_ & _ & user' & hash & ? & ? & _). congruence.
    + destruct (bcrypt_compare password hash) eqn:Hcmp.
      * split_and!; [split; [|done]|..].
        -- intros _. split_and!; [done|done|]. by exists user, hash.
        -- intros user' _ ?. by simplify_eq.
        -- done.
      * split_and!; [split; [done|]|done|done].
        intros (_ & _ & user' & hash' & ? & ? & ?). congruence.
  - split_and!; [split; [done|]|done|done].
    intros (_ & _ & user' & hash & ? & _). congruence.
Qed.

(** Alice logs in with her password. *)
Lemma login_succeeds_exactly_when_witness :
  let rt := test_runtime in
  status (post_auth_login (Some "alice") (Some "pw123456") 100 sample_db).1 = 200.
Proof.
  intros rt.
  destruct (login_succeeds_exactly_when (rt := test_runtime) "alice" "pw123456" 100 sample_db)
    as (Hiff & _).
  apply Hiff. split_and!; [done|done|]. by exists alice, "pw123456".
Defined.


(** * Further properties of the routes *)

(** ** X14: records are served to their owner *)

Section Gate.
Context {rt : Runtime} {cr : Crypto} {en : Engine}.

Lemma authenticateToken_next authHeader now id username :
  authenticateToken authHeader now = Next id username ->
  exists header token,
    authHeader = Some header /\ split " " header !! 1%nat = Some token /\
    jwt_verify token now = Some (id, username).
Proof.
  unfold authenticateToken. intros Ha.
  destruct authHeader as [header|]; [|done].
  destruct (truthy (Some header)) eqn:Hh.
  - destruct (split " " header !! 1%nat) as [token|] eqn:Ht; [|done].
    exists header, token. repeat case_match; by simplify_eq.
  - rewrite Hh in Ha. done.
Qed.

Lemma authenticateToken_stop authHeader now status error :
  authenticateToken authHeader now = Stop status error ->
  (status = 401 /\ error = "Authentication required") \/
  (status = 403 /\ error = "Invalid token").
Proof.
  unfold authenticateToken. intros Ha. repeat case_match; simplify_eq; tauto.
Qed.

Section One.
Context {R A : Type} `{Owned R}.
Variable table : Database -> list R.
Variable get : string -> Z -> Database -> result (option A).
Variable route : string -> Z -> Database -> Response A.
Variable map_row : R -> A.
Variable id_of : A -> string.
Variable userId_of : A -> Z.
Variable not_found failed : string.

Hypothesis get_head : forall id userId db,
  get id userId db = get_by_uuid table map_row id userId db.
Hypothesis route_get : forall id userId db,
  route id userId db = match get id userId db with
                       | Ok None => error_json 404 not_found
                       | Ok (Some a) => json a
                       | Throw _ => error_json 500 failed
                       end.
Hypothesis id_of_row : forall r, id_of (map_row r) = row_id r.
Hypothesis userId_of_row : forall r, userId_of (map_row r) = row_userId r.

Lemma served_to_owner_table : served_to_owner route id_of userId_of.
Proof using All.
  intros authHeader now db id a. unfold use_authenticateToken.
  destruct (authenticateToken authHeader now) as [s e|userId username] eqn:Ha; [done|].
  apply authenticateToken_next in Ha as (header & token & Hh & Hs & Ht).
  simpl. rewrite route_get, get_head. unfold get_by_uuid.
  destruct (uuid_in id) as [uuid|]; [|done].
  destruct (head _) as [r|] eqn:Hr; [|done]. simpl. intros Heq.
  apply select_head_record in Hr as (_ & Hid & Hu).
  exists header, token, userId, username. simplify_eq.
  by rewrite id_of_row, userId_of_row.
Qed.
End One.

Section All.
Context {R A : Type} `{Owned R}.
Variable table : Database -> list R.
Variable getAll : Z -> Database -> list A.
Variable map_row : R -> A.
Variable userId_of : A -> Z.

Hypothesis getAll_map : forall userId db,
  getAll userId db = map_row <$> select_where (of_user userId) (table db).
Hypothesis userId_of_row : forall r, userId_of (map_row r) = row_userId r.

Lemma lists_own_records_table :
  lists_own_records (fun userId db => json (getAll userId db)) userId_of.
Proof using All.
  intros authHeader now db l. unfold use_authenticateToken.
  destruct (authenticateToken authHeader now) as [s e|userId username] eqn:Ha; [done|].
  apply authenticateToken_next in Ha as (header & token & Hh & Hs & Ht).
  simpl. intros Heq. exists header, token, userId, username. split_and!; try done.
  simplify_eq.
  rewrite getAll_map. apply Forall_fmap, Forall_forall.
  intros r Hr%select_elem_of. simpl. rewrite userId_of_row. apply Hr.
Qed.
End All.
End Gate.

(** X14. Behind the token check, the five get-one routes and the five
    list routes answer with records only to a request whose
    authorization header has, as its second field, a token that
    verifies, and then with records of the user of that token only: the
    record of a get-one has the uuid asked for and that user as owner,
    and every record of a list has that user as owner. A request whose
    token does not pass is answered 401 or 403 by the check, whatever the
    route, and the database stays as it is. *)
Theorem records_are_served_to_their_owner {rt : Runtime} {cr : Crypto} {en : Engine} :
  (served_to_owner get_incomes_id Income.id Income.userId /\
   served_to_owner get_expenses_id Expense.id Expense.userId /\
   served_to_owner get_assets_id Asset.id Asset.userId /\
   served_to_owner get_liabilities_id Liability.id Liability.userId /\
   served_to_owner get_goals_id Goal.id Goal.userId) /\
  (lists_own_records get_incomes Income.userId /\
   lists_own_records get_expenses Expense.userId /\
   lists_own_records get_assets Asset.userId /\
   lists_own_records get_liabilities Liability.userId /\
   lists_own_records get_goals Goal.userId) /\
  (forall (A : Type) (route : Z -> Database -> Response A * Database) authHeader now db
          status error,
     authenticateToken authHeader now = Stop status error ->
     use_authenticateToken authHeader now route db = (error_json status error, db) /\
     (status = 401 \/ status = 403)).
Proof.
  split_and!.
  - apply (served_to_owner_table incomes getIncome get_incomes_id mapIncome)
      with (not_found := "Income not found") (failed := "Failed to get income");
      try done. apply getIncome_head.
  - apply (served_to_owner_table expenses getExpense get_expenses_id mapExpense)
      with (not_found := "Expense not found") (failed := "Failed to get expense");
      try done. apply getExpense_head.
  - apply (served_to_owner_table assets getAsset get_assets_id mapAsset)
      with (not_found := "Asset not found") (failed := "Failed to get asset");
      try done. apply getAsset_head.
  - apply (served_to_owner_table liabilities getLiability get_liabilities_id mapLiability)
      with (not_found := "Liability not found") (failed := "Failed to get liability");
      try done. apply getLiability_head.
  - apply (served_to_owner_table goals getGoal get_goals_id mapGoal)
      with (not_found := "Goal not found") (failed := "Failed to get goal");
      try done. apply getGoal_head.
  - by apply (lists_own_records_table incomes getAllIncomes mapIncome).
  - by apply (lists_own_records_table expenses getAllExpenses mapExpense).
  - by apply (lists_own_records_table assets getAllAssets mapAsset).
  - by apply (lists_own_records_table liabilities getAllLiabilities mapLiability).
  - by apply (lists_own_records_table goals getAllGoals mapGoal).
  - intros A route authHeader now db status error Ha.
    unfold use_authenticateToken. rewrite Ha. split; [done|].
    apply authenticateToken_stop in Ha. tauto.
Qed.

(** With the header "Bearer alice" Alice's income [id_i1] is served: the
    token read from the header is "alice", it verifies as user 1, and
    the income is hers. With Bob's header it is not served. *)
Lemma records_are_served_to_their_owner_witness :
  let rt := test_runtime in
  let cr := test_crypto in
  let en := test_engine in
  (exists header token userId username,
     Some "Bearer alice" = Some header /\ split " " header !! 1%nat = Some token /\
     jwt_verify token 0 = Some (userId, username) /\
     uuid_in id_i1 = Some (Income.id (mapIncome salary)) /\
     Income.userId (mapIncome salary) = userId) /\
  (use_authenticateToken (Some "Bearer bob") 0
     (fun userId db => (get_incomes_id id_i1 userId db, db)) sample_db).1
  = error_json 404 "Income not found".
Proof.
  intros rt cr en.
  destruct (records_are_served_to_their_owner (rt := test_runtime) (cr := test_crypto)
              (en := test_engine)) as ((Hi & _) & _).
  split; [|by vm_compute].
  apply (Hi (Some "Bearer alice") 0 sample_db id_i1 (mapIncome salary)).
  by vm_compute.
Defined.

(** ** X15: what the requests of the others leave of a user's records *)

Section Isolation.
Context {rt : Runtime} {cr : Crypto} {en : Engine}.

Lemma Promise_all_keeps {E} (I : Database -> Prop) (step : E -> Database -> result Database)
    (l : list E) (db : Database) :
  (forall e d d', I d -> step e d = Ok d' -> I d') -> I db -> I (Promise_all step l db).2.
Proof.
  intros Hstep. unfold Promise_all. generalize (@None exn).
  revert db. induction l as [|e l IH]; intros db acc Hdb; [done|].
  simpl. destruct (step e db) as [d'|x] eqn:He; apply IH; [by eapply Hstep|done].
Qed.

Lemma incomeSchema_parse_owner userId data validatedData :
  incomeSchema_parse userId data = Ok validatedData ->
  IncomeData.userId validatedData = Some userId.
Proof. unfold incomeSchema_parse. intros Hp. repeat case_match; by simplify_eq. Qed.

Lemma sync_income_rows userId e db db' userId' :
  userId' <> userId -> sync_income userId e db = Ok db' ->
  rows_of userId' db' = rows_of userId' db.
Proof.
  intros Hne. destruct e as [[x uuid] now]. unfold sync_income, created.
  intros Hs. repeat case_match; simplify_eq;
    first [ eapply updateIncome_rows; [exact Hne| |eassumption]; done
          | eapply createIncome_rows; [exact Hne| |eassumption]; done ].
Qed.

Lemma expenseSchema_parse_owner userId data validatedData :
  expenseSchema_parse userId data = Ok validatedData ->
  ExpenseData.userId validatedData = Some userId.
Proof. unfold expenseSchema_parse. intros Hp. repeat case_match; by simplify_eq. Qed.

Lemma sync_expense_rows userId e db db' userId' :
  userId' <> userId -> sync_expense userId e db = Ok db' ->
  rows_of userId' db' = rows_of userId' db.
Proof.
  intros Hne. destruct e as [[x uuid] now]. unfold sync_expense, created.
  intros Hs. repeat case_match; simplify_eq;
    first [ eapply updateExpense_rows; [exact Hne| |eassumption]; done
          | eapply createExpense_rows; [exact Hne| |eassumption]; done ].
Qed.

Lemma assetSchema_parse_owner userId data validatedData :
  assetSchema_parse userId data = Ok validatedData ->
  AssetData.userId validatedData = Some userId.
Proof. unfold assetSchema_parse. intros Hp. repeat case_match; by simplify_eq. Qed.

Lemma sync_asset_rows userId e db db' userId' :
  userId' <> userId -> sync_asset userId e db = Ok db' ->
  rows_of userId' db' = rows_of userId' db.
Proof.
  intros Hne. destruct e as [[x uuid] now]. unfold sync_asset, created.
  intros Hs. repeat case_match; simplify_eq;
    first [ eapply updateAsset_rows; [exact Hne| |eassumption]; done
          | eapply createAsset_rows; [exact Hne| |eassumption]; done ].
Qed.

Lemma liabilitySchema_parse_owner userId data validatedData :
  liabilitySchema_parse userId data = Ok validatedData ->
  LiabilityData.userId validatedData = Some userId.
Proof. unfold liabilitySchema_parse. intros Hp. repeat case_match; by simplify_eq. Qed.

Lemma sync_liability_rows userId e db db' userId' :
  userId' <> userId -> sync_liability userId e db = Ok db' ->
  rows_of userId' db' = rows_of userId' db.
Proof.
  intros Hne. destruct e as [[x uuid] now]. unfold sync_liability, created.
  intros Hs. repeat case_match; simplify_eq;
    first [ eapply updateLiability_rows; [exact Hne| |eassumption]; done
          | eapply createLiability_rows; [exact Hne| |eassumption]; done ].
Qed.

Lemma goalSchema_parse_owner userId data validatedData :
  goalSchema_parse userId data = Ok validatedData ->
  GoalData.userId validatedData = Some userId.
Proof. unfold goalSchema_parse. intros Hp. repeat case_match; by simplify_eq. Qed.

Lemma sync_goal_rows userId e db db' userId' :
  userId' <> userId -> sync_goal userId e db = Ok db' ->
  rows_of userId' db' = rows_of userId' db.
Proof.
  intros Hne. destruct e as [[x uuid] now]. unfold sync_goal, created.
  intros Hs. repeat case_match; simplify_eq;
    first [ eapply updateGoal_rows; [exact Hne| |eassumption]; done
          | eapply createGoal_rows; [exact Hne| |eassumption]; done ].
Qed.

Lemma request_by_rows userId userId' db db' :
  userId' <> userId -> request_by userId db db' -> rows_of userId' db' = rows_of userId' db.
Proof.
  intros Hne Hr. destruct Hr.
  - unfold post_incomes. repeat case_match; simplify_eq; try done.
    eapply createIncome_rows; [done| |done]. by eapply incomeSchema_parse_owner.
  - unfold put_incomes.
    assert (rows_of userId' (Promise_all (sync_income userId) elements db).2 = rows_of userId' db)
      as Hall.
    { apply (Promise_all_keeps (fun d => rows_of userId' d = rows_of userId' db)); [|done].
      intros e d d' Hd Hs. rewrite <- Hd. by eapply sync_income_rows. }
    by destruct (Promise_all _ _ db) as [[x|] d].
  - unfold delete_incomes_id.
    destruct (deleteIncome id userId db) as [d|e] eqn:Hd; [|done].
    by eapply deleteIncome_rows.
  - unfold post_expenses. repeat case_match; simplify_eq; try done.
    eapply createExpense_rows; [done| |done]. by eapply expenseSchema_parse_owner.
  - unfold put_expenses.
    assert (rows_of userId' (Promise_all (sync_expense userId) elements db).2 = rows_of userId' db)
      as Hall.
    { apply (Promise_all_keeps (fun d => rows_of userId' d = rows_of userId' db)); [|done].
      intros e d d' Hd Hs. rewrite <- Hd. by eapply sync_expense_rows. }
    by destruct (Promise_all _ _ db) as [[x|] d].
  - unfold delete_expenses_id.
    destruct (deleteExpense id userId db) as [d|e] eqn:Hd; [|done].
    by eapply deleteExpense_rows.
  - unfold post_assets. repeat case_match; simplify_eq; try done.
    eapply createAsset_rows; [done| |done]. by eapply assetSchema_parse_owner.
  - unfold put_assets.
    assert (rows_of userId' (Promise_all (sync_asset userId) elements db).2 = rows_of userId' db)
      as Hall.
    { apply (Promise_all_keeps (fun d => rows_of userId' d = rows_of userId' db)); [|done].
      intros e d d' Hd Hs. rewrite <- Hd. by eapply sync_asset_rows. }
    by destruct (Promise_all _ _ db) as [[x|] d].
  - unfold delete_assets_id.
    destruct (deleteAsset id userId db) as [d|e] eqn:Hd; [|done].
    by eapply deleteAsset_rows.
  - unfold post_liabilities. repeat case_match; simplify_eq; try done.
    eapply createLiability_rows; [done| |done]. by eapply liabilitySchema_parse_owner.
  - unfold put_liabilities.
    assert (rows_of userId' (Promise_all (sync_liability userId)
                               match elements with inl one => [one] | inr l => l end db).2
            = rows_of userId' db) as Hall.
    { apply (Promise_all_keeps (fun d => rows_of userId' d = rows_of userId' db)); [|done].
      intros e d d' Hd Hs. rewrite <- Hd. by eapply sync_liability_rows. }
    by destruct (Promise_all _ _ db) as [[x|] d].
  - unfold delete_liabilities_id.
    destruct (deleteLiability id userId db) as [d|e] eqn:Hd; [|done].
    by eapply deleteLiability_rows.
  - unfold post_goals. repeat case_match; simplify_eq; try done.
    eapply createGoal_rows; [done| |done]. by eapply goalSchema_parse_owner.
  - unfold put_goals.
    assert (rows_of userId' (Promise_all (sync_goal userId) elements db).2 = rows_of userId' db)
      as Hall.
    { apply (Promise_all_keeps (fun d => rows_of userId' d = rows_of userId' db)); [|done].
      intros e d d' Hd Hs. rewrite <- Hd. by eapply sync_goal_rows. }
    by destruct (Promise_all _ _ db) as [[x|] d].
  - unfold delete_goals_id.
    destruct (deleteGoal id userId db) as [d|e] eqn:Hd; [|done].
    by eapply deleteGoal_rows.
Qed.

Lemma createUser_records id now insertUser db user db' :
  createUser id now insertUser db = Ok (user, db') -> exists t, db' = set_users db t.
Proof. unfold createUser. intros Hc. repeat case_match; simplify_eq. by eexists. Qed.

Lemma createGoogleUser_records id now userData db user db' :
  createGoogleUser id now userData db = Ok (user, db') -> exists t, db' = set_users db t.
Proof. unfold createGoogleUser. intros Hc. repeat case_match; simplify_eq. by eexists. Qed.

Lemma updateUser_records id userData db db' :
  updateUser id userData db = Ok db' -> exists t, db' = set_users db t.
Proof.
  unfold updateUser. intros Hu.
  destruct userData as [[?|] [?|] [?|] [?|] [?|] [?|] [?|]]; try done;
    case_bool_decide; simplify_eq; by eexists.
Qed.

Lemma login_records now username password db r db' :
  login now username password db = Ok (r, db') -> exists t, db' = set_users db t.
Proof. unfold login. intros Hl. repeat case_match; simplify_eq. by eexists. Qed.

Lemma account_request_rows userId' db db' :
  account_request db db' -> rows_of userId' db' = rows_of userId' db.
Proof.
  intros Hr. destruct Hr.
  - unfold post_auth_register.
    destruct (getUserByUsername username db); [done|].
    destruct (createUser _ _ _ db) as [[user d]|e] eqn:Hc; [|done].
    by apply createUser_records in Hc as [t ->].
  - unfold post_auth_login.
    destruct username as [u|], password as [p|]; try done.
    destruct (truthy (Some u) && truthy (Some p)); [|done].
    destruct (login now u p db) as [[r d]|e] eqn:Hl; [|done].
    by apply login_records in Hl as [t ->].
  - unfold get_auth_google_callback.
    destruct payload as [payload|e]; [|done].
    destruct (TokenPayload.email payload) as [email|]; [|done].
    destruct (truthy (Some email)); [|done].
    destruct (getUserByGoogleId (TokenPayload.sub payload) db) as [user|].
    + destruct (updateUser _ _ db) as [d|e] eqn:Hu; [|done].
      by apply updateUser_records in Hu as [t ->].
    + destruct (createGoogleUser _ _ _ db) as [[user d1]|e] eqn:Hc; [|done].
      apply createGoogleUser_records in Hc as [t ->].
      destruct (updateUser _ _ _) as [d|e] eqn:Hu; [|done].
      by apply updateUser_records in Hu as [t' ->].
Qed.
End Isolation.

(** X15. Whatever the other users send to the write routes (the five
    POST, the five bulk PUT and the five DELETE, with any body and any
    id), and whatever registrations, logins and Google sign-ins take
    place, a user reads the same records afterwards as before, of each of
    the five kinds, by list-all and by get-one. *)
Theorem others_cannot_change_what_a_user_reads {rt : Runtime} {cr : Crypto} {en : Engine}
    (userId' : Z) (db db' : Database) :
  others_act userId' db db' -> reads_same userId' db db'.
Proof.
  intros Hact. apply rows_determine_reads.
  induction Hact as [db|db db1 db2 Hreq _ IH|userId db db1 db2 Hne Hreq _ IH]; [done| |].
  - rewrite IH. by apply account_request_rows.
  - rewrite IH. by eapply request_by_rows.
Qed.

(** Alice posts her bonus, then deletes an expense, and Carol registers:
    Bob reads what he read before. *)
Lemma others_cannot_change_what_a_user_reads_witness :
  let rt := test_runtime in
  let cr := test_crypto in
  let en := test_engine in
  reads_same 2 sample_db
    (post_auth_register "carol" "secret" "c@x.com" 3 "salt" 50
       (delete_expenses_id id_e1 1 (post_incomes 1 bonus_body id_i2 20 sample_db).2).2).2.
Proof.
  intros rt cr en.
  apply (others_cannot_change_what_a_user_reads (rt := test_runtime) (cr := test_crypto)
           (en := test_engine)).
  eapply (others_request 2 1); [done|apply by_post_incomes|].
  eapply (others_request 2 1); [done|apply by_delete_expenses|].
  eapply others_account; [apply by_register|].
  apply others_done.
Defined.


(** ** X16: the bulk routes remove nothing *)

Section UserIds.
Context {R : Type} `{Owned R}.

Lemma user_ids_after_update (id : string) (userId : Z) (f : R -> R) (t : list R)
    (userId0 : Z) :
  (forall r, row_id (f r) = row_id r) -> (forall r, row_userId (f r) = row_userId r) ->
  row_id <$> filter (of_user userId0) (updated id userId f <$> t)
  = row_id <$> filter (of_user userId0) t.
Proof.
  intros Hid Huser.
  rewrite filter_fmap_same by (intros r; unfold of_user; by rewrite updated_userId).
  by apply updated_keys.
Qed.

Lemma user_ids_after_insert (t : list R) (r : R) (userId0 : Z) :
  (row_id <$> filter (of_user userId0) t)
    `prefix_of` (row_id <$> filter (of_user userId0) (t ++ [r])).
Proof.
  rewrite filter_app, fmap_app. by apply prefix_app_r.
Qed.
End UserIds.

Section BulkKeeps.
Context {rt : Runtime} {en : Engine}.

Lemma getAllIncomes_ids userId db :
  Income.id <$> getAllIncomes userId db ≡ₚ row_id <$> filter (of_user userId) (incomes db).
Proof. unfold getAllIncomes. by rewrite <- list_fmap_compose, select_perm. Qed.

Lemma sync_income_keeps userId e db db' :
  sync_income userId e db = Ok db' ->
  (row_id <$> filter (of_user userId) (incomes db))
    `prefix_of` (row_id <$> filter (of_user userId) (incomes db')).
Proof.
  destruct e as [[x uuid] now]. unfold sync_income, created.
  intros Hs. repeat case_match; simplify_eq.
  - apply updateIncome_inv in Hs as (key & Hkey & ->). simpl_db. by rewrite user_ids_after_update.
  - match goal with Hc : createIncome _ _ _ _ = _ |- _ =>
      apply createIncome_inv in Hc as (r & _ & -> & _) end.
    simpl_db. apply user_ids_after_insert.
  - match goal with Hc : createIncome _ _ _ _ = _ |- _ =>
      apply createIncome_inv in Hc as (r & _ & -> & _) end.
    simpl_db. apply user_ids_after_insert.
Qed.

Lemma getAllExpenses_ids userId db :
  Expense.id <$> getAllExpenses userId db ≡ₚ row_id <$> filter (of_user userId) (expenses db).
Proof. unfold getAllExpenses. by rewrite <- list_fmap_compose, select_perm. Qed.

Lemma sync_expense_keeps userId e db db' :
  sync_expense userId e db = Ok db' ->
  (row_id <$> filter (of_user userId) (expenses db))
    `prefix_of` (row_id <$> filter (of_user userId) (expenses db')).
Proof.
  destruct e as [[x uuid] now]. unfold sync_expense, created.
  intros Hs. repeat case_match; simplify_eq.
  - apply updateExpense_inv in Hs as (key & Hkey & _ & ->). simpl_db. by rewrite user_ids_after_update.
  - match goal with Hc : createExpense _ _ _ _ = _ |- _ =>
      apply createExpense_inv in Hc as (r & _ & -> & _) end.
    simpl_db. apply user_ids_after_insert.
  - match goal with Hc : createExpense _ _ _ _ = _ |- _ =>
      apply createExpense_inv in Hc as (r & _ & -> & _) end.
    simpl_db. apply user_ids_after_insert.
Qed.

Lemma getAllAssets_ids userId db :
  Asset.id <$> getAllAssets userId db ≡ₚ row_id <$> filter (of_user userId) (assets db).
Proof. unfold getAllAssets. by rewrite <- list_fmap_compose, select_perm. Qed.

Lemma sync_asset_keeps userId e db db' :
  sync_asset userId e db = Ok db' ->
  (row_id <$> filter (of_user userId) (assets db))
    `prefix_of` (row_id <$> filter (of_user userId) (assets db')).
Proof.
  destruct e as [[x uuid] now]. unfold sync_asset, created.
  intros Hs. repeat case_match; simplify_eq.
  - apply updateAsset_inv in Hs as (key & Hkey & ->). simpl_db. by rewrite user_ids_after_update.
  - match goal with Hc : createAsset _ _ _ _ = _ |- _ =>
      apply createAsset_inv in Hc as (r & _ & -> & _) end.
    simpl_db. apply user_ids_after_insert.
  - match goal with Hc : createAsset _ _ _ _ = _ |- _ =>
      apply createAsset_inv in Hc as (r & _ & -> & _) end.
    simpl_db. apply user_ids_after_insert.
Qed.

Lemma getAllLiabilities_ids userId db :
  Liability.id <$> getAllLiabilities userId db ≡ₚ row_id <$> filter (of_user userId) (liabilities db).
Proof. unfold getAllLiabilities. by rewrite <- list_fmap_compose, select_perm. Qed.

Lemma sync_liability_keeps userId e db db' :
  sync_liability userId e db = Ok db' ->
  (row_id <$> filter (of_user userId) (liabilities db))
    `prefix_of` (row_id <$> filter (of_user userId) (liabilities db')).
Proof.
  destruct e as [[x uuid] now]. unfold sync_liability, created.
  intros Hs. repeat case_match; simplify_eq.
  - apply updateLiability_inv in Hs as (key & Hkey & ->). simpl_db. by rewrite user_ids_after_update.
  - match goal with Hc : createLiability _ _ _ _ = _ |- _ =>
      apply createLiability_inv in Hc as (r & _ & -> & _) end.
    simpl_db. apply user_ids_after_insert.
  - match goal with Hc : createLiability _ _ _ _ = _ |- _ =>
      apply createLiability_inv in Hc as (r & _ & -> & _) end.
    simpl_db. apply user_ids_after_insert.
Qed.

Lemma getAllGoals_ids userId db :
  Goal.id <$> getAllGoals userId db ≡ₚ row_id <$> filter (of_user userId) (goals db).
Proof. unfold getAllGoals. by rewrite <- list_fmap_compose, select_perm. Qed.

Lemma sync_goal_keeps userId e db db' :
  sync_goal userId e db = Ok db' ->
  (row_id <$> filter (of_user userId) (goals db))
    `prefix_of` (row_id <$> filter (of_user userId) (goals db')).
Proof.
  destruct e as [[x uuid] now]. unfold sync_goal, created.
  intros Hs. repeat case_match; simplify_eq.
  - apply updateGoal_inv in Hs as (key & day & Hkey & _ & _ & ->). simpl_db. by rewrite user_ids_after_update.
  - match goal with Hc : createGoal _ _ _ _ = _ |- _ =>
      apply createGoal_inv in Hc as (r & _ & -> & _) end.
    simpl_db. apply user_ids_after_insert.
  - match goal with Hc : createGoal _ _ _ _ = _ |- _ =>
      apply createGoal_inv in Hc as (r & _ & -> & _) end.
    simpl_db. apply user_ids_after_insert.
Qed.

Lemma Promise_all_prefix {E A} (step : E -> Database -> result Database)
    (ids : Database -> list A) (l : list E) (db : Database) :
  (forall e d d', step e d = Ok d' -> ids d `prefix_of` ids d') ->
  ids db `prefix_of` ids (Promise_all step l db).2.
Proof.
  intros Hstep.
  apply (Promise_all_keeps (fun d => ids db `prefix_of` ids d)); [|done].
  intros e d d' Hd Hs. etrans; [exact Hd|]. by eapply Hstep.
Qed.
End BulkKeeps.

(** X16. The five bulk PUT routes remove nothing: whatever the array,
    and whether the answer is 200 or 500, every id of the caller's list
    before is an id of the caller's list afterwards, as many times,
    whatever the order in which the two lists are returned; a record
    that the array leaves out stays. (The liabilities route is taken with
    an array and with a single element.) *)
Theorem bulk_routes_remove_nothing {rt : Runtime} {en : Engine} :
  bulk_keeps_records put_incomes getAllIncomes Income.id /\
  bulk_keeps_records put_expenses getAllExpenses Expense.id /\
  bulk_keeps_records put_assets getAllAssets Asset.id /\
  bulk_keeps_records put_liabilities getAllLiabilities Liability.id /\
  bulk_keeps_records put_goals getAllGoals Goal.id.
Proof.
  split_and!; intros userId elements db.
  - unfold put_incomes.
    pose proof (Promise_all_prefix (sync_income userId)
                  (fun d => row_id <$> filter (of_user userId) (incomes d)) elements db
                  (sync_income_keeps userId)) as Hall.
    rewrite !getAllIncomes_ids.
    destruct (Promise_all _ _ db) as [[x|] d]; cbn [snd] in *;
      destruct Hall as [k ->]; by apply submseteq_inserts_r.
  - unfold put_expenses.
    pose proof (Promise_all_prefix (sync_expense userId)
                  (fun d => row_id <$> filter (of_user userId) (expenses d)) elements db
                  (sync_expense_keeps userId)) as Hall.
    rewrite !getAllExpenses_ids.
    destruct (Promise_all _ _ db) as [[x|] d]; cbn [snd] in *;
      destruct Hall as [k ->]; by apply submseteq_inserts_r.
  - unfold put_assets.
    pose proof (Promise_all_prefix (sync_asset userId)
                  (fun d => row_id <$> filter (of_user userId) (assets d)) elements db
                  (sync_asset_keeps userId)) as Hall.
    rewrite !getAllAssets_ids.
    destruct (Promise_all _ _ db) as [[x|] d]; cbn [snd] in *;
      destruct Hall as [k ->]; by apply submseteq_inserts_r.
  - unfold put_liabilities.
    pose proof (Promise_all_prefix (sync_liability userId)
                  (fun d => row_id <$> filter (of_user userId) (liabilities d))
                  (match elements with inl one => [one] | inr l => l end) db
                  (sync_liability_keeps userId)) as Hall.
    rewrite !getAllLiabilities_ids.
    destruct (Promise_all _ _ db) as [[x|] d]; cbn [snd] in *;
      destruct Hall as [k ->]; by apply submseteq_inserts_r.
  - unfold put_goals.
    pose proof (Promise_all_prefix (sync_goal userId)
                  (fun d => row_id <$> filter (of_user userId) (goals d)) elements db
                  (sync_goal_keeps userId)) as Hall.
    rewrite !getAllGoals_ids.
    destruct (Promise_all _ _ db) as [[x|] d]; cbn [snd] in *;
      destruct Hall as [k ->]; by apply submseteq_inserts_r.
Qed.

(** Alice syncs an array that updates her expense [id_e1], the first of
    her two, and holds nothing of the other, [id_e2]: both ids stay in
    her list. *)
Lemma bulk_routes_remove_nothing_witness :
  let rt := test_runtime in
  let en := test_engine in
  let db := set_expenses sample_db [groceries; movie_row] in
  Expense.id <$> getAllExpenses 1 db ≡ₚ [id_e1; id_e2] /\
  [id_e1; id_e2] ⊆+ Expense.id <$> getAllExpenses 1 (put_expenses 1 [(food_update, id_e9, 70)] db).2.
Proof.
  intros rt en db.
  destruct (bulk_routes_remove_nothing (rt := test_runtime) (en := test_engine))
    as (_ & He & _).
  assert (Expense.id <$> getAllExpenses 1 db ≡ₚ [id_e1; id_e2]) as Hids
    by (vm_compute; apply perm_swap).
  split; [done|]. rewrite <- Hids. apply He.
Defined.

(** ** X17: the routes store no notes with an expense *)

Section ExpenseNotes.
Context {rt : Runtime} {cr : Crypto} {en : Engine}.

Lemma createExpense_notes id now data db rec db1 :
  createExpense id now data db = Ok (rec, db1) ->
  exists r, rec = mapExpense r /\ db1 = set_expenses db (expenses db ++ [r]) /\
            ExpenseRow.notes r = or_null (ExpenseData.notes data).
Proof.
  unfold createExpense. intros Hc. repeat case_match; simplify_eq.
  match goal with
  | Hi : insert_returning _ _ _ = Ok _ |- _ =>
    apply insert_returning_inv in Hi as (-> & -> & _)
  end.
  by eexists.
Qed.

Lemma expenseSchema_parse_notes userId data validatedData :
  expenseSchema_parse userId data = Ok validatedData -> data !! "notes" = None ->
  ExpenseData.notes validatedData = None.
Proof.
  unfold expenseSchema_parse. intros Hp Hn. rewrite Hn in Hp.
  cbn [z_string_optional] in Hp. repeat case_match; by simplify_eq.
Qed.

Lemma post_expenses_notes userId data id now db resp db' :
  post_expenses userId data id now db = (resp, db') ->
  db' = db \/
  exists r, resp = json (mapExpense r) /\ db' = set_expenses db (expenses db ++ [r]) /\
            ExpenseRow.notes r = Null.
Proof.
  unfold post_expenses. intros Hp.
  destruct (expenseSchema_parse userId _) as [v|e] eqn:Hv; [|left; by simplify_eq].
  apply expenseSchema_parse_notes in Hv; [|by apply lookup_delete_eq].
  destruct (createExpense id now v db) as [[e d]|e] eqn:Hc; [|left; by simplify_eq].
  apply createExpense_notes in Hc as (r & -> & -> & Hn). rewrite Hv in Hn.
  right. exists r. by simplify_eq.
Qed.

Lemma sync_expense_notes userId e db db' :
  sync_expense userId e db = Ok db' -> no_expense_notes db -> no_expense_notes db'.
Proof.
  destruct e as [[x uuid] now]. unfold sync_expense, created, no_expense_notes.
  intros Hs Hdb. repeat case_match; simplify_eq.
  - apply updateExpense_inv in Hs as (key & Hkey & _ & ->). simpl_db.
    apply Forall_fmap. eapply Forall_impl; [exact Hdb|].
    intros r Hr. unfold updated. simpl. by case_decide.
  - match goal with Hc : createExpense _ _ _ _ = _ |- _ =>
      apply createExpense_notes in Hc as (r & _ & -> & Hn) end.
    simpl_db. apply Forall_app. split; [done|]. by apply Forall_singleton.
  - match goal with Hc : createExpense _ _ _ _ = _ |- _ =>
      apply createExpense_notes in Hc as (r & _ & -> & Hn) end.
    simpl_db. apply Forall_app. split; [done|]. by apply Forall_singleton.
Qed.

Lemma sync_income_expenses userId e db db' :
  sync_income userId e db = Ok db' -> expenses db' = expenses db.
Proof.
  destruct e as [[x uuid] now]. unfold sync_income, created.
  intros Hs. repeat case_match; simplify_eq;
    first [ by apply updateIncome_inv in Hs as (key & Hkey & ->)
          | match goal with Hc : createIncome _ _ _ _ = _ |- _ =>
              by apply createIncome_inv in Hc as (r & _ & -> & _) end ].
Qed.

Lemma sync_asset_expenses userId e db db' :
  sync_asset userId e db = Ok db' -> expenses db' = expenses db.
Proof.
  destruct e as [[x uuid] now]. unfold sync_asset, created.
  intros Hs. repeat case_match; simplify_eq;
    first [ by apply updateAsset_inv in Hs as (key & Hkey & ->)
          | match goal with Hc : createAsset _ _ _ _ = _ |- _ =>
              by apply createAsset_inv in Hc as (r & _ & -> & _) end ].
Qed.

Lemma sync_liability_expenses userId e db db' :
  sync_liability userId e db = Ok db' -> expenses db' = expenses db.
Proof.
  destruct e as [[x uuid] now]. unfold sync_liability, created.
  intros Hs. repeat case_match; simplify_eq;
    first [ by apply updateLiability_inv in Hs as (key & Hkey & ->)
          | match goal with Hc : createLiability _ _ _ _ = _ |- _ =>
              by apply createLiability_inv in Hc as (r & _ & -> & _) end ].
Qed.

Lemma sync_goal_expenses userId e db db' :
  sync_goal userId e db = Ok db' -> expenses db' = expenses db.
Proof.
  destruct e as [[x uuid] now]. unfold sync_goal, created.
  intros Hs. repeat case_match; simplify_eq;
    first [ by apply updateGoal_inv in Hs as (key & day & Hkey & _ & _ & ->)
          | match goal with Hc : createGoal _ _ _ _ = _ |- _ =>
              by apply createGoal_inv in Hc as (r & _ & -> & _) end ].
Qed.

Lemma request_by_notes userId db db' :
  request_by userId db db' -> no_expense_notes db -> no_expense_notes db'.
Proof.
  intros Hr Hdb. destruct Hr.
  - unfold post_incomes, no_expense_notes.
    repeat case_match; simplify_eq; try done.
    match goal with Hc : createIncome _ _ _ _ = _ |- _ =>
      by apply createIncome_inv in Hc as (r & _ & -> & _) end.
  - unfold put_incomes, no_expense_notes.
    pose proof (Promise_all_keeps (fun d => expenses d = expenses db) (sync_income userId)
                  (elements) db) as Hall.
    destruct (Promise_all _ _ db) as [[x|] d]; simpl in *; rewrite Hall; try done;
      intros e d0 d' Hd Hs; rewrite <- Hd; by eapply sync_income_expenses.
  - unfold delete_incomes_id, deleteIncome. destruct (uuid_in id); exact Hdb.
  - destruct (post_expenses userId data id now db) as [resp d] eqn:Hp.
    apply post_expenses_notes in Hp as [->|(r & _ & -> & Hn)]; [done|].
    unfold no_expense_notes. simpl. apply Forall_app. split; [done|].
    by apply Forall_singleton.
  - unfold put_expenses.
    pose proof (Promise_all_keeps no_expense_notes (sync_expense userId) elements db
                  (fun e d d' Hd Hs => sync_expense_notes userId e d d' Hs Hd) Hdb) as Hall.
    by destruct (Promise_all _ _ db) as [[x|] d].
  - unfold delete_expenses_id, deleteExpense. destruct (uuid_in id); [|done].
    unfold delete_where, no_expense_notes. simpl.
    apply Forall_forall. intros r Hr%list_elem_of_filter.
    unfold no_expense_notes in Hdb. rewrite Forall_forall in Hdb. apply Hdb, Hr.
  - unfold post_assets, no_expense_notes.
    repeat case_match; simplify_eq; try done.
    match goal with Hc : createAsset _ _ _ _ = _ |- _ =>
      by apply createAsset_inv in Hc as (r & _ & -> & _) end.
  - unfold put_assets, no_expense_notes.
    pose proof (Promise_all_keeps (fun d => expenses d = expenses db) (sync_asset userId)
                  (elements) db) as Hall.
    destruct (Promise_all _ _ db) as [[x|] d]; simpl in *; rewrite Hall; try done;
      intros e d0 d' Hd Hs; rewrite <- Hd; by eapply sync_asset_expenses.
  - unfold delete_assets_id, deleteAsset. destruct (uuid_in id); exact Hdb.
  - unfold post_liabilities, no_expense_notes.
    repeat case_match; simplify_eq; try done.
    match goal with Hc : createLiability _ _ _ _ = _ |- _ =>
      by apply createLiability_inv in Hc as (r & _ & -> & _) end.
  - unfold put_liabilities, no_expense_notes.
    pose proof (Promise_all_keeps (fun d => expenses d = expenses db) (sync_liability userId)
                  (match elements with inl one => [one] | inr l => l end) db) as Hall.
    destruct (Promise_all _ _ db) as [[x|] d]; simpl in *; rewrite Hall; try done;
      intros e d0 d' Hd Hs; rewrite <- Hd; by eapply sync_liability_expenses.
  - unfold delete_liabilities_id, deleteLiability. destruct (uuid_in id); exact Hdb.
  - unfold post_goals, no_expense_notes.
    repeat case_match; simplify_eq; try done.
    match goal with Hc : createGoal _ _ _ _ = _ |- _ =>
      by apply createGoal_inv in Hc as (r & _ & -> & _) end.
  - unfold put_goals, no_expense_notes.
    pose proof (Promise_all_keeps (fun d => expenses d = expenses db) (sync_goal userId)
                  (elements) db) as Hall.
    destruct (Promise_all _ _ db) as [[x|] d]; simpl in *; rewrite Hall; try done;
      intros e d0 d' Hd Hs; rewrite <- Hd; by eapply sync_goal_expenses.
  - unfold delete_goals_id, deleteGoal. destruct (uuid_in id); exact Hdb.
Qed.
End ExpenseNotes.

(** X17. Through the routes an expense never has notes. The record that
    POST /expenses answers with has none, whatever the body carries
    under [notes]; and when no expense of the database has notes, none
    has after a request to any of the write routes behind the token
    check, with any body, so that every expense is then read without
    notes. *)
Theorem expenses_carry_no_notes {rt : Runtime} {en : Engine} :
  (forall userId data id now db expense db',
     post_expenses userId data id now db = (json expense, db') ->
     Expense.notes expense = None) /\
  (forall userId db db',
     request_by userId db db' -> no_expense_notes db -> no_expense_notes db') /\
  (forall userId db,
     no_expense_notes db ->
     Forall (fun expense => Expense.notes expense = None) (getAllExpenses userId db)).
Proof.
  split_and!.
  - intros userId data id now db expense db' Hp.
    unfold post_expenses in Hp.
    destruct (expenseSchema_parse userId _) as [v|e] eqn:Hv.
    + apply expenseSchema_parse_notes in Hv; [|by apply lookup_delete_eq].
      destruct (createExpense id now v db) as [[e d]|e] eqn:Hc.
      * apply createExpense_notes in Hc as (r & -> & -> & Hn). rewrite Hv in Hn.
        simplify_eq. simpl. by rewrite Hn.
      * destruct e; by simplify_eq.
    + destruct e; by simplify_eq.
  - intros userId db db'. apply request_by_notes.
  - intros userId db Hdb. unfold getAllExpenses.
    apply Forall_fmap, Forall_forall. intros r Hr%select_elem_of.
    unfold no_expense_notes in Hdb. rewrite Forall_forall in Hdb.
    simpl. by rewrite (Hdb r (proj2 Hr)).
Qed.


(** Alice posts the expense "Movie" with notes: the answer has none. *)
Lemma expenses_carry_no_notes_witness :
  let rt := test_runtime in
  let en := test_engine in
  Expense.notes (mapExpense movie_row) = None.
Proof.
  intros rt en.
  destruct (expenses_carry_no_notes (rt := test_runtime) (en := test_engine))
    as (Hpost & _).
  apply (Hpost 1 movie_body id_e2 71 sample_db (mapExpense movie_row)
           (set_expenses sample_db [groceries; movie_row])).
  by vm_compute.
Defined.


(** ** X18: what a create route has checked when it answers 200 *)

Section Checks.

Lemma z_string_inr key v s : z_string key v = inr s -> v = Some (VString s).
Proof. unfold z_string. intros Hz. repeat case_match; by simplify_eq. Qed.

Lemma z_string_min1_inr key msg v s :
  z_string_min1 key msg v = inr s -> v = Some (VString s) /\ s <> "".
Proof.
  unfold z_string_min1. intros Hz. repeat case_match; simplify_eq.
  split; [done|]. by intros ->.
Qed.

Lemma z_string_optional_inr key v notes :
  z_string_optional key v = inr notes -> or_null notes = notes_given v.
Proof. unfold z_string_optional. intros Hz. repeat case_match; by simplify_eq. Qed.

Lemma z_number_inr key v x : z_number key v = inr x -> v = Some (VNumber x) /\ is_nan x = false.
Proof. unfold z_number. intros Hz. repeat case_match; by simplify_eq. Qed.

Lemma z_number_min0_inr key msg v x :
  z_number_min0 key msg v = inr x -> v = Some (VNumber x) /\ non_negative x.
Proof. unfold z_number_min0, non_negative. intros Hz. repeat case_match; by simplify_eq. Qed.

Lemma z_enum_inr options key v s :
  z_enum options key v = inr s -> v = Some (VString s) /\ s ∈ options.
Proof.
  unfold z_enum. intros Hz. repeat case_match; simplify_eq.
  by case_bool_decide.
Qed.

Lemma z_date_inr key v t : z_date key v = inr t -> v = Some (VDate (Some t)).
Proof. unfold z_date. intros Hz. repeat case_match; by simplify_eq. Qed.
End Checks.

Ltac invert_checks :=
  repeat match goal with
  | H : z_string _ _ = inr _ |- _ => apply z_string_inr in H
  | H : z_string_min1 _ _ _ = inr _ |- _ => apply z_string_min1_inr in H as [? ?]
  | H : z_string_optional _ _ = inr _ |- _ => apply z_string_optional_inr in H
  | H : z_number _ _ = inr _ |- _ => apply z_number_inr in H as [? ?]
  | H : z_number_min0 _ _ _ = inr _ |- _ => apply z_number_min0_inr in H as [? ?]
  | H : z_enum _ _ _ = inr _ |- _ => apply z_enum_inr in H as [? ?]
  | H : z_date _ _ = inr _ |- _ => apply z_date_inr in H
  end.

Ltac invert_insert :=
  match goal with
  | Hi : insert_returning _ _ _ = Ok _ |- _ =>
    apply insert_returning_inv in Hi as (-> & -> & _)
  end.

Section Accepted.
Context {rt : Runtime} {en : Engine}.

Lemma post_incomes_accepted userId data id now db income db' :
  post_incomes userId data id now db = (json income, db') ->
  exists uuid source category amount type frequency,
    uuid_in id = Some uuid /\
    data !! "source" = Some (VString source) /\
    data !! "category" = Some (VString category) /\
    (data !! "amount" = Some (VNumber amount) /\ is_nan amount = false) /\
    (data !! "type" = Some (VString type) /\ type ∈ ["active"; "passive"]) /\
    (data !! "frequency" = Some (VString frequency) /\
     frequency ∈ ["monthly"; "bi-weekly"; "weekly"; "annually"; "one-time"]) /\
    income = mapIncome (income_row userId uuid now source category (numberToString amount)
                          type frequency (notes_given (data !! "notes"))) /\
    db' = set_incomes db (incomes db ++
            [income_row userId uuid now source category (numberToString amount)
               type frequency (notes_given (data !! "notes"))]).
Proof.
  unfold post_incomes. intros Hp.
  destruct (incomeSchema_parse userId data) as [v|e] eqn:Hv; [|destruct e; by simplify_eq].
  destruct (createIncome id now v db) as [[r d]|e] eqn:Hc; [|destruct e; by simplify_eq].
  unfold incomeSchema_parse in Hv. repeat case_match; simplify_eq. invert_checks.
  unfold createIncome in Hc. simpl in Hc. repeat case_match; simplify_eq. invert_insert.
  eexists _, _, _, _, _, _. split_and!; try done; unfold income_row; congruence.
Qed.

Lemma post_expenses_accepted userId data id now db expense db' :
  post_expenses userId data id now db = (json expense, db') ->
  exists uuid category amount description date,
    uuid_in id = Some uuid /\
    data !! "category" = Some (VString category) /\
    (data !! "amount" = Some (VNumber amount) /\ is_nan amount = false) /\
    data !! "description" = Some (VString description) /\
    new_Date (data !! "date") = Some date /\
    expense = mapExpense (expense_row userId uuid now category (numberToString amount)
                            description date) /\
    db' = set_expenses db (expenses db ++
            [expense_row userId uuid now category (numberToString amount) description date]).
Proof.
  unfold post_expenses. intros Hp.
  destruct (expenseSchema_parse userId _) as [v|e] eqn:Hv; [|destruct e; by simplify_eq].
  destruct (createExpense id now v db) as [[r d]|e] eqn:Hc; [|destruct e; by simplify_eq].
  unfold expenseSchema_parse, object in Hv.
  rewrite lookup_delete_eq, !lookup_delete_ne, lookup_insert_eq, !lookup_insert_ne in Hv
    by done.
  cbn [z_string_optional] in Hv. repeat case_match; simplify_eq. invert_checks.
  unfold createExpense in Hc. simpl in Hc. repeat case_match; simplify_eq. invert_insert.
  eexists _, _, _, _, _. split_and!; try done; congruence.
Qed.

Lemma post_assets_accepted userId data id now db asset db' :
  post_assets userId data id now db = (json asset, db') ->
  exists uuid name category value incomeGenerated,
    uuid_in id = Some uuid /\
    (data !! "name" = Some (VString name) /\ name <> "") /\
    (data !! "category" = Some (VString category) /\ category <> "") /\
    (data !! "value" = Some (VNumber value) /\ non_negative value) /\
    (data !! "incomeGenerated" = Some (VNumber incomeGenerated) /\
     non_negative incomeGenerated) /\
    asset = mapAsset (asset_row userId uuid now name category (numberToString value)
                        (numberToString incomeGenerated) (notes_given (data !! "notes"))) /\
    db' = set_assets db (assets db ++
            [asset_row userId uuid now name category (numberToString value)
               (numberToString incomeGenerated) (notes_given (data !! "notes"))]).
Proof.
  unfold post_assets. intros Hp.
  destruct (assetSchema_parse userId data) as [v|e] eqn:Hv; [|destruct e; by simplify_eq].
  destruct (createAsset id now v db) as [[r d]|e] eqn:Hc; [|destruct e; by simplify_eq].
  unfold assetSchema_parse in Hv. repeat case_match; simplify_eq. invert_checks.
  unfold createAsset in Hc. simpl in Hc. repeat case_match; simplify_eq. invert_insert.
  eexists _, _, _, _, _. split_and!; try done; unfold asset_row; congruence.
Qed.

Lemma post_liabilities_accepted userId data id now db liability db' :
  post_liabilities userId data id now db = (json liability, db') ->
  exists uuid description type,
    uuid_in id = Some uuid /\
    userId <> 0 /\
    (data !! "description" = Some (VString description) /\ description <> "") /\
    (data !! "type" = Some (VString type) /\ type <> "") /\
    non_negative (Number (data !! "amount")) /\
    non_negative (Number (data !! "interestRate")) /\
    liability = mapLiability
                  (liability_row userId uuid now description type
                     (numberToString (Number (data !! "amount")))
                     (numberToString (Number (data !! "interestRate")))
                     (notes_given (data !! "notes"))) /\
    db' = set_liabilities db (liabilities db ++
            [liability_row userId uuid now description type
               (numberToString (Number (data !! "amount")))
               (numberToString (Number (data !! "interestRate")))
               (notes_given (data !! "notes"))]).
Proof.
  unfold post_liabilities. intros Hp.
  destruct (Z.eqb_spec userId 0) as [->|Hu]; [by simplify_eq|].
  destruct (liabilitySchema_parse userId _) as [v|e] eqn:Hv; [|destruct e; by simplify_eq].
  destruct (createLiability id now v db) as [[r d]|e] eqn:Hc; [|destruct e; by simplify_eq].
  unfold liabilitySchema_parse, object in Hv.
  rewrite ?lookup_insert_eq, ?lookup_insert_ne in Hv by done.
  rewrite ?lookup_insert_eq, ?lookup_insert_ne in Hv by done.
  repeat case_match; simplify_eq. invert_checks. simplify_eq.
  unfold createLiability in Hc. simpl in Hc. repeat case_match; simplify_eq. invert_insert.
  eexists _, _, _. split_and!; try done; unfold liability_row;
    match goal with Hn : or_null _ = _ |- _ => by rewrite Hn end.
Qed.

Lemma post_goals_accepted userId data id now db goal db' :
  post_goals userId data id now db = (json goal, db') ->
  exists uuid description targetDate day,
    uuid_in id = Some uuid /\
    (data !! "description" = Some (VString description) /\ description <> "") /\
    non_negative (Number (data !! "targetAmount")) /\
    non_negative (Number (data !! "currentAmount")) /\
    new_Date (data !! "targetDate") = Some targetDate /\
    date_in (toISOString targetDate) = Some day /\
    goal = mapGoal (goal_row userId uuid now description
                      (numberToString (Number (data !! "targetAmount")))
                      (numberToString (Number (data !! "currentAmount")))
                      day) /\
    db' = set_goals db (goals db ++
            [goal_row userId uuid now description
               (numberToString (Number (data !! "targetAmount")))
               (numberToString (Number (data !! "currentAmount")))
               day]).
Proof.
  unfold post_goals. intros Hp.
  destruct (goalSchema_parse userId _) as [v|e] eqn:Hv; [|destruct e; by simplify_eq].
  destruct (createGoal id now v db) as [[r d]|e] eqn:Hc; [|destruct e; by simplify_eq].
  unfold goalSchema_parse, object in Hv.
  rewrite ?lookup_insert_eq, ?lookup_insert_ne in Hv by done.
  rewrite ?lookup_insert_eq, ?lookup_insert_ne in Hv by done.
  rewrite ?lookup_insert_eq, ?lookup_insert_ne in Hv by done.
  repeat case_match; simplify_eq. invert_checks. simplify_eq.
  unfold createGoal in Hc. simpl in Hc. repeat case_match; simplify_eq. invert_insert.
  eexists _, _, _, _. split_and!; try done.
Qed.
End Accepted.

(** X18. A create route answers 200 only for a body that passed its
    schema, and what it stores and answers is made of that body alone.
    When POST /incomes, /expenses, /assets, /liabilities or /goals answers
    200 with a record, the body carries every property the schema names
    with its type (for an income, a type and a frequency among those of
    the enums; for an asset, a liability and a goal, non-empty texts and
    numbers that are not negative, the amounts of a liability and of a
    goal being taken through [Number] and the dates of an expense and of
    a goal through [new Date]); the record is the reading of one row
    made of these properties, the caller as owner, the uuid of the id
    drawn and the clock reading, the target date of a goal being held as
    the day the engine kept of its ISO text, so that the date answered
    is the reading of that day; and the database is the one before with
    this row added to its table. *)
Theorem create_answers_200_for_valid_bodies_only {rt : Runtime} {en : Engine} (userId : Z)
    (data : object) (id : string) (now : Z) (db db' : Database) :
  (forall income,
     post_incomes userId data id now db = (json income, db') ->
     exists r, accepted_income userId data id now r /\ income = mapIncome r /\
               db' = set_incomes db (incomes db ++ [r])) /\
  (forall expense,
     post_expenses userId data id now db = (json expense, db') ->
     exists r, accepted_expense userId data id now r /\ expense = mapExpense r /\
               db' = set_expenses db (expenses db ++ [r])) /\
  (forall asset,
     post_assets userId data id now db = (json asset, db') ->
     exists r, accepted_asset userId data id now r /\ asset = mapAsset r /\
               db' = set_assets db (assets db ++ [r])) /\
  (forall liability,
     post_liabilities userId data id now db = (json liability, db') ->
     exists r, accepted_liability userId data id now r /\ liability = mapLiability r /\
               db' = set_liabilities db (liabilities db ++ [r])) /\
  (forall goal,
     post_goals userId data id now db = (json goal, db') ->
     exists r, accepted_goal userId data id now r /\ goal = mapGoal r /\
               db' = set_goals db (goals db ++ [r])).
Proof.
  split_and!.
  - intros income Hp.
    apply post_incomes_accepted in Hp
      as (uuid & source & category & amount & type & frequency
          & ? & ? & ? & ? & ? & ? & -> & ->).
    eexists. split; [|done]. by exists uuid, source, category, amount, type, frequency.
  - intros expense Hp.
    apply post_expenses_accepted in Hp
      as (uuid & category & amount & description & date & ? & ? & ? & ? & ? & -> & ->).
    eexists. split; [|done]. by exists uuid, category, amount, description, date.
  - intros asset Hp.
    apply post_assets_accepted in Hp
      as (uuid & name & category & value & incomeGenerated & ? & ? & ? & ? & ? & -> & ->).
    eexists. split; [|done]. by exists uuid, name, category, value, incomeGenerated.
  - intros liability Hp.
    apply post_liabilities_accepted in Hp
      as (uuid & description & type & ? & ? & ? & ? & ? & ? & -> & ->).
    eexists. split; [|done]. by exists uuid, description, type.
  - intros goal Hp.
    apply post_goals_accepted in Hp
      as (uuid & description & targetDate & day & ? & ? & ? & ? & ? & ? & -> & ->).
    eexists. split; [|done]. by exists uuid, description, targetDate, day.
Qed.

(** Alice posts her bonus: the body passed the schema of an income. She
    posts the goal "Trip", due an hour after midnight of a day: the body
    passed the schema of a goal, the row holds the day, and the date she
    is answered is midnight of that day. *)
Lemma create_answers_200_for_valid_bodies_only_witness :
  let rt := test_runtime in
  let en := test_engine in
  (exists r, accepted_income 1 bonus_body id_i2 20 r /\ mapIncome bonus_row = mapIncome r) /\
  (exists r, accepted_goal 1 trip_body id_g2 80 r /\ r = trip_row /\
             post_goals 1 trip_body id_g2 80 sample_db
             = (json (mapGoal r), set_goals sample_db [holiday; r]) /\
             new_Date (trip_body !! "targetDate") = Some 1735693200000 /\
             Goal.targetDate (mapGoal r) = Some 1735689600000).
Proof.
  intros rt en. split.
  - destruct (create_answers_200_for_valid_bodies_only (rt := test_runtime)
                (en := test_engine) 1 bonus_body id_i2 20 sample_db db_with_bonus)
      as (Hi & _).
    destruct (Hi (mapIncome bonus_row)) as (r & Hr & Hm & _); [by vm_compute|].
    by exists r.
  - assert (post_goals 1 trip_body id_g2 80 sample_db
            = (json (mapGoal trip_row), set_goals sample_db [holiday; trip_row])) as Hp
      by by vm_compute.
    destruct (create_answers_200_for_valid_bodies_only (rt := test_runtime)
                (en := test_engine) 1 trip_body id_g2 80 sample_db
                (set_goals sample_db [holiday; trip_row])) as (_ & _ & _ & _ & Hg).
    destruct (Hg (mapGoal trip_row) Hp) as (r & Hr & _ & Hdb).
    assert (r = trip_row) as Heq.
    { apply (f_equal goals) in Hdb. simpl in Hdb. by simplify_eq. }
    exists r. split; [done|]. subst r. split_and!; [done|done|by vm_compute|by vm_compute].
Defined.

(** ** X19: the context of the chat route *)

Lemma append_nonempty (a b : string) : a <> "" -> a +:+ b <> "".
Proof. destruct a as [|c a]; [done|]. intros _. by rewrite append_cons. Qed.

Lemma join_nonempty (sep x : string) (rest : list string) :
  x <> "" -> join sep (x :: rest) <> "".
Proof.
  simpl. revert x. induction rest as [|y rest IH]; intros x Hx; [done|].
  simpl. apply IH. by apply append_nonempty.
Qed.

(** X19. The context that the chat route builds from the caller's
    records is the empty text exactly when the caller has no record of
    any of the five kinds; and when the caller has incomes it starts with
    the line "INCOMES:". *)
Theorem financial_context_is_empty_without_records {rt : Runtime}
    (incomes : list Income.t) (expenses : list Expense.t) (assets : list Asset.t)
    (liabilities : list Liability.t) (goals : list Goal.t) :
  (createFinancialContext incomes expenses assets liabilities goals = "" <->
   incomes = [] /\ expenses = [] /\ assets = [] /\ liabilities = [] /\ goals = []) /\
  (incomes <> [] ->
   exists rest,
     createFinancialContext incomes expenses assets liabilities goals
     = "INCOMES:" +:+ nl +:+ rest).
Proof.
  split.
  - split.
    + intros Hc. destruct incomes, expenses, assets, liabilities, goals; try done;
        exfalso; revert Hc; unfold createFinancialContext; simpl length; cbn [Nat.ltb Nat.leb];
        cbv iota; cbn [app fmap list_fmap]; by apply join_nonempty.
    + by intros (-> & -> & -> & -> & ->).
  - intros Hi. destruct incomes as [|income incomes]; [done|].
    unfold createFinancialContext. simpl length. cbn [Nat.ltb Nat.leb]. cbv iota.
    assert (forall (l : list string) (acc : string),
              exists rest, foldl (fun acc y => acc +:+ nl +:+ y) ("INCOMES:" +:+ nl +:+ acc) l
                           = "INCOMES:" +:+ nl +:+ rest) as Hfold.
    { clear. induction l as [|y l IH]; intros acc; [by eexists|].
      simpl. rewrite !append_assoc. apply IH. }
    repeat case_match; cbn [app fmap list_fmap]; unfold join; cbn [foldl]; apply Hfold.
Qed.

(** With her salary alone, Alice's context starts with "INCOMES:". *)
Lemma financial_context_is_empty_without_records_witness :
  let rt := test_runtime in
  exists rest, createFinancialContext [salary_read] [] [] [] [] = "INCOMES:" +:+ nl +:+ rest.
Proof.
  intros rt.
  destruct (financial_context_is_empty_without_records (rt := test_runtime)
              [salary_read] [] [] [] []) as (_ & Hstart).
  by apply Hstart.
Defined.


(** * Further properties of the advice *)

(** ** X20: the share of the cash flow advised for debt repayment *)

Section Clamp.
Local Open Scope float_scope.

Lemma ltb_leb (x y : float) : (x <? y) = true -> (x <=? y) = true.
Proof.
  rewrite ltb_spec, leb_spec. unfold SFltb, SFleb.
  by destruct (SFcompare (Prim2SF x) (Prim2SF y)) as [[]|].
Qed.

Lemma clamp_bounds (x : float) :
  is_nan x = false ->
  (5 <=? Math_min 20 (Math_max 5 x)) = true /\ (Math_min 20 (Math_max 5 x) <=? 20) = true.
Proof.
  intros Hx. unfold Math_max. rewrite Hx.
  change (is_nan 5) with false. cbn [orb].
  destruct (5 <? x) eqn:H5; unfold Math_min.
  - rewrite Hx. change (is_nan 20) with false. cbn [orb].
    destruct (x <? 20) eqn:H20.
    + split; by apply ltb_leb.
    + split; by vm_compute.
  - change (is_nan 20 || is_nan 5) with false. cbv iota.
    change (5 <? 20) with true. cbv iota. split; by vm_compute.
Qed.

Lemma clamp_nan (x : float) : is_nan x = true -> is_nan (Math_min 20 (Math_max 5 x)) = true.
Proof.
  intros Hx. unfold Math_max. rewrite Hx, orb_true_r.
  unfold Math_min. by rewrite orb_true_r.
Qed.
End Clamp.

Lemma part_here (a t b rest : string) :
  exists before after, a +:+ t +:+ b +:+ rest = before +:+ (a +:+ t +:+ b) +:+ after.
Proof. exists "", rest. by rewrite append_nil, !append_assoc. Qed.

Lemma part_later (s x rest : string) :
  (exists before after, rest = before +:+ x +:+ after) ->
  exists before after, s +:+ rest = before +:+ x +:+ after.
Proof.
  intros (before & after & ->). exists (s +:+ before), after. by rewrite append_assoc.
Qed.

(** X20. The debt template, on liabilities whose amounts sum to more than
    zero, has the line "Allocate N% of your monthly cash flow to debt
    repayment", where N is [toFixed(0)] of the share, and the share is
    always between 5 and 20 when the ratio of the cash flow to the total
    is a number (so it is never negative, whatever the cash flow), and
    NaN, printed "NaN", when it is not. When the sum is not more than
    zero, no such line is written. *)
Theorem debt_share_is_between_5_and_20 {rt : Runtime} (liabilities : list Liability.t)
    (cashFlow : number) :
  ((0 <? totalLiabilities liabilities)%float = true ->
   (exists before after,
      generateLiabilityReductionAdvice liabilities cashFlow
      = before +:+ ("   - Allocate " +:+ toFixed (debt_share liabilities cashFlow) 0
                    +:+ "% of your monthly cash flow to debt repayment") +:+ after) /\
   (is_nan (cashFlow / totalLiabilities liabilities * 100)%float = false ->
    (5 <=? debt_share liabilities cashFlow)%float = true /\
    (debt_share liabilities cashFlow <=? 20)%float = true) /\
   (is_nan (cashFlow / totalLiabilities liabilities * 100)%float = true ->
    toFixed (debt_share liabilities cashFlow) 0 = "NaN")) /\
  ((0 <? totalLiabilities liabilities)%float = false ->
   includes (generateLiabilityReductionAdvice liabilities cashFlow) "Allocate" = false).
Proof.
  split.
  - intros Hpos. split_and!.
    + unfold generateLiabilityReductionAdvice.
      fold (totalLiabilities liabilities). rewrite Hpos.
      fold (debt_share liabilities cashFlow).
      destruct (0 <? length _)%nat; rewrite !append_assoc;
        repeat first [apply part_here | apply part_later].
    + by apply clamp_bounds.
    + intros Hnan. apply clamp_nan in Hnan. unfold debt_share, toFixed.
      by rewrite (proj1 (is_nan_spec _) Hnan).
  - intros Hzero. unfold generateLiabilityReductionAdvice.
    fold (totalLiabilities liabilities). rewrite Hzero.
    destruct (0 <? length _)%nat; by vm_compute.
Qed.

(** With a cash flow of 400 and the car loan of 8000 the ratio is 5 and
    so is the share. *)
Lemma debt_share_is_between_5_and_20_witness :
  let rt := test_runtime in
  (5 <=? debt_share [car_loan_read] 400)%float = true /\
  (debt_share [car_loan_read] 400 <=? 20)%float = true.
Proof.
  intros rt.
  destruct (debt_share_is_between_5_and_20 (rt := test_runtime) [car_loan_read] 400%float)
    as (Hpos & _).
  destruct (Hpos eq_refl) as (_ & Hbounds & _).
  by apply Hbounds.
Defined.


(** ** X21: the guard of the general template *)

(** X21. The general template guards its division: when the active
    income it computes is not more than zero, the advice starts with that
    income and "0.0% coming from passive sources", and is the same
    whatever the passive income is. The advice always quotes the number
    of goals. *)
Theorem general_advice_guards_the_income_ratio {rt : Runtime} (incomes : list Income.t)
    (expenses : list Expense.t) (assets : list Asset.t) (liabilities : list Liability.t)
    (goals : list Goal.t) (cashFlow passiveIncome netWorth : number) :
  ((0 <? activeIncome incomes)%float = false ->
   (exists rest,
      generateGeneralFinancialAdvice incomes expenses assets liabilities goals
        cashFlow passiveIncome netWorth
      = "Based on your financial data, here's a comprehensive overview and advice:"
        +:+ nl +:+ nl +:+ "1. Income: Your active income is "
        +:+ toFixed (activeIncome incomes) 2
        +:+ ", with 0.0% coming from passive sources. " +:+ rest) /\
   (forall passiveIncome',
      generateGeneralFinancialAdvice incomes expenses assets liabilities goals
        cashFlow passiveIncome' netWorth
      = generateGeneralFinancialAdvice incomes expenses assets liabilities goals
          cashFlow passiveIncome netWorth)) /\
  (exists before after,
     generateGeneralFinancialAdvice incomes expenses assets liabilities goals
       cashFlow passiveIncome netWorth
     = before +:+ ("6. Goals: You have " +:+ string_of_N (N.of_nat (length goals))
                   +:+ " financial goals. ") +:+ after).
Proof.
  split.
  - intros Hzero. split.
    + unfold generateGeneralFinancialAdvice. fold (activeIncome incomes). rewrite Hzero.
      assert (toFixed 0%float 1 = "0.0") as -> by by vm_compute.
      eexists. rewrite !append_assoc. reflexivity.
    + intros passiveIncome'. unfold generateGeneralFinancialAdvice.
      fold (activeIncome incomes). by rewrite Hzero.
  - unfold generateGeneralFinancialAdvice. rewrite !append_assoc.
    repeat first [apply part_here | apply part_later].
Qed.

(** With no income at all the advice reads "0.0% coming from passive
    sources", whatever the passive income of the summary. *)
Lemma general_advice_guards_the_income_ratio_witness :
  let rt := test_runtime in
  generateGeneralFinancialAdvice [] [] [] [] [] 0%float 250%float 0%float
  = generateGeneralFinancialAdvice [] [] [] [] [] 0%float 0%float 0%float.
Proof.
  intros rt.
  destruct (general_advice_guards_the_income_ratio (rt := test_runtime) [] [] [] [] []
              0%float 0%float 0%float) as (Hguard & _).
  destruct (Hguard eq_refl) as (_ & Hsame). apply Hsame.
Defined.

(** ** X22: what the asset and goal templates depend on *)

Lemma no_match_length {A} (p : A -> Prop) `{!forall a, Decision (p a)} (l : list A) :
  (length (filter p l) =? 0)%nat = negb (bool_decide (Exists p l)).
Proof.
  induction l as [|a l IH]; [done|].
  destruct (decide (p a)) as [Hp|Hp].
  - rewrite filter_cons_True by done. simpl.
    symmetry. apply negb_false_iff, bool_decide_eq_true. by left.
  - rewrite filter_cons_False, IH by done. f_equal. apply bool_decide_ext.
    split; [by right|]. by inversion 1.
Qed.

Lemma some_match_length {A} (p : A -> Prop) `{!forall a, Decision (p a)} (l : list A) :
  (0 <? length (filter p l))%nat = bool_decide (Exists p l).
Proof.
  pose proof (no_match_length p l) as Hz.
  destruct (length (filter p l)); simpl in *.
  - symmetry in Hz. apply negb_true_iff in Hz. by rewrite Hz.
  - symmetry in Hz. apply negb_false_iff in Hz. by rewrite Hz.
Qed.

(** X22. The asset template and the goal template quote none of the
    figures they are given. The advice on assets is the same for two
    lists of assets that agree on whether some asset has the category
    "Real Estate", on whether some has "Investments" and on whether some
    has "Business", whatever the net worth and the passive income. The
    advice on goals is the same for two lists of goals that agree on
    whether some goal is due within twelve months and on whether some is
    due later, whatever the cash flow and the net worth; a goal whose
    target date is invalid counts for neither. *)
Theorem asset_and_goal_advice_depend_on_presence_only {rt : Runtime} (today : Z) :
  (forall assets assets' netWorth netWorth' passiveIncome passiveIncome',
     (has_category "Real Estate" assets <-> has_category "Real Estate" assets') ->
     (has_category "Investments" assets <-> has_category "Investments" assets') ->
     (has_category "Business" assets <-> has_category "Business" assets') ->
     generateAssetIncreaseAdvice assets netWorth passiveIncome
     = generateAssetIncreaseAdvice assets' netWorth' passiveIncome') /\
  (forall goals goals' cashFlow cashFlow' netWorth netWorth',
     (has_short_term today goals <-> has_short_term today goals') ->
     (has_long_term today goals <-> has_long_term today goals') ->
     generateGoalAchievementAdvice today goals cashFlow netWorth
     = generateGoalAchievementAdvice today goals' cashFlow' netWorth') /\
  (forall g, Goal.targetDate g = None ->
     ~ has_short_term today [g] /\ ~ has_long_term today [g]).
Proof.
  split_and!.
  - intros assets assets' netWorth netWorth' passiveIncome passiveIncome' Hr Hi Hb.
    unfold generateAssetIncreaseAdvice. rewrite !no_match_length.
    unfold has_category in *.
    by rewrite (bool_decide_ext _ _ Hr), (bool_decide_ext _ _ Hi), (bool_decide_ext _ _ Hb).
  - intros goals goals' cashFlow cashFlow' netWorth netWorth' Hs Hl.
    unfold generateGoalAchievementAdvice. rewrite !some_match_length.
    assert (forall gs,
              Exists (fun g => match monthsUntilTarget today g with
                               | Some m => (m <=? 12)%Z | None => false end = true) gs
              <-> has_short_term today gs) as Hshort.
    { intros gs. unfold has_short_term. apply Exists_proper; [|done]. intros g.
      destruct (monthsUntilTarget today g) as [m|]; split.
      - intros Hm%Z.leb_le. by exists m.
      - intros (m' & ? & ?). simplify_eq. by apply Z.leb_le.
      - done.
      - by intros (m' & ? & ?). }
    assert (forall gs,
              Exists (fun g => match monthsUntilTarget today g with
                               | Some m => (12 <? m)%Z | None => false end = true) gs
              <-> has_long_term today gs) as Hlong.
    { intros gs. unfold has_long_term. apply Exists_proper; [|done]. intros g.
      destruct (monthsUntilTarget today g) as [m|]; split.
      - intros Hm%Z.ltb_lt. by exists m.
      - intros (m' & ? & ?). simplify_eq. by apply Z.ltb_lt.
      - done.
      - by intros (m' & ? & ?). }
    rewrite <- !Hshort in Hs. rewrite <- !Hlong in Hl.
    by rewrite (bool_decide_ext _ _ Hs), (bool_decide_ext _ _ Hl).
  - intros g Hg. unfold has_short_term, has_long_term, monthsUntilTarget.
    rewrite !Exists_cons, !Exists_nil, Hg. split; by intros [(m & ? & _)|[]].
Qed.


(** With no asset, the advice on assets is the same for any two net
    worths. *)
Lemma asset_and_goal_advice_depend_on_presence_only_witness :
  let rt := test_runtime in
  generateAssetIncreaseAdvice [] 0%float 0%float
  = generateAssetIncreaseAdvice [] 5000%float 250%float.
Proof.
  intros rt.
  destruct (asset_and_goal_advice_depend_on_presence_only (rt := test_runtime) 0)
    as (Hassets & _).
  by apply Hassets.
Defined.
